(** * cardcopy: the transfer-and-verify engine

    A shallow embedding of the copy/verify engine of [main.py]
    ([CopyManager], [DITCopyTool.copy_process], [copy_folder],
    [copy_file_with_progress], [verify_files], [verify_folder],
    [update_progress], [update_verify_progress]) and of [md5_verifier.py]
    ([MD5Verifier]).

    Conventions of the embedding:
    - a Python [str] is a [string] whose characters are read as the code
      points U+0000..U+00FF;
    - a Python [int] is a [Z]; a Python [float] is an exact rational [Q]
      (rounding is not modelled; [==] is equality of rationals);
    - file contents are [list byte];
    - the worker thread is modelled sequentially: a state is threaded
      through the calls, [time.time()] reads the next value of a clock
      given by the environment, and a press of the stop button is observed
      when the worker polls [copy_manager.copying]. *)

From Stdlib Require Import ZArith QArith Qabs Qminmax Qround Qpower Lqa Strings.String Strings.Ascii Strings.Byte List Lia Bool.
From stdpp Require Import base option list gmap strings fin_maps.

Local Open Scope Z_scope.
Local Open Scope string_scope.

(** ** Python string primitives *)

Module Py.

Definition code (c : ascii) : N := N_of_ascii c.

Definition in_range (lo hi : N) (c : ascii) : bool :=
  ((lo <=? code c) && (code c <=? hi))%N.

(** [str.isspace] on one character (code points below 256). *)
Definition isspace (c : ascii) : bool :=
  in_range 9 13 c || in_range 28 32 c
  || (code c =? 133)%N || (code c =? 160)%N.

(** [str.isalnum] on one character (code points below 256). *)
Definition isalnum (c : ascii) : bool :=
  in_range 48 57 c || in_range 65 90 c || in_range 97 122 c
  || (code c =? 170)%N || (code c =? 178)%N || (code c =? 179)%N
  || (code c =? 181)%N || (code c =? 185)%N || (code c =? 186)%N
  || in_range 188 190 c
  || in_range 192 214 c || in_range 216 246 c || in_range 248 255 c.

Fixpoint lstrip (s : string) : string :=
  match s with
  | String c s' => if isspace c then lstrip s' else s
  | EmptyString => EmptyString
  end.

(** Drops the trailing whitespace: a character is kept when it is not
    a space or when something is kept after it. *)
Fixpoint rstrip (s : string) : string :=
  match s with
  | String c s' =>
      match rstrip s' with
      | EmptyString => if isspace c then EmptyString else String c EmptyString
      | r => String c r
      end
  | EmptyString => EmptyString
  end.

(** [s.strip()] *)
Definition strip (s : string) : string := rstrip (lstrip s).

(** ["".join(c for c in s if p c)] *)
Fixpoint filter (p : ascii -> bool) (s : string) : string :=
  match s with
  | String c s' => if p c then String c (filter p s') else filter p s'
  | EmptyString => EmptyString
  end.

(** [s.replace(a, b)] for one-character strings [a] and [b]. *)
Fixpoint replace_char (a b : ascii) (s : string) : string :=
  match s with
  | String c s' =>
      String (if Ascii.eqb c a then b else c) (replace_char a b s')
  | EmptyString => EmptyString
  end.

(** [c in t] for a character [c] and a string [t]. *)
Fixpoint char_in (c : ascii) (t : string) : bool :=
  match t with
  | String d t' => Ascii.eqb c d || char_in c t'
  | EmptyString => false
  end.

(** [s.startswith(p)] *)
Definition startswith (p s : string) : bool := String.prefix p s.

(** [bool(s)]: a string is true when it is not empty. *)
Definition truthy (s : string) : bool :=
  match s with EmptyString => false | _ => true end.

(** [s.split(sep, 1)] for a non-empty [sep]: the text before the
    leftmost occurrence of [sep] and the text after it, or [None] when
    [sep] does not occur (Python then returns the one-element list
    [[s]]). *)
Fixpoint split_once (sep s : string) : option (string * string) :=
  if String.prefix sep s
  then Some (EmptyString, String.substring (String.length sep)
                            (String.length s - String.length sep) s)
  else match s with
       | String c s' =>
           match split_once sep s' with
           | Some (a, b) => Some (String c a, b)
           | None => None
           end
       | EmptyString => None
       end.

(** [os.path.join(a, b)] on POSIX. *)
Definition endswith_slash (a : string) : bool :=
  match String.get (String.length a - 1) a with
  | Some c => Ascii.eqb c "/"
  | None => false
  end.

Definition path_join (a b : string) : string :=
  if String.prefix "/" b then b
  else if negb (truthy a) || endswith_slash a then a ++ b
  else a ++ "/" ++ b.

(** Decimal digits, as [strftime] prints fixed-width fields. *)
Definition digit (n : Z) : ascii := ascii_of_N (48 + Z.to_N (n mod 10)).

Fixpoint fixed_dec (width : nat) (n : Z) : string :=
  match width with
  | O => EmptyString
  | S w => fixed_dec w (n / 10) ++ String (digit n) EmptyString
  end.

End Py.

(** ** Wall-clock date, as [datetime.now()] returns it *)

Record DateTime := {
  year : Z; month : Z; day : Z; hour : Z; minute : Z; second : Z
}.

(** [strftime("%Y%m%d_%H%M%S")] for a four-digit year. *)
Definition strftime_stamp (d : DateTime) : string :=
  Py.fixed_dec 4 (year d) ++ Py.fixed_dec 2 (month d) ++ Py.fixed_dec 2 (day d)
  ++ "_" ++ Py.fixed_dec 2 (hour d) ++ Py.fixed_dec 2 (minute d)
  ++ Py.fixed_dec 2 (second d).

(** ** NameSanitizer (copy_process, lines 1426-1443) *)

(** [c.isalnum() or c in "-_ "] *)
Definition keep_char (c : ascii) : bool :=
  Py.isalnum c || Py.char_in c "-_ ".

(** [safe_project_name], from the raw text of the project-name field. *)
Definition safe_project_name (raw : string) : string :=
  let project_name := Py.strip raw in
  if Py.truthy project_name
  then Py.replace_char " " "_" (Py.strip (Py.filter keep_char project_name))
  else EmptyString.

(** The value stored in [copy_manager.date_folder]. *)
Definition make_date_folder (auto_date_prefix : bool) (raw : string)
    (now : DateTime) : string :=
  let safe := safe_project_name raw in
  if auto_date_prefix then
    let date_str := strftime_stamp now in
    if Py.truthy safe then date_str ++ "_" ++ safe else date_str
  else safe.

(** ** Chunk size tiers (copy_file_with_progress, lines 1506-1514) *)

Definition MiB : Z := 1024 * 1024.

Definition chunk_size_for (file_size : Z) : Z :=
  (if 500 * 1024 * 1024 <? file_size then 16 * 1024 * 1024
   else if 100 * 1024 * 1024 <? file_size then 8 * 1024 * 1024
   else if 10 * 1024 * 1024 <? file_size then 4 * 1024 * 1024
   else 1024 * 1024)%Z.

(** ** md5_verifier.py *)

(** A file system as the verifier sees it: the bytes of every file that
    can be opened for reading.  Opening any other path raises. *)
Abbreviation FS := (gmap string (list byte)).

(** Exceptions, by the place that raises them. *)
Inductive exn :=
| OSError (path : string)              (* open / stat / copy of [path] failed *)
| Md5Failed (path : string)            (* Exception("计算MD5失败 ...") *)
| LoadFailed (path : string)           (* Exception("加载校验和文件失败 ...") *)
| ZeroDivisionError.

Inductive result (A : Type) :=
| Ok (a : A)
| Raise (e : exn).
Arguments Ok {A} a.
Arguments Raise {A} e.

(** The second component of [verify_file]'s answer. *)
Inductive detail :=
| NoDetail                                       (* the empty string *)
| Mismatch (source_md5 dest_md5 : string)        (* "MD5不匹配: 源=..., 目标=..." *)
| VerifyFailed (e : exn).                        (* "验证失败: ..." *)

(** [f.read(size)]: the bytes read and the bytes left. *)
Definition file_read (size : Z) (data : list byte) : list byte * list byte :=
  if (size <? 0)%Z then (data, [])
  else (take (Z.to_nat size) data, drop (Z.to_nat size) data).

(** The chunks that [while chunk := f.read(size)] goes through.  Every
    non-empty read consumes at least one byte, so [length data] rounds
    are enough. *)
Fixpoint read_chunks_fuel (fuel : nat) (size : Z) (data : list byte)
    : list (list byte) :=
  match fuel with
  | O => []
  | S k =>
      let '(chunk, rest) := file_read size data in
      match chunk with
      | [] => []
      | _ => chunk :: read_chunks_fuel k size rest
      end
  end.

Definition read_chunks (size : Z) (data : list byte) : list (list byte) :=
  read_chunks_fuel (length data) size data.

Section MD5Verifier.

(** [hashlib.md5] is library code: its three operations are taken as
    given. *)
Context {md5_state : Type}.
Variable md5_new : md5_state.
Variable md5_update : md5_state -> list byte -> md5_state.
Variable md5_hexdigest : md5_state -> string.

(** [calculate_md5(file_path, chunk_size)] *)
Definition calculate_md5_with (chunk_size : Z) (fs : FS) (file_path : string)
    : result string :=
  match fs !! file_path with
  | Some data =>
      Ok (md5_hexdigest
            (fold_left md5_update (read_chunks chunk_size data) md5_new))
  | None => Raise (Md5Failed file_path)
  end.

(** [calculate_md5(file_path)], with the default chunk size. *)
Definition calculate_md5 (fs : FS) (file_path : string) : result string :=
  calculate_md5_with 8192 fs file_path.

(** [verify_file(source_path, dest_path)]; [fs1] is the file system at
    the first digest computation and [fs2] at the second. *)
Definition verify_file_at (fs1 fs2 : FS) (source_path dest_path : string)
    : bool * detail :=
  match calculate_md5 fs1 source_path with
  | Raise e => (false, VerifyFailed e)
  | Ok source_md5 =>
      match calculate_md5 fs2 dest_path with
      | Raise e => (false, VerifyFailed e)
      | Ok dest_md5 =>
          if String.eqb source_md5 dest_md5 then (true, NoDetail)
          else (false, Mismatch source_md5 dest_md5)
      end
  end.

Definition verify_file (fs : FS) (source_path dest_path : string)
    : bool * detail :=
  verify_file_at fs fs source_path dest_path.

(** One round of the loop of [load_checksum_file]. *)
Definition load_line (checksums : gmap string string) (line : string)
    : gmap string string :=
  let line := Py.strip line in
  if Py.truthy line && negb (Py.startswith "#" line) then
    match Py.split_once "  " line with
    | Some (md5_hash, file_path) => <[file_path := md5_hash]> checksums
    | None => checksums
    end
  else checksums.

(** The loop [for line in f], on the lines of the file. *)
Definition load_lines (lines : list string) : gmap string string :=
  fold_left load_line lines ∅.

(** [load_checksum_file(checksum_file)]; [texts] gives the lines of
    every text file that can be opened. *)
Definition load_checksum_file (texts : gmap string (list string))
    (checksum_file : string) : result (gmap string string) :=
  match texts !! checksum_file with
  | Some lines => Ok (load_lines lines)
  | None => Raise (LoadFailed checksum_file)
  end.

(** The line [create_checksum_file] writes for one entry:
    [f"{md5_hash}  {rel_path}\n"]. *)
Definition checksum_line (md5_hash rel_path : string) : string :=
  md5_hash ++ "  " ++ rel_path ++ String (ascii_of_N 10) EmptyString.

End MD5Verifier.

(** ** The session state of main.py *)

(** [CopyManager]: the fields the transfer engine reads.  ([verifying],
    [copy_speed], [md5_calc_speed] and [md5_start_time] are only written
    and shown; they are left out together with the clock reads that feed
    them.) *)
Record CopyManager := {
  copying : bool;
  total_files : Z;
  copied_files : Z;
  verified_files : Z;
  total_size : Z;
  copied_size : Q;
  copy_start_time : Q;
  verify_start_time : Q;
  date_folder : option string;
  total_md5_files : Z;
  md5_verified_files : Z;
  md5_calc_size : Z
}.

Definition set_copying (v : bool) (c : CopyManager) : CopyManager :=
  {| copying := v; total_files := total_files c; copied_files := copied_files c;
     verified_files := verified_files c; total_size := total_size c;
     copied_size := copied_size c; copy_start_time := copy_start_time c;
     verify_start_time := verify_start_time c; date_folder := date_folder c;
     total_md5_files := total_md5_files c;
     md5_verified_files := md5_verified_files c; md5_calc_size := md5_calc_size c |}.

Definition set_total_files (v : Z) (c : CopyManager) : CopyManager :=
  {| copying := copying c; total_files := v; copied_files := copied_files c;
     verified_files := verified_files c; total_size := total_size c;
     copied_size := copied_size c; copy_start_time := copy_start_time c;
     verify_start_time := verify_start_time c; date_folder := date_folder c;
     total_md5_files := total_md5_files c;
     md5_verified_files := md5_verified_files c; md5_calc_size := md5_calc_size c |}.

Definition set_copied_files (v : Z) (c : CopyManager) : CopyManager :=
  {| copying := copying c; total_files := total_files c; copied_files := v;
     verified_files := verified_files c; total_size := total_size c;
     copied_size := copied_size c; copy_start_time := copy_start_time c;
     verify_start_time := verify_start_time c; date_folder := date_folder c;
     total_md5_files := total_md5_files c;
     md5_verified_files := md5_verified_files c; md5_calc_size := md5_calc_size c |}.

Definition set_verified_files (v : Z) (c : CopyManager) : CopyManager :=
  {| copying := copying c; total_files := total_files c; copied_files := copied_files c;
     verified_files := v; total_size := total_size c;
     copied_size := copied_size c; copy_start_time := copy_start_time c;
     verify_start_time := verify_start_time c; date_folder := date_folder c;
     total_md5_files := total_md5_files c;
     md5_verified_files := md5_verified_files c; md5_calc_size := md5_calc_size c |}.

Definition set_total_size (v : Z) (c : CopyManager) : CopyManager :=
  {| copying := copying c; total_files := total_files c; copied_files := copied_files c;
     verified_files := verified_files c; total_size := v;
     copied_size := copied_size c; copy_start_time := copy_start_time c;
     verify_start_time := verify_start_time c; date_folder := date_folder c;
     total_md5_files := total_md5_files c;
     md5_verified_files := md5_verified_files c; md5_calc_size := md5_calc_size c |}.

Definition set_copied_size (v : Q) (c : CopyManager) : CopyManager :=
  {| copying := copying c; total_files := total_files c; copied_files := copied_files c;
     verified_files := verified_files c; total_size := total_size c;
     copied_size := v; copy_start_time := copy_start_time c;
     verify_start_time := verify_start_time c; date_folder := date_folder c;
     total_md5_files := total_md5_files c;
     md5_verified_files := md5_verified_files c; md5_calc_size := md5_calc_size c |}.

Definition set_copy_start_time (v : Q) (c : CopyManager) : CopyManager :=
  {| copying := copying c; total_files := total_files c; copied_files := copied_files c;
     verified_files := verified_files c; total_size := total_size c;
     copied_size := copied_size c; copy_start_time := v;
     verify_start_time := verify_start_time c; date_folder := date_folder c;
     total_md5_files := total_md5_files c;
     md5_verified_files := md5_verified_files c; md5_calc_size := md5_calc_size c |}.

Definition set_verify_start_time (v : Q) (c : CopyManager) : CopyManager :=
  {| copying := copying c; total_files := total_files c; copied_files := copied_files c;
     verified_files := verified_files c; total_size := total_size c;
     copied_size := copied_size c; copy_start_time := copy_start_time c;
     verify_start_time := v; date_folder := date_folder c;
     total_md5_files := total_md5_files c;
     md5_verified_files := md5_verified_files c; md5_calc_size := md5_calc_size c |}.

Definition set_date_folder (v : option string) (c : CopyManager) : CopyManager :=
  {| copying := copying c; total_files := total_files c; copied_files := copied_files c;
     verified_files := verified_files c; total_size := total_size c;
     copied_size := copied_size c; copy_start_time := copy_start_time c;
     verify_start_time := verify_start_time c; date_folder := v;
     total_md5_files := total_md5_files c;
     md5_verified_files := md5_verified_files c; md5_calc_size := md5_calc_size c |}.

Definition set_total_md5_files (v : Z) (c : CopyManager) : CopyManager :=
  {| copying := copying c; total_files := total_files c; copied_files := copied_files c;
     verified_files := verified_files c; total_size := total_size c;
     copied_size := copied_size c; copy_start_time := copy_start_time c;
     verify_start_time := verify_start_time c; date_folder := date_folder c;
     total_md5_files := v;
     md5_verified_files := md5_verified_files c; md5_calc_size := md5_calc_size c |}.

Definition set_md5_verified_files (v : Z) (c : CopyManager) : CopyManager :=
  {| copying := copying c; total_files := total_files c; copied_files := copied_files c;
     verified_files := verified_files c; total_size := total_size c;
     copied_size := copied_size c; copy_start_time := copy_start_time c;
     verify_start_time := verify_start_time c; date_folder := date_folder c;
     total_md5_files := total_md5_files c;
     md5_verified_files := v; md5_calc_size := md5_calc_size c |}.

Definition set_md5_calc_size (v : Z) (c : CopyManager) : CopyManager :=
  {| copying := copying c; total_files := total_files c; copied_files := copied_files c;
     verified_files := verified_files c; total_size := total_size c;
     copied_size := copied_size c; copy_start_time := copy_start_time c;
     verify_start_time := verify_start_time c; date_folder := date_folder c;
     total_md5_files := total_md5_files c;
     md5_verified_files := md5_verified_files c; md5_calc_size := v |}.

(** [CopyManager.__init__] *)
Definition new_copy_manager : CopyManager :=
  {| copying := false; total_files := 0; copied_files := 0; verified_files := 0;
     total_size := 0; copied_size := 0; copy_start_time := 0;
     verify_start_time := 0; date_folder := None; total_md5_files := 0;
     md5_verified_files := 0; md5_calc_size := 0 |}.

(** One entry of [source_items]. *)
Record SourceItem := {
  path : string;
  name : string;
  custom_name : option string
}.

(** [source_item.get('custom_name', source_item['name'])] *)
Definition folder_name_of (it : SourceItem) : string :=
  match custom_name it with Some n => n | None => name it end.

(** What the front end hands to the worker: the selected items and the
    option variables, constant during a session. *)
Record Config := {
  source_items : list SourceItem;
  destination_path : string;
  auto_folder : bool;
  auto_date_prefix : bool;
  project_name : string;
  only_media : bool;
  media_extensions : list string
}.

(** What the worker meets outside the program.  [os_walk top] lists, for
    every directory [os.walk(top)] visits, its path relative to [top]
    (["."] for [top] itself, as [os.path.relpath] gives it) and its file
    names; the source trees do not change during a session.  [clock]
    gives the values of the [time.time()] reads the model keeps, in the
    order the worker makes them; no property below assumes anything of
    these values.

    The destination is met through four answers.  [makedirs_fault p]:
    [os.makedirs(p, exist_ok=True)] raises, so that [p] is not a folder
    and no file can be created in it.  [dest_folder p]: [p] is a folder when
    a file is copied to it (it was one before the session, or the session
    made it), with the size [os.path.getsize] reports for it.
    [open_fault p]: opening [p] for writing fails for another reason.
    [write_fault p]: the stream opened on [p] fails at its [n]-th
    operation, a write or the final close. *)
Record Env := {
  clock : nat -> Q;                       (* successive values of time.time() *)
  stop_pressed : nat -> bool;             (* stop_copy() ran before the n-th poll *)
  now_date : DateTime;                    (* datetime.now() when the folder is named *)
  os_walk : string -> list (string * list string);
  src : FS;                               (* the readable source files *)
  chunk_fault : string -> option nat;     (* the stream of this source fails at its n-th read *)
  copy2_fault : string -> bool;           (* shutil.copy2 of this source fails *)
  makedirs_fault : string -> bool;        (* os.makedirs of this directory fails *)
  dest_folder : string -> option Z;          (* this destination path is a folder *)
  open_fault : string -> bool;            (* open(path, 'wb') fails *)
  write_fault : string -> option nat      (* the destination stream fails at its n-th operation *)
}.

(** Lines of the session log that report an outcome (purely informative
    lines are left out). *)
Inductive LogLine :=
| LogMakeRoot (final_dest : string)
| LogMkdirFailed (dir : string)
| LogCopyFile (file source_file dest_file : string)
| LogFallback (source_file : string)
| LogCopyOk (file : string)
| LogSizeMatch (size : Z)
| LogSizeMismatch (source_size dest_size : Z)
| LogMissingAfterCopy (file : string)
| LogCopied (file : string) (size : Z)
| LogCopyFailed (file : string)
| LogNegativeTime
| LogSpeedAnomaly
| LogVerifyStart (total : Z)
| LogCheckFile (file source_file dest_file : string) (dest_exists : bool)
| LogMd5Match (file : string)
| LogMd5Mismatch (file : string)
| LogMd5Error (file : string)
| LogNotFound (file : string)
| LogVerifySummary (total ok failed : Z)
| LogProcessError (e : exn)
| LogCompleted
| LogStopped.

Inductive Phase := CopyPhase | VerifyPhase.

(** What [update_progress] and [update_verify_progress] put on screen. *)
Record Progress := {
  shown_phase : Phase;
  shown_done : Z;
  shown_total : Z;
  shown_percent : Q;
  shown_speed : Q;
  shown_elapsed : Q;
  shown_eta : Q
}.

(** The state threaded through the worker.  [past] holds the earlier
    values of the copy manager since the session's reset, latest first;
    [log] and [shown] are latest first as well. *)
Record World := {
  cm : CopyManager;
  past : list CopyManager;
  log : list LogLine;
  shown : list Progress;
  dst : FS;
  ticks : nat;
  polls : nat
}.

Definition assign (f : CopyManager -> CopyManager) (w : World) : World :=
  {| cm := f (cm w); past := cm w :: past w; log := log w; shown := shown w;
     dst := dst w; ticks := ticks w; polls := polls w |}.

Definition add_log (l : LogLine) (w : World) : World :=
  {| cm := cm w; past := past w; log := l :: log w; shown := shown w;
     dst := dst w; ticks := ticks w; polls := polls w |}.

Definition show (p : Progress) (w : World) : World :=
  {| cm := cm w; past := past w; log := log w; shown := p :: shown w;
     dst := dst w; ticks := ticks w; polls := polls w |}.

Definition set_dst (d : FS) (w : World) : World :=
  {| cm := cm w; past := past w; log := log w; shown := shown w;
     dst := d; ticks := ticks w; polls := polls w |}.

(** [time.time()] *)
Definition time (env : Env) (w : World) : Q * World :=
  (clock env (ticks w),
   {| cm := cm w; past := past w; log := log w; shown := shown w;
      dst := dst w; ticks := S (ticks w); polls := polls w |}).

(** Reading [self.copy_manager.copying]: a press of the stop button
    before this read has cleared the flag. *)
Definition poll (env : Env) (w : World) : bool * World :=
  let w1 := {| cm := cm w; past := past w; log := log w; shown := shown w;
               dst := dst w; ticks := ticks w; polls := S (polls w) |} in
  let w2 := if stop_pressed env (polls w) then assign (set_copying false) w1
            else w1 in
  (copying (cm w2), w2).

(** The whole history of the copy manager, latest first. *)
Definition history (w : World) : list CopyManager := cm w :: past w.

(** ** Path and file helpers used by main.py *)

Module OsPath.

(** The part of [p] after its last ['/']. *)
Fixpoint basename (p : string) : string :=
  match p with
  | String c p' =>
      if Py.char_in "/" p' then basename p'
      else if Ascii.eqb c "/" then p' else p
  | EmptyString => EmptyString
  end.

(** Splits at the last ['.']: the text before it, and the text from it. *)
Fixpoint last_dot (s : string) : option (string * string) :=
  match s with
  | String c s' =>
      match last_dot s' with
      | Some (a, e) => Some (String c a, e)
      | None => if Ascii.eqb c "." then Some (EmptyString, s) else None
      end
  | EmptyString => None
  end.

Fixpoint all_dots (s : string) : bool :=
  match s with
  | String c s' => Ascii.eqb c "." && all_dots s'
  | EmptyString => true
  end.

(** [os.path.splitext(p)[1]]: leading dots of the file name do not
    start an extension. *)
Definition splitext_ext (p : string) : string :=
  match last_dot (basename p) with
  | Some (a, e) => if all_dots a then EmptyString else e
  | None => EmptyString
  end.

Definition lower_char (c : ascii) : ascii :=
  if Py.in_range 65 90 c || Py.in_range 192 214 c || Py.in_range 216 222 c
  then ascii_of_N (Py.code c + 32) else c.

(** [s.lower()] (code points below 256). *)
Fixpoint lower (s : string) : string :=
  match s with
  | String c s' => String (lower_char c) (lower s')
  | EmptyString => EmptyString
  end.

(** [p[:p.rfind('/') + 1]] *)
Fixpoint head_to_slash (p : string) : string :=
  match p with
  | String c p' =>
      if Py.char_in "/" p' then String c (head_to_slash p')
      else if Ascii.eqb c "/" then String c EmptyString else EmptyString
  | EmptyString => EmptyString
  end.

(** [s.rstrip('/')] *)
Fixpoint rstrip_slash (s : string) : string :=
  match s with
  | String c s' =>
      match rstrip_slash s' with
      | EmptyString =>
          if Ascii.eqb c "/" then EmptyString else String c EmptyString
      | r => String c r
      end
  | EmptyString => EmptyString
  end.

(** [os.path.dirname(p)]: the part before the last ['/'], without the
    slashes at its end unless it is made of slashes only. *)
Definition dirname (p : string) : string :=
  let head := head_to_slash p in
  match rstrip_slash head with
  | EmptyString => head
  | r => r
  end.

(** [os.path.getsize(p)]: [None] when the call raises. *)
Definition getsize (fs : FS) (p : string) : option Z :=
  match fs !! p with
  | Some data => Some (Z.of_nat (length data))
  | None => None
  end.

(** [os.path.exists(p)] for a file path.  A store holds the files whose
    bytes can be read; a path that exists without being readable (a
    folder, a file that cannot be opened) is not in it. *)
Definition exists_ (fs : FS) (p : string) : bool :=
  match fs !! p with Some _ => true | None => false end.

(** The directory [os.walk(top)] reports at relative path [rel]. *)
Definition walk_root (top rel : string) : string :=
  if String.eqb rel "." then top else Py.path_join top rel.

End OsPath.

(** [is_media_file(file_path)] *)
Definition is_media_file (cfg : Config) (file_path : string) : bool :=
  let ext := OsPath.lower (OsPath.splitext_ext file_path) in
  existsb (String.eqb ext) (media_extensions cfg).

(** ** ProgressTracker arithmetic (update_progress, update_verify_progress) *)

Definition Qltb (a b : Q) : bool := negb (Qle_bool b a).

(** [max(0, x)] *)
Definition py_max0 (x : Q) : Q := if Qltb 0 x then x else 0%Q.

(** [min(a, b)] *)
Definition py_min (a b : Q) : Q := if Qltb b a then b else a.

Definition percent (done total : Z) : Q :=
  (inject_Z done / inject_Z total * 100)%Q.

(** [speed_mb_s], lines 1862-1866. *)
Definition copy_speed_mb_s (c : CopyManager) (elapsed_time : Q) : Q :=
  if Qltb 0 elapsed_time && Qle_bool 0 (copied_size c)
  then py_max0 ((copied_size c / inject_Z (1024 * 1024)) / elapsed_time)%Q
  else 0%Q.

(** [eta_seconds], lines 1877-1881. *)
Definition copy_eta (c : CopyManager) (speed_mb_s : Q) : Q :=
  if Qltb 0 speed_mb_s && Qltb (copied_size c) (inject_Z (total_size c))
  then
    let remaining_mb :=
      ((inject_Z (total_size c) - copied_size c) / inject_Z (1024 * 1024))%Q in
    (remaining_mb / speed_mb_s)%Q
  else 0%Q.

(** [verify_speed], lines 1914-1917. *)
Definition verify_speed_of (c : CopyManager) (elapsed_time : Q) : Q :=
  if Qltb 0 elapsed_time then (inject_Z (verified_files c) / elapsed_time)%Q
  else 0%Q.

(** [eta_seconds], lines 1919-1923. *)
Definition verify_eta (c : CopyManager) (verify_speed : Q) : Q :=
  if Qltb 0 verify_speed && (verified_files c <? total_files c)%Z
  then
    let remaining_files := (total_files c - verified_files c)%Z in
    (inject_Z remaining_files / verify_speed)%Q
  else 0%Q.

(** The elapsed time since [start], lines 1852-1859: no clock read when
    the start time is unset, and a negative difference is logged and
    replaced by 0. *)
Definition elapsed_since (env : Env) (start : Q) (w : World) : Q * World :=
  if Qltb 0 start then
    let '(now, w1) := time env w in
    let elapsed_time := (now - start)%Q in
    if Qltb elapsed_time 0 then (0%Q, add_log LogNegativeTime w1)
    else (elapsed_time, w1)
  else (0%Q, w).

(** [update_progress()] *)
Definition update_progress (env : Env) (w : World) : World :=
  if (0 <? total_files (cm w))%Z then
    let file_progress := percent (copied_files (cm w)) (total_files (cm w)) in
    let '(elapsed_time, w1) := elapsed_since env (copy_start_time (cm w)) w in
    let c := cm w1 in
    let speed_mb_s := copy_speed_mb_s c elapsed_time in
    let w2 := if Qltb speed_mb_s 0 || Qltb 10000 speed_mb_s
              then add_log LogSpeedAnomaly w1 else w1 in
    let eta_seconds := copy_eta c speed_mb_s in
    show {| shown_phase := CopyPhase; shown_done := copied_files c;
            shown_total := total_files c; shown_percent := file_progress;
            shown_speed := speed_mb_s; shown_elapsed := elapsed_time;
            shown_eta := eta_seconds |} w2
  else w.

(** [update_verify_progress()] *)
Definition update_verify_progress (env : Env) (w : World) : World :=
  if (0 <? total_files (cm w))%Z then
    let file_progress := percent (verified_files (cm w)) (total_files (cm w)) in
    let '(elapsed_time, w1) := elapsed_since env (verify_start_time (cm w)) w in
    let c := cm w1 in
    let verify_speed := verify_speed_of c elapsed_time in
    let eta_seconds := verify_eta c verify_speed in
    show {| shown_phase := VerifyPhase; shown_done := verified_files c;
            shown_total := total_files c; shown_percent := file_progress;
            shown_speed := verify_speed; shown_elapsed := elapsed_time;
            shown_eta := eta_seconds |} w1
  else w.

(** ** ChunkedCopier (copy_file_with_progress) *)

(** [update_interval = 0.2] *)
Definition update_interval : Q := (2 # 10)%Q.

(** [temp_copied_size], lines 1553-1555. *)
Definition provisional (c : CopyManager) (file_size copied : Z) : Q :=
  let file_progress_ratio :=
    if (0 <? file_size)%Z then (inject_Z copied / inject_Z file_size)%Q
    else 0%Q in
  let temp_copied_size :=
    (copied_size c + inject_Z file_size * file_progress_ratio)%Q in
  py_min temp_copied_size (inject_Z (total_size c)).

(** The test of line 1558: the change exceeds 1% of the total size. *)
Definition significant (c : CopyManager) (temp_copied_size : Q) : bool :=
  Qltb (inject_Z (total_size c) * (1 # 100))%Q
       (Qabs (temp_copied_size - copied_size c)%Q).

(** The throttled progress push, lines 1551-1562, run when 200ms have
    passed since the last push. *)
Definition push_progress (env : Env) (file_size copied : Z) (w : World) : World :=
  if (0 <? total_size (cm w))%Z then
    let temp_copied_size := provisional (cm w) file_size copied in
    if significant (cm w) temp_copied_size then
      let original_copied_size := copied_size (cm w) in
      let w1 := assign (set_copied_size temp_copied_size) w in
      let w2 := update_progress env w1 in
      assign (set_copied_size original_copied_size) w2
    else w
  else w.

(** Whether [p] is a folder of the destination. *)
Definition is_dir (env : Env) (p : string) : bool :=
  match dest_folder env p with Some _ => true | None => false end.

(** Whether [open(p, 'wb')] raises: [p] is a folder, the directory of
    [p] could not be made, or the opening fails for another reason. *)
Definition cannot_create (env : Env) (p : string) : bool :=
  is_dir env p
  || (Py.truthy (OsPath.dirname p) && makedirs_fault env (OsPath.dirname p))
  || open_fault env p.

(** [dst.write(chunk)] *)
Definition write_chunk (dest_file : string) (chunk : list byte) (w : World) : World :=
  set_dst (<[dest_file := (default [] (dst w !! dest_file) ++ chunk)%list]> (dst w)) w.

(** The [while True] loop of lines 1529-1565, at its [i]-th round, with
    the chunks the source still holds; leaving the loop closes the
    destination stream, the [i]-th operation on it.  A failing write
    leaves the chunks written before it.  (The progress line logged every
    ten seconds for a large file and the refresh of the window change
    nothing of the state modelled here and are left out.) *)
Fixpoint chunk_loop (env : Env) (source_file dest_file : string) (file_size : Z)
    (chunks : list (list byte)) (i : nat) (copied : Z) (last_update_time : Q)
    (w : World) : result unit * World :=
  let close w :=
    if decide (write_fault env dest_file = Some i)
    then (Raise (OSError dest_file), w) else (Ok tt, w) in
  let '(go, w) := poll env w in
  if negb go then close w
  else if decide (chunk_fault env source_file = Some i)
  then (Raise (OSError source_file), w)
  else
    match chunks with
    | [] => close w
    | chunk :: rest =>
        if decide (write_fault env dest_file = Some i)
        then (Raise (OSError dest_file), w)
        else
        let w := write_chunk dest_file chunk w in
        let copied := (copied + Z.of_nat (length chunk))%Z in
        let '(current_time, w) := time env w in
        if Qle_bool update_interval (current_time - last_update_time)%Q then
          let w := push_progress env file_size copied w in
          chunk_loop env source_file dest_file file_size rest (S i) copied
            current_time w
        else
          chunk_loop env source_file dest_file file_size rest (S i) copied
            last_update_time w
    end.

(** The [try] block of lines 1525-1565: the source is opened, then the
    destination (it is created or truncated), then the loop runs. *)
Definition chunked_copy (env : Env) (source_file dest_file : string)
    (file_size : Z) (w : World) : result unit * World :=
  let chunk_size := chunk_size_for file_size in
  let '(last_update_time, w) := time env w in
  match src env !! source_file with
  | None => (Raise (OSError source_file), w)
  | Some data =>
      if cannot_create env dest_file then (Raise (OSError dest_file), w)
      else
        let w := set_dst (<[dest_file := []]> (dst w)) w in
        chunk_loop env source_file dest_file file_size
          (read_chunks chunk_size data) 0 0 last_update_time w
  end.

(** The file [shutil.copy2(source_file, dest_file)] writes: into
    [dest_file] when it is a folder. *)
Definition copy2_target (env : Env) (source_file dest_file : string) : string :=
  if is_dir env dest_file
  then Py.path_join dest_file (OsPath.basename source_file)
  else dest_file.

(** [shutil.copy2(source_file, dest_file)].  (What a failing call
    leaves of its target is not modelled.) *)
Definition copy2 (env : Env) (source_file dest_file : string) (w : World)
    : result unit * World :=
  let target := copy2_target env source_file dest_file in
  match src env !! source_file with
  | Some data =>
      if copy2_fault env source_file then (Raise (OSError source_file), w)
      else if cannot_create env target then (Raise (OSError target), w)
      else (Ok tt, set_dst (<[target := data]> (dst w)) w)
  | None => (Raise (OSError source_file), w)
  end.

(** [copy_file_with_progress(source_file, dest_file, file_size)] *)
Definition copy_file_with_progress (env : Env) (source_file dest_file : string)
    (file_size : Z) (w : World) : result unit * World :=
  match chunked_copy env source_file dest_file file_size w with
  | (Ok tt, w1) => (Ok tt, w1)
  | (Raise e, w1) =>
      copy2 env source_file dest_file (add_log (LogFallback source_file) w1)
  end.

(** ** copy_folder *)

(** [os.path.getsize(p)] for a path of the destination: a folder has
    a size as well, and [os.path.exists(p)] holds when this is [Some]. *)
Definition dest_getsize (env : Env) (fs : FS) (p : string) : option Z :=
  match dest_folder env p with
  | Some n => Some n
  | None => OsPath.getsize fs p
  end.

(** The body of [for file in files], lines 1619-1673, after the poll of
    the stop flag.  The source is not written during a session, so its
    second [getsize] gives [file_size] again; [copy_start] and [copy_time]
    only feed [copy_speed]. *)
Definition copy_one_file (env : Env) (cfg : Config) (root current_dest file : string)
    (w : World) : World :=
  let source_file := Py.path_join root file in
  let dest_file := Py.path_join current_dest file in
  if only_media cfg && negb (is_media_file cfg source_file) then w
  else
    match OsPath.getsize (src env) source_file with
    | None => add_log (LogCopyFailed file) w
    | Some file_size =>
        let w := add_log (LogCopyFile file source_file dest_file) w in
        match copy_file_with_progress env source_file dest_file file_size w with
        | (Raise e, w) => add_log (LogCopyFailed file) w
        | (Ok tt, w) =>
            let w :=
              match dest_getsize env (dst w) dest_file with
              | Some dest_size =>
                  let w := add_log (LogCopyOk file) w in
                  if (file_size =? dest_size)%Z
                  then add_log (LogSizeMatch file_size) w
                  else add_log (LogSizeMismatch file_size dest_size) w
              | None => add_log (LogMissingAfterCopy file) w
              end in
            let w := assign (fun c => set_copied_files (copied_files c + 1)%Z c) w in
            let w := assign (fun c =>
                       set_copied_size (copied_size c + inject_Z file_size)%Q c) w in
            let w := update_progress env w in
            add_log (LogCopied file file_size) w
        end
    end.

Fixpoint copy_files (env : Env) (cfg : Config) (root current_dest : string)
    (files : list string) (w : World) : World :=
  match files with
  | [] => w
  | file :: rest =>
      let '(go, w) := poll env w in
      if go
      then copy_files env cfg root current_dest rest
             (copy_one_file env cfg root current_dest file w)
      else w
  end.

(** [os.path.join(target_path, rel_path)], or [target_path] for ["."]. *)
Definition dest_dir (target_path rel_path : string) : string :=
  if String.eqb rel_path "." then target_path
  else Py.path_join target_path rel_path.

(** The loop over [os.walk(source_path)], lines 1586-1673.  A
    sub-directory that cannot be made is logged and the loop goes on to
    its files (lines 1607-1612); their destination files cannot be created
    then, which [cannot_create] tells from [makedirs_fault] of their
    directory. *)
Fixpoint copy_dirs (env : Env) (cfg : Config) (source_path target_path : string)
    (dirs : list (string * list string)) (w : World) : World :=
  match dirs with
  | [] => w
  | (rel_path, files) :: rest =>
      let '(go, w) := poll env w in
      if go then
        let root := OsPath.walk_root source_path rel_path in
        let current_dest := dest_dir target_path rel_path in
        let w := if makedirs_fault env current_dest
                 then add_log (LogMkdirFailed current_dest) w else w in
        copy_dirs env cfg source_path target_path rest
          (copy_files env cfg root current_dest files w)
      else w
  end.

(** [copy_folder(source_path, dest_path, folder_name)] *)
Definition copy_folder (env : Env) (cfg : Config)
    (source_path dest_path folder_name : string) (w : World)
    : result unit * World :=
  let target_path := Py.path_join dest_path folder_name in
  if makedirs_fault env target_path then (Raise (OSError target_path), w)
  else (Ok tt, copy_dirs env cfg source_path target_path
                 (os_walk env source_path) w).

(** ** verify_folder, verify_files and copy_process *)

Inductive Outcome :=
| Completed
| Stopped
| Failed (e : exn).

Section Session.

Context {md5_state : Type}.
Variable md5_new : md5_state.
Variable md5_update : md5_state -> list byte -> md5_state.
Variable md5_hexdigest : md5_state -> string.

Let md5_of := calculate_md5 md5_new md5_update md5_hexdigest.

(** The body of [for file in files] of [verify_folder], lines
    1764-1837, after the poll of the stop flag. *)
Definition verify_one_file (env : Env) (root current_dest file : string)
    (w : World) : World :=
  let source_file := Py.path_join root file in
  let dest_file := Py.path_join current_dest file in
  let w := assign (fun c =>
             set_md5_verified_files (md5_verified_files c + 1)%Z c) w in
  let w :=
    match OsPath.getsize (src env) source_file with
    | Some file_size =>
        assign (fun c => set_md5_calc_size (md5_calc_size c + file_size)%Z c) w
    | None => w
    end in
  let w := add_log (LogCheckFile file source_file dest_file
                      (OsPath.exists_ (dst w) dest_file)) w in
  if OsPath.exists_ (dst w) dest_file then
    if (total_md5_files (cm w) =? 0)%Z then add_log (LogMd5Error file) w
    else
      match md5_of (src env) source_file with
      | Raise e => add_log (LogMd5Error file) w
      | Ok source_md5 =>
          match md5_of (dst w) dest_file with
          | Raise e => add_log (LogMd5Error file) w
          | Ok dest_md5 =>
              if String.eqb source_md5 dest_md5 then
                let w := assign (fun c =>
                           set_verified_files (verified_files c + 1)%Z c) w in
                let w := update_verify_progress env w in
                add_log (LogMd5Match file) w
              else add_log (LogMd5Mismatch file) w
          end
      end
  else add_log (LogNotFound file) w.

Fixpoint verify_file_list (env : Env) (root current_dest : string)
    (files : list string) (w : World) : World :=
  match files with
  | [] => w
  | file :: rest =>
      let '(go, w) := poll env w in
      if go
      then verify_file_list env root current_dest rest
             (verify_one_file env root current_dest file w)
      else w
  end.

Fixpoint verify_dirs (env : Env) (source_path dest_path : string)
    (dirs : list (string * list string)) (w : World) : World :=
  match dirs with
  | [] => w
  | (rel_path, files) :: rest =>
      let '(go, w) := poll env w in
      if go then
        let root := OsPath.walk_root source_path rel_path in
        let current_dest := dest_dir dest_path rel_path in
        verify_dirs env source_path dest_path rest
          (verify_file_list env root current_dest files w)
      else w
  end.

(** [verify_folder(source_path, dest_path)] *)
Definition verify_folder (env : Env) (source_path dest_path : string)
    (w : World) : World :=
  verify_dirs env source_path dest_path (os_walk env source_path) w.

(** The number of files [os.walk] lists under the items, lines
    1684-1689. *)
Definition count_walked (env : Env) (items : list SourceItem) : Z :=
  fold_left (fun total it =>
    fold_left (fun total dir => (total + Z.of_nat (length (snd dir)))%Z)
      (os_walk env (path it)) total) items 0%Z.

(** [final_dest] of the verify phase, lines 1693-1702. *)
Definition verify_final_dest (cfg : Config) (c : CopyManager) : string :=
  if auto_folder cfg then
    match date_folder c with
    | Some d => Py.path_join (destination_path cfg) d
    | None => destination_path cfg
    end
  else destination_path cfg.

Fixpoint verify_items (env : Env) (final_dest : string)
    (items : list SourceItem) (w : World) : World :=
  match items with
  | [] => w
  | it :: rest =>
      let '(go, w) := poll env w in
      if go then
        let dest_path := Py.path_join final_dest (folder_name_of it) in
        verify_items env final_dest rest
          (verify_folder env (path it) dest_path w)
      else w
  end.

(** [verify_files()] *)
Definition verify_files (env : Env) (cfg : Config) (w : World) : World :=
  let '(now, w) := time env w in
  let w := assign (set_verify_start_time now) w in
  let w := assign (set_md5_verified_files 0) w in
  let w := assign (set_md5_calc_size 0) w in
  let total := count_walked env (source_items cfg) in
  let w := assign (set_total_md5_files total) w in
  let w := add_log (LogVerifyStart total) w in
  let final_dest := verify_final_dest cfg (cm w) in
  let w := verify_items env final_dest (source_items cfg) w in
  add_log (LogVerifySummary (total_md5_files (cm w)) (verified_files (cm w))
             (total_md5_files (cm w) - verified_files (cm w))%Z) w.

(** The reset of lines 1403-1411; the history of the copy manager
    starts afresh with the reset state. *)
Definition reset_counters (c : CopyManager) : CopyManager :=
  set_date_folder None
    (set_copied_size 0%Q
       (set_total_size 0
          (set_verified_files 0
             (set_copied_files 0
                (set_total_files 0 (set_copying true c)))))).

Definition begin_session (w : World) : World :=
  {| cm := reset_counters (cm w); past := []; log := log w; shown := shown w;
     dst := dst w; ticks := ticks w; polls := polls w |}.

(** Lines 1424-1447: the root folder is named unless a name is stored,
    and [final_dest] is built from the stored name. *)
Definition destination_root (env : Env) (cfg : Config) (w : World)
    : string * World :=
  if auto_folder cfg then
    match date_folder (cm w) with
    | None =>
        let d := make_date_folder (auto_date_prefix cfg) (project_name cfg)
                   (now_date env) in
        (Py.path_join (destination_path cfg) d,
         assign (set_date_folder (Some d)) w)
    | Some d => (Py.path_join (destination_path cfg) d, w)
    end
  else (destination_path cfg, w).

(** The counting walk, lines 1456-1466. *)
Definition count_one (env : Env) (cfg : Config) (root : string) (w : World)
    (file : string) : World :=
  let file_path := Py.path_join root file in
  if only_media cfg && negb (is_media_file cfg file_path) then w
  else
    let w := assign (fun c => set_total_files (total_files c + 1)%Z c) w in
    match OsPath.getsize (src env) file_path with
    | Some n => assign (fun c => set_total_size (total_size c + n)%Z c) w
    | None => w
    end.

Definition count_dir (env : Env) (cfg : Config) (top : string) (w : World)
    (dir : string * list string) : World :=
  fold_left (count_one env cfg (OsPath.walk_root top (fst dir))) (snd dir) w.

Definition count_item (env : Env) (cfg : Config) (w : World) (it : SourceItem)
    : World :=
  fold_left (count_dir env cfg (path it)) (os_walk env (path it)) w.

Definition count_items (env : Env) (cfg : Config) (w : World) : World :=
  fold_left (count_item env cfg) (source_items cfg) w.

(** The copy loop over the source items, lines 1475-1481. *)
Fixpoint copy_items (env : Env) (cfg : Config) (final_dest : string)
    (items : list SourceItem) (w : World) : result unit * World :=
  match items with
  | [] => (Ok tt, w)
  | it :: rest =>
      let '(go, w) := poll env w in
      if go then
        match copy_folder env cfg (path it) final_dest (folder_name_of it) w with
        | (Ok tt, w) => copy_items env cfg final_dest rest w
        | (Raise e, w) => (Raise e, w)
        end
      else (Ok tt, w)
  end.

(** The [except] clause of [copy_process]. *)
Definition process_error (e : exn) (w : World) : Outcome * World :=
  (Failed e, add_log (LogProcessError e) w).

(** The part of [copy_process] after the copy loop, lines 1483-1491. *)
Definition finish_session (env : Env) (cfg : Config) (w : World)
    : Outcome * World :=
  let '(go, w) := poll env w in
  let w := if go && (0 <? copied_files (cm w))%Z
           then verify_files env cfg w else w in
  let '(go, w) := poll env w in
  if go then (Completed, add_log LogCompleted w)
  else (Stopped, add_log LogStopped w).

(** The part of [copy_process] up to the end of the copy loop. *)
Definition copy_phase (env : Env) (cfg : Config) (w : World)
    : result unit * World :=
  let w := begin_session w in
  let '(final_dest, w) := destination_root env cfg w in
  if makedirs_fault env final_dest then (Raise (OSError final_dest), w)
  else
    let w := add_log (LogMakeRoot final_dest) w in
    let w := count_items env cfg w in
    let '(now, w) := time env w in
    let w := assign (set_copy_start_time now) w in
    copy_items env cfg final_dest (source_items cfg) w.

(** [copy_process()] *)
Definition copy_process (env : Env) (cfg : Config) (w : World)
    : Outcome * World :=
  match copy_phase env cfg w with
  | (Ok tt, w) => finish_session env cfg w
  | (Raise e, w) => process_error e w
  end.

End Session.

(** ** Predicates used in the statements *)

Module PyProps.

(** [all(p(c) for c in s)] *)
Fixpoint all_chars (p : ascii -> bool) (s : string) : bool :=
  match s with
  | String c s' => p c && all_chars p s'
  | EmptyString => true
  end.

(** [sep in s] *)
Fixpoint occurs (sep s : string) : bool :=
  String.prefix sep s ||
  match s with
  | String _ s' => occurs sep s'
  | EmptyString => false
  end.

(** A character of a sanitized name: alphanumeric, hyphen or
    underscore. *)
Definition name_char (c : ascii) : bool :=
  Py.isalnum c || Py.char_in c "-_".

End PyProps.

(** ** Notions used to state the session properties *)

(** The file and size counters of [b] are at least those of [a]. *)
Definition counters_le (a b : CopyManager) : Prop :=
  (total_files a <= total_files b)%Z /\ (copied_files a <= copied_files b)%Z
  /\ (verified_files a <= verified_files b)%Z
  /\ (total_size a <= total_size b)%Z.

(** The assignment that led to [new] put the copy manager back to the
    value it had two assignments earlier ([rest] is the history before
    the value that [new] replaces). *)
Definition restores (rest : list CopyManager) (new : CopyManager) : Prop :=
  match rest with
  | prev :: _ => prev = new
  | [] => False
  end.

(** Every assignment of a history (latest first) keeps the counters from
    decreasing; [copied_size] may only go down by a restore. *)
Fixpoint steps_ok (h : list CopyManager) : Prop :=
  match h with
  | new :: t =>
      match t with
      | old :: rest =>
          counters_le old new
          /\ ((copied_size old <= copied_size new)%Q \/ restores rest new)
      | [] => True
      end /\ steps_ok t
  | [] => True
  end.

Definition state_ok (cfg : Config) (c : CopyManager) : Prop :=
  (copied_size c <= inject_Z (total_size c))%Q
  /\ (only_media cfg = false -> (verified_files c <= total_files c)%Z).

(** The oldest value of a history is a reset state: its counters are
    zero. *)
Definition starts_reset (h : list CopyManager) : Prop :=
  match last h with
  | Some c =>
      total_files c = 0%Z /\ copied_files c = 0%Z /\ verified_files c = 0%Z
      /\ total_size c = 0%Z /\ copied_size c = 0%Q
  | None => False
  end.

Definition session_ok (cfg : Config) (w : World) : Prop :=
  steps_ok (history w) /\ Forall (state_ok cfg) (history w)
  /\ starts_reset (history w).

(** The fields the copy loop leaves alone, and those the verify loop
    leaves alone. *)
Definition copy_view (c : CopyManager) :=
  (total_files c, total_size c, verified_files c, date_folder c,
   (copy_start_time c, verify_start_time c),
   (total_md5_files c, md5_verified_files c, md5_calc_size c)).

Definition verify_view (c : CopyManager) :=
  (total_files c, total_size c, copied_files c, copied_size c, date_folder c,
   copy_start_time c).

(** The root folder of a session and the paths of one walked file. *)
Definition session_root (env : Env) (cfg : Config) : string :=
  if auto_folder cfg
  then Py.path_join (destination_path cfg)
         (make_date_folder (auto_date_prefix cfg) (project_name cfg)
            (now_date env))
  else destination_path cfg.

Definition source_file_of (it : SourceItem) (rel file : string) : string :=
  Py.path_join (OsPath.walk_root (path it) rel) file.

Definition dest_file_of (root : string) (it : SourceItem) (rel file : string)
    : string :=
  Py.path_join (dest_dir (Py.path_join root (folder_name_of it)) rel) file.

(** Whether the copy phase takes a file, and what it adds to
    [total_size]. *)
Definition passes_filter (cfg : Config) (source_file : string) : bool :=
  negb (only_media cfg && negb (is_media_file cfg source_file)).

Definition size_of (env : Env) (cfg : Config) (source_file : string) : Z :=
  if passes_filter cfg source_file
  then default 0%Z (OsPath.getsize (src env) source_file)
  else 0%Z.

Definition files_size (env : Env) (cfg : Config) (root : string)
    (files : list string) : Z :=
  fold_right (fun f acc => (size_of env cfg (Py.path_join root f) + acc)%Z) 0%Z files.

Definition dirs_size (env : Env) (cfg : Config) (top : string)
    (dirs : list (string * list string)) : Z :=
  fold_right (fun d acc =>
    (files_size env cfg (OsPath.walk_root top (fst d)) (snd d) + acc)%Z) 0%Z dirs.

Definition items_size (env : Env) (cfg : Config) (items : list SourceItem) : Z :=
  fold_right (fun it acc =>
    (dirs_size env cfg (path it) (os_walk env (path it)) + acc)%Z) 0%Z items.

(** The number of files the copy phase takes. *)
Definition files_passing (cfg : Config) (root : string) (files : list string) : Z :=
  fold_right (fun f acc =>
    ((if passes_filter cfg (Py.path_join root f) then 1 else 0) + acc)%Z) 0%Z files.

Definition dirs_passing (cfg : Config) (top : string)
    (dirs : list (string * list string)) : Z :=
  fold_right (fun d acc =>
    (files_passing cfg (OsPath.walk_root top (fst d)) (snd d) + acc)%Z) 0%Z dirs.

Definition items_passing (env : Env) (cfg : Config) (items : list SourceItem) : Z :=
  fold_right (fun it acc =>
    (dirs_passing cfg (path it) (os_walk env (path it)) + acc)%Z) 0%Z items.

(** The number of files [os.walk] lists. *)
Definition dirs_walked (dirs : list (string * list string)) : Z :=
  fold_right (fun d acc => (Z.of_nat (length (snd d)) + acc)%Z) 0%Z dirs.

Definition items_walked (env : Env) (items : list SourceItem) : Z :=
  fold_right (fun it acc => (dirs_walked (os_walk env (path it)) + acc)%Z) 0%Z items.

(** Two values of the copy manager that differ at most in the
    [copying] flag. *)
Definition same_but_flag (a b : CopyManager) : Prop :=
  set_copying true a = set_copying true b.

(** The log of [w'] is the log of [w] with new lines in front, each of
    them satisfying [P]. *)
Definition log_grows (P : LogLine -> Prop) (w w' : World) : Prop :=
  exists new, log w' = (new ++ log w)%list /\ Forall P new.

(** The stop button is never pressed. *)
Definition never_stopped (env : Env) : Prop :=
  forall n, stop_pressed env n = false.

(** The diagnostics of the progress display. *)
Definition diagnostic (l : LogLine) : Prop :=
  l = LogNegativeTime \/ l = LogSpeedAnomaly.

(** What a step of the worker that commits nothing does: the copy
    manager changes at most in its flag (not at all when the stop button
    is never pressed), the session history stays well-formed, the log
    grows by lines satisfying [Pl], and only the destination paths in
    [Wr] are written. *)
Definition quiet_step (cfg : Config) (env : Env) (Pl : LogLine -> Prop)
    (Wr : string -> Prop) (w w' : World) : Prop :=
  same_but_flag (cm w) (cm w')
  /\ (session_ok cfg w -> session_ok cfg w')
  /\ log_grows Pl w w'
  /\ (forall p, ~ Wr p -> dst w' !! p = dst w !! p)
  /\ (never_stopped env -> cm w' = cm w).

(** What a step of the copy phase does to the rest of the state: the
    fields of [copy_view] stay, the log grows by lines satisfying [Pl],
    only destination paths in [Wr] are written, and the flag stays when
    the stop button is never pressed. *)
Definition copy_step (env : Env) (Pl : LogLine -> Prop) (Wr : string -> Prop)
    (w w' : World) : Prop :=
  copy_view (cm w) = copy_view (cm w')
  /\ log_grows Pl w w'
  /\ (forall p, ~ Wr p -> dst w' !! p = dst w !! p)
  /\ (never_stopped env -> copying (cm w') = copying (cm w)).

(** The bytes still to be copied fit under [total_size]. *)
Definition pending (w : World) (P : Z) : Prop :=
  (copied_size (cm w) + inject_Z P <= inject_Z (total_size (cm w)))%Q.

(** The log lines of the copy of the files of one directory. *)
Definition copy_line_in (root current_dest : string) (l : LogLine) : Prop :=
  match l with
  | LogCopyFile f s d => s = Py.path_join root f /\ d = Py.path_join current_dest f
  | _ => True
  end.

(** The log lines of the copy of one source item under [final_dest]. *)
Definition copy_line_of (final_dest : string) (it : SourceItem) (l : LogLine)
    : Prop :=
  match l with
  | LogCopyFile f s d =>
      exists rel, s = source_file_of it rel f /\ d = dest_file_of final_dest it rel f
  | _ => True
  end.

(** The log lines of the copy phase of a session. *)
Definition copy_line (items : list SourceItem) (final_dest : string)
    (l : LogLine) : Prop :=
  match l with
  | LogCopyFile f s d =>
      exists it rel, In it items /\ s = source_file_of it rel f
                     /\ d = dest_file_of final_dest it rel f
  | _ => True
  end.

(** The destination paths the copy of a directory, of an item and of a
    list of items may write. *)
Definition written_in (cfg : Config) (root current_dest : string)
    (files : list string) (p : string) : Prop :=
  exists file, In file files /\ p = Py.path_join current_dest file
               /\ passes_filter cfg (Py.path_join root file) = true.

Definition written_of (cfg : Config) (final_dest : string) (it : SourceItem)
    (dirs : list (string * list string)) (p : string) : Prop :=
  exists rel files file,
    In (rel, files) dirs /\ In file files
    /\ p = dest_file_of final_dest it rel file
    /\ passes_filter cfg (source_file_of it rel file) = true.

Definition written (env : Env) (cfg : Config) (final_dest : string)
    (items : list SourceItem) (p : string) : Prop :=
  exists it, In it items
             /\ written_of cfg final_dest it (os_walk env (path it)) p.

(** The destination paths the copy of one file may write: its
    destination path, or the file [shutil.copy2] makes in it when it is a
    folder. *)
Definition may_write (env : Env) (source_file dest_file p : string) : Prop :=
  p = dest_file \/ p = copy2_target env source_file dest_file.

Definition reached_in (cfg : Config) (env : Env) (root current_dest : string)
    (files : list string) (p : string) : Prop :=
  exists file, In file files
               /\ may_write env (Py.path_join root file)
                    (Py.path_join current_dest file) p
               /\ passes_filter cfg (Py.path_join root file) = true.

Definition reached_of (cfg : Config) (env : Env) (final_dest : string)
    (it : SourceItem) (dirs : list (string * list string)) (p : string) : Prop :=
  exists rel files file,
    In (rel, files) dirs /\ In file files
    /\ may_write env (source_file_of it rel file)
         (dest_file_of final_dest it rel file) p
    /\ passes_filter cfg (source_file_of it rel file) = true.

Definition reached (env : Env) (cfg : Config) (final_dest : string)
    (items : list SourceItem) (p : string) : Prop :=
  exists it, In it items
             /\ reached_of cfg env final_dest it (os_walk env (path it)) p.

(** The files [shutil.copy2] makes inside the destination paths that
    are folders: the file of the same name as the source, for every
    walked file that passes the filter. *)
Definition landed (env : Env) (cfg : Config) (final_dest : string)
    (items : list SourceItem) (p : string) : Prop :=
  exists it rel files file,
    In it items /\ In (rel, files) (os_walk env (path it)) /\ In file files
    /\ passes_filter cfg (source_file_of it rel file) = true
    /\ is_dir env (dest_file_of final_dest it rel file) = true
    /\ p = Py.path_join (dest_file_of final_dest it rel file)
             (OsPath.basename (source_file_of it rel file)).

(** [c'] is [c] with [S] more bytes and [N] more files counted. *)
Definition counted_as (c c' : CopyManager) (S N : Z) : Prop :=
  c' = set_total_size (total_size c + S)
         (set_total_files (total_files c + N) c).

(** The folder name a session stores. *)
Definition stored_folder (env : Env) (cfg : Config) : option string :=
  if auto_folder cfg
  then Some (make_date_folder (auto_date_prefix cfg) (project_name cfg)
               (now_date env))
  else None.

(** What a step of the verify phase does to the rest of the state: the
    fields of [verify_view], the destination files and the verify total
    stay, [verified_files] does not decrease, the log grows by lines
    satisfying [Pl], and the flag stays when the stop button is never
    pressed. *)
Definition verify_step (env : Env) (Pl : LogLine -> Prop) (w w' : World) : Prop :=
  verify_view (cm w) = verify_view (cm w')
  /\ total_md5_files (cm w') = total_md5_files (cm w)
  /\ (verified_files (cm w) <= verified_files (cm w'))%Z
  /\ log_grows Pl w w'
  /\ dst w' = dst w
  /\ (never_stopped env -> copying (cm w') = copying (cm w)).

(** With the filter off, the files still to be verified fit under
    [total_files]. *)
Definition to_verify (cfg : Config) (w : World) (R : Z) : Prop :=
  only_media cfg = false -> (verified_files (cm w) + R <= total_files (cm w))%Z.

(** The log lines of the verification of one directory, of one source
    item and of a session. *)
Definition check_line_in (root current_dest : string) (l : LogLine) : Prop :=
  match l with
  | LogCheckFile f s d _ =>
      s = Py.path_join root f /\ d = Py.path_join current_dest f
  | _ => True
  end.

Definition check_line_of (final_dest : string) (it : SourceItem) (l : LogLine)
    : Prop :=
  match l with
  | LogCheckFile f s d _ =>
      exists rel, s = source_file_of it rel f /\ d = dest_file_of final_dest it rel f
  | _ => True
  end.

Definition check_line (items : list SourceItem) (final_dest : string)
    (l : LogLine) : Prop :=
  match l with
  | LogCheckFile f s d _ =>
      exists it rel, In it items /\ s = source_file_of it rel f
                     /\ d = dest_file_of final_dest it rel f
  | _ => True
  end.

(** [f] never decreases along a history (latest first), by the boolean
    order [leb]. *)
Fixpoint nondecreasing {A : Type} (leb : A -> A -> bool)
    (f : CopyManager -> A) (h : list CopyManager) : bool :=
  match h with
  | new :: t =>
      match t with
      | old :: _ => leb (f old) (f new) && nondecreasing leb f t
      | [] => true
      end
  | [] => true
  end.

(** What the counting walk does between [w] and [w']: it counts [S]
    bytes and [N] files and touches nothing else. *)
Definition count_rel (cfg : Config) (w w' : World) (S N : Z) : Prop :=
  counted_as (cm w) (cm w') S N
  /\ log w' = log w /\ dst w' = dst w /\ polls w' = polls w
  /\ (session_ok cfg w -> session_ok cfg w').

(** ** A small session, to run the model

    A stand-in digest (the bytes themselves), one card folder holding a
    clip and a text file, and a clock that advances one second per
    reading. *)

Definition demo_new : list byte := [].

Definition demo_update (st chunk : list byte) : list byte := (st ++ chunk)%list.

Definition demo_hexdigest (st : list byte) : string := string_of_list_byte st.

Definition demo_fs : FS := {[ "/card/a.mp4" := [x01; x02; x03]%byte ]}.

Definition demo_env : Env :=
  {| clock := fun n => inject_Z (Z.of_nat (S n));
     stop_pressed := fun _ => false;
     now_date := {| year := 2025; month := 1; day := 2;
                    hour := 3; minute := 4; second := 5 |};
     os_walk := fun top =>
       if String.eqb top "/card" then [(".", ["a.mp4"; "notes.txt"])] else [];
     src := {[ "/card/a.mp4" := [x01; x02; x03]%byte;
               "/card/notes.txt" := [x05]%byte ]};
     chunk_fault := fun _ => None;
     copy2_fault := fun _ => false;
     makedirs_fault := fun _ => false;
     dest_folder := fun _ => None; open_fault := fun _ => false;
     write_fault := fun _ => None |}.

(** The same surroundings with a source stream that fails at its first
    read; [copy2_fails] tells whether [shutil.copy2] fails as well. *)
Definition demo_faulty_env (copy2_fails : bool) : Env :=
  {| clock := clock demo_env; stop_pressed := stop_pressed demo_env;
     now_date := now_date demo_env; os_walk := os_walk demo_env;
     src := src demo_env;
     chunk_fault := fun _ => Some 0%nat;
     copy2_fault := fun _ => copy2_fails;
     makedirs_fault := makedirs_fault demo_env;
     dest_folder := fun _ => None; open_fault := fun _ => false;
     write_fault := fun _ => None |}.


(** The surroundings of [demo_env] with a folder where the clip is to
    go. *)
Definition demo_folder_env : Env :=
  {| clock := clock demo_env; stop_pressed := stop_pressed demo_env;
     now_date := now_date demo_env; os_walk := os_walk demo_env;
     src := src demo_env; chunk_fault := chunk_fault demo_env;
     copy2_fault := copy2_fault demo_env;
     makedirs_fault := makedirs_fault demo_env;
     dest_folder := fun p =>
       if String.eqb p "/dst/P/card/a.mp4" then Some 4096%Z else None;
     open_fault := fun _ => false; write_fault := fun _ => None |}.

(** A card with the clip in a sub-folder, and a destination in which
    that sub-folder cannot be made. *)
Definition demo_unmade_env : Env :=
  {| clock := clock demo_env; stop_pressed := stop_pressed demo_env;
     now_date := now_date demo_env;
     os_walk := fun top =>
       if String.eqb top "/card"
       then [(".", ["notes.txt"]); ("sub", ["a.mp4"])] else [];
     src := {[ "/card/sub/a.mp4" := [x01; x02; x03]%byte;
               "/card/notes.txt" := [x05]%byte ]};
     chunk_fault := chunk_fault demo_env; copy2_fault := copy2_fault demo_env;
     makedirs_fault := fun p => String.eqb p "/dst/P/card/sub";
     dest_folder := fun _ => None; open_fault := fun _ => false;
     write_fault := fun _ => None |}.

Definition demo_item : SourceItem :=
  {| path := "/card"; name := "card"; custom_name := None |}.

Definition demo_cfg (media_only : bool) : Config :=
  {| source_items := [demo_item];
     destination_path := "/dst"; auto_folder := true;
     auto_date_prefix := false; project_name := "P";
     only_media := media_only; media_extensions := [".mp4"] |}.

Definition demo_world : World :=
  {| cm := new_copy_manager; past := []; log := []; shown := [];
     dst := ∅; ticks := 0; polls := 0 |}.

(** The world when the copy of the clip starts: one file of 3 bytes has
    been counted. *)
Definition demo_counted : World :=
  {| cm := set_copy_start_time 1%Q
             (set_total_size 3 (set_total_files 1
                (set_copying true new_copy_manager)));
     past := []; log := []; shown := []; dst := ∅; ticks := 1; polls := 0 |}.

(** A world left by an earlier session: two hashed files on the
    counter, and the text file already at its destination. *)
Definition demo_stale_world : World :=
  {| cm := set_md5_verified_files 2 new_copy_manager; past := []; log := [];
     shown := []; dst := {[ "/dst/P/card/notes.txt" := [x05]%byte ]};
     ticks := 0; polls := 0 |}.


(** The surroundings of [demo_env] ten seconds later. *)
Definition demo_later_env : Env :=
  {| clock := fun n => (clock demo_env n + 10)%Q;
     stop_pressed := stop_pressed demo_env;
     now_date := {| year := 2025; month := 1; day := 2;
                    hour := 3; minute := 4; second := 15 |};
     os_walk := os_walk demo_env; src := src demo_env;
     chunk_fault := chunk_fault demo_env; copy2_fault := copy2_fault demo_env;
     makedirs_fault := makedirs_fault demo_env;
     dest_folder := fun _ => None; open_fault := fun _ => false;
     write_fault := fun _ => None |}.

(** The configuration of [demo_cfg] with the date prefix. *)
Definition demo_dated_cfg : Config :=
  {| source_items := [demo_item];
     destination_path := "/dst"; auto_folder := true;
     auto_date_prefix := true; project_name := "P";
     only_media := false; media_extensions := [".mp4"] |}.

(** The source path and the destination path of every walked file, in
    the order of the walk: of the files of one directory, of the
    directories of one item, of the items of a session. *)
Definition files_pairs (root current_dest : string) (files : list string)
    : list (string * string) :=
  map (fun file => (Py.path_join root file, Py.path_join current_dest file)) files.

Definition dirs_pairs (source_path target_path : string)
    (dirs : list (string * list string)) : list (string * string) :=
  flat_map (fun d => files_pairs (OsPath.walk_root source_path (fst d))
                       (dest_dir target_path (fst d)) (snd d)) dirs.

Definition item_pairs (env : Env) (final_dest : string) (it : SourceItem)
    : list (string * string) :=
  dirs_pairs (path it) (Py.path_join final_dest (folder_name_of it))
    (os_walk env (path it)).

Definition session_pairs (env : Env) (final_dest : string)
    (items : list SourceItem) : list (string * string) :=
  flat_map (item_pairs env final_dest) items.

(** The destination after the files of [pairs] have been copied in
    turn. *)
Definition copied_to (env : Env) (pairs : list (string * string)) (d : FS) : FS :=
  fold_left (fun d st => <[snd st := default [] (src env !! fst st)]> d) pairs d.


(** What the copy of the files of [pairs] does between [w] and [w'] when
    nothing goes wrong: the flag stays set, every file is counted, and the
    destination holds the copies. *)
Definition clean_copy (env : Env) (pairs : list (string * string))
    (w w' : World) : Prop :=
  copying (cm w') = true
  /\ copied_files (cm w') = (copied_files (cm w) + Z.of_nat (length pairs))%Z
  /\ copy_view (cm w') = copy_view (cm w)
  /\ dst w' = copied_to env pairs (dst w).




(** ** What the verification counts *)

Section Agree.

Context {md5_state : Type}.
Variable md5_new : md5_state.
Variable md5_update : md5_state -> list byte -> md5_state.
Variable md5_hexdigest : md5_state -> string.

(** The digests of the source file and of the destination file of a
    pair can both be computed and are equal. *)
Definition digests_agree (source dest : FS) (st : string * string) : bool :=
  match calculate_md5 md5_new md5_update md5_hexdigest source (fst st) with
  | Ok source_md5 =>
      match calculate_md5 md5_new md5_update md5_hexdigest dest (snd st) with
      | Ok dest_md5 => String.eqb source_md5 dest_md5
      | Raise _ => false
      end
  | Raise _ => false
  end.

End Agree.

(** What the verification of some files does between [w] and [w'] when
    the stop button is not pressed: the flag stays set, [matching] files
    are counted as verified, and the rest of the state stays. *)
Definition counted_verify (matching : nat) (w w' : World) : Prop :=
  copying (cm w') = true
  /\ verified_files (cm w') = (verified_files (cm w) + Z.of_nat matching)%Z
  /\ total_md5_files (cm w') = total_md5_files (cm w)
  /\ verify_view (cm w') = verify_view (cm w)
  /\ dst w' = dst w.

(** ** Python dictionaries and text files *)

(** A [dict] with string keys, as the list of its items in insertion
    order: assigning to a key that is present replaces its value in
    place, assigning to a new key appends an item. *)
Module Dict.

Fixpoint set {V : Type} (k : string) (v : V) (d : list (string * V))
    : list (string * V) :=
  match d with
  | [] => [(k, v)]
  | (k', v') :: d' =>
      if String.eqb k k' then (k, v) :: d' else (k', v') :: set k v d'
  end.

Fixpoint get {V : Type} (k : string) (d : list (string * V)) : option V :=
  match d with
  | [] => None
  | (k', v') :: d' => if String.eqb k k' then Some v' else get k d'
  end.

Definition keys {V : Type} (d : list (string * V)) : list string := map fst d.

End Dict.

Module Text.

Definition LF : ascii := ascii_of_N 10.
Definition CR : ascii := ascii_of_N 13.

(** Reading in text mode with universal newlines: ["\r\n"] and ["\r"]
    are read as ["\n"]. *)
Fixpoint universal_newlines (s : string) : string :=
  match s with
  | String c s' =>
      if Ascii.eqb c CR then
        match s' with
        | String d s'' =>
            if Ascii.eqb d LF then String LF (universal_newlines s'')
            else String LF (universal_newlines s')
        | EmptyString => String LF EmptyString
        end
      else String c (universal_newlines s')
  | EmptyString => EmptyString
  end.

(** The lines of a text, each with its ["\n"] (the last one may lack
    it). *)
Fixpoint keepends (s : string) : list string :=
  match s with
  | String c s' =>
      if Ascii.eqb c LF then String c EmptyString :: keepends s'
      else match keepends s' with
           | [] => [String c EmptyString]
           | l :: ls => String c l :: ls
           end
  | EmptyString => []
  end.

(** The lines [for line in f] goes through for a text file whose
    content is [s]. *)
Definition file_lines (s : string) : list string :=
  keepends (universal_newlines s).

End Text.

(** ** create_checksum_file and verify_folder of md5_verifier.py *)

Module Verifier.

(** [os.path.relpath(os.path.join(root, file), folder_path)] for a file
    of the directory that [os.walk(folder_path)] reports at the relative
    path [rel_dir]. *)
Definition rel_file (rel_dir file : string) : string :=
  if String.eqb rel_dir "." then file else rel_dir ++ "/" ++ file.

(** The answer of [create_checksum_file]: the path of the file written
    and the text files after the call, or
    [Exception("保存校验和文件失败: ...")]. *)
Inductive saved :=
| Saved (output_file : string) (texts : gmap string (list string))
| SaveFailed (output_file : string).

(** The second component of an entry of [verify_folder]'s answer. *)
Inductive folder_detail :=
| DestMissing                       (* "目标文件不存在" *)
| FileDetail (d : detail).          (* what [verify_file] answered *)

Section Digest.

Context {md5_state : Type}.
Variable md5_new : md5_state.
Variable md5_update : md5_state -> list byte -> md5_state.
Variable md5_hexdigest : md5_state -> string.

(** The body of [for file in files] of [create_checksum_file]: a file
    whose digest cannot be computed is reported on the console and left
    out. *)
Definition checksum_entry (fs : FS) (folder_path rel_dir : string)
    (checksums : list (string * string)) (file : string)
    : list (string * string) :=
  if String.eqb file "checksums.md5" then checksums
  else
    let file_path := Py.path_join (OsPath.walk_root folder_path rel_dir) file in
    let rel_path := rel_file rel_dir file in
    match calculate_md5 md5_new md5_update md5_hexdigest fs file_path with
    | Ok md5_hash => Dict.set rel_path md5_hash checksums
    | Raise _ => checksums
    end.

(** The walk of [create_checksum_file], lines 77-89. *)
Definition collect_checksums (fs : FS) (folder_path : string)
    (dirs : list (string * list string)) : list (string * string) :=
  fold_left (fun checksums d =>
               fold_left (checksum_entry fs folder_path (fst d)) (snd d) checksums)
    dirs [].

(** The text written by lines 93-95. *)
Definition checksum_text (checksums : list (string * string)) : string :=
  fold_right (fun e text => checksum_line (snd e) (fst e) ++ text) EmptyString
    checksums.

(** [create_checksum_file(folder_path, output_file)]; [walk] is what
    [os.walk] lists, [writable] tells whether a path can be opened for
    writing, [texts] gives the lines of the text files. *)
Definition create_checksum_file (fs : FS)
    (walk : string -> list (string * list string)) (writable : string -> bool)
    (texts : gmap string (list string))
    (folder_path : string) (output_file : option string) : saved :=
  let output_file :=
    match output_file with
    | None => Py.path_join folder_path "checksums.md5"
    | Some o => o
    end in
  let checksums := collect_checksums fs folder_path (walk folder_path) in
  if writable output_file
  then Saved output_file
         (<[output_file := Text.file_lines (checksum_text checksums)]> texts)
  else SaveFailed output_file.

(** The body of the first walk of [verify_folder], lines 152-158. *)
Definition source_entry (source_folder rel_dir : string)
    (source_files : list (string * string)) (file : string)
    : list (string * string) :=
  if String.eqb file "checksums.md5" then source_files
  else
    let file_path := Py.path_join (OsPath.walk_root source_folder rel_dir) file in
    let rel_path := rel_file rel_dir file in
    Dict.set rel_path file_path source_files.

Definition collect_sources (source_folder : string)
    (dirs : list (string * list string)) : list (string * string) :=
  fold_left (fun source_files d =>
               fold_left (source_entry source_folder (fst d)) (snd d) source_files)
    dirs [].

(** The body of the second loop of [verify_folder], lines 161-169. *)
Definition verify_entry (fs : FS) (dest_folder : string)
    (results : list (string * (bool * folder_detail)))
    (item : string * string) : list (string * (bool * folder_detail)) :=
  let '(rel_path, source_file) := item in
  let dest_file := Py.path_join dest_folder rel_path in
  if negb (OsPath.exists_ fs dest_file)
  then Dict.set rel_path (false, DestMissing) results
  else
    let '(is_valid, error_msg) :=
      verify_file md5_new md5_update md5_hexdigest fs source_file dest_file in
    Dict.set rel_path (is_valid, FileDetail error_msg) results.

(** [verify_folder(source_folder, dest_folder, create_checksums)];
    [walk] is what [os.walk] lists when the checksum file is made and
    [walk'] what it lists afterwards.  The answer comes with the text
    files after the call. *)
Definition verify_folder (fs : FS)
    (walk walk' : string -> list (string * list string))
    (writable : string -> bool) (texts : gmap string (list string))
    (source_folder dest_folder : string) (create_checksums : bool)
    : list (string * (bool * folder_detail)) * gmap string (list string) :=
  let texts :=
    if create_checksums then
      match create_checksum_file fs walk writable texts source_folder None with
      | Saved _ texts' => texts'
      | SaveFailed _ => texts
      end
    else texts in
  let source_files := collect_sources source_folder (walk' source_folder) in
  (fold_left (verify_entry fs dest_folder) source_files [], texts).

End Digest.

End Verifier.

(** ** Predicates on digests and paths *)

Module TextProps.

(** A digest as [hexdigest] prints it: lower-case hexadecimal digits, at
    least one. *)
Definition is_hex (c : ascii) : bool :=
  Py.in_range 48 57 c || Py.in_range 97 102 c.

Definition hex_text (s : string) : bool :=
  Py.truthy s && PyProps.all_chars is_hex s.

Definition line_break (c : ascii) : bool :=
  Ascii.eqb c Text.LF || Ascii.eqb c Text.CR.

(** A path that one line of a text file can hold and [strip] gives
    back: not empty, without line break, without whitespace at its
    end. *)
Definition fits_line (p : string) : bool :=
  Py.truthy p && PyProps.all_chars (fun c => negb (line_break c)) p
  && String.eqb (Py.rstrip p) p.

(** The names [os.walk] gives: a relative directory is not empty and
    has no ['/'] at its end, a file name has no ['/'] at its start. *)
Definition walk_names (dirs : list (string * list string)) : Prop :=
  Forall (fun d =>
            Py.truthy (fst d) = true /\ Py.endswith_slash (fst d) = false
            /\ Forall (fun file => Py.startswith "/" file = false) (snd d)) dirs.

End TextProps.


(** ** Formatting of numbers, sizes and times *)

Module Fmt.

(** [str(n)] for [n >= 0]: the decimal digits, most significant first.
    A number has at most [log2 n + 1] digits. *)
Fixpoint digits (fuel : nat) (n : Z) (acc : string) : string :=
  match fuel with
  | O => acc
  | S k =>
      let acc := String (Py.digit n) acc in
      if (n <? 10)%Z then acc else digits k (n / 10) acc
  end.

Definition str_nat (n : Z) : string :=
  digits (S (Z.to_nat (Z.log2 n))) n EmptyString.

(** [f"{n:02d}"] *)
Definition d02 (n : Z) : string :=
  if (n <? 0)%Z then "-" ++ str_nat (- n)
  else if (n <? 10)%Z then "0" ++ str_nat n
  else str_nat n.

(** Rounding to the nearest integer, a tie going to the even one. *)
Definition round_half_even (x : Q) : Z :=
  let f := Qfloor x in
  let r := (x - inject_Z f)%Q in
  if Qltb r (1 # 2) then f
  else if Qltb (1 # 2) r then (f + 1)%Z
  else if Z.even f then f else (f + 1)%Z.

(** [float(n)] for an integer: the nearest number with 53 significant
    bits, a tie going to the even one.  (From 2^1024 on the conversion
    raises [OverflowError]; the model has no such case.) *)
Definition to_float (n : Z) : Z :=
  let bits := (Z.log2 (Z.abs n) - 52)%Z in
  if (bits <=? 0)%Z then n
  else
    (Z.sgn n
     * (round_half_even (inject_Z (Z.abs n) / inject_Z (2 ^ bits)) * 2 ^ bits))%Z.

(** The float nearest to a number: 53 significant bits, a tie going to
    the even one.  (The exponent is not bounded: no overflow and no
    gradual underflow, which the times and sizes of the program do not
    meet.) *)
Definition nearest_float (x : Q) : Q :=
  if Qeq_bool x 0 then 0%Q
  else
    let a := Qabs x in
    let e0 := (Z.log2 (Qnum a) - Z.log2 (Z.pos (Qden a)))%Z in
    let e := if Qle_bool (2 ^ e0) a then e0 else (e0 - 1)%Z in
    let m := round_half_even (a * 2 ^ (52 - e)) in
    let r := (inject_Z m * 2 ^ (e - 52))%Q in
    if Qltb x 0 then (- r)%Q else r.

(** [a - b] on two floats. *)
Definition float_sub (a b : Q) : Q := nearest_float (a - b).

(** [f"{x:.1f}"] for an [x] that the float holds exactly. *)
Definition f1 (x : Q) : string :=
  let t := round_half_even (Qabs x * 10) in
  (if Qltb x 0 then "-" else EmptyString)
  ++ str_nat (t / 10) ++ "." ++ String (Py.digit t) EmptyString.

End Fmt.

(** [size_names] *)
Definition size_names : list string := ["B"; "KB"; "MB"; "GB"; "TB"].

(** The loop of [format_size]: [names] are the units from the current
    one on, so that [i < len(size_names) - 1] reads: a unit follows. *)
Fixpoint size_unit (size : Q) (names : list string) : Q * string :=
  match names with
  | [] => (size, EmptyString)
  | unit :: rest =>
      match rest with
      | [] => (size, unit)
      | _ :: _ =>
          if Qle_bool 1024 size then size_unit (size / 1024)%Q rest
          else (size, unit)
      end
  end.

(** [format_size(size_bytes)] of [CopyManager] and of [LogViewerWindow]
    (the same code).  [float(size_bytes)] rounds a size from 2^53 on; the
    quotients of a float by 1024 are exact. *)
Definition format_size (size_bytes : Z) : string :=
  if (size_bytes =? 0)%Z then "0 B"
  else
    let '(size, unit) :=
      size_unit (inject_Z (Fmt.to_float size_bytes)) size_names in
    Fmt.f1 size ++ " " ++ unit.

(** [int(x)]: the fractional part is dropped. *)
Definition py_int (x : Q) : Z :=
  if Qltb x 0 then (- Qfloor (- x))%Z else Qfloor x.

(** [seconds // 60] and [seconds % 60] on floats, as the exact quotient
    rounded down and the exact remainder. *)
Definition floordiv (x y : Q) : Q := inject_Z (Qfloor (x / y)).
Definition pymod (x y : Q) : Q := (x - y * floordiv x y)%Q.

(** [DITCopyTool.format_time(seconds)] *)
Definition format_time (seconds : Q) : string :=
  if Qle_bool seconds 0 then "00:00"
  else
    let minutes := py_int (floordiv seconds 60) in
    let secs := py_int (pymod seconds 60) in
    if (60 <=? minutes)%Z then
      let hours := (minutes / 60)%Z in
      let minutes := (minutes mod 60)%Z in
      Fmt.d02 hours ++ ":" ++ Fmt.d02 minutes ++ ":" ++ Fmt.d02 secs
    else Fmt.d02 minutes ++ ":" ++ Fmt.d02 secs.


(** ** get_folder_size *)

(** A directory as [os.walk] goes through it: its name, its files, each
    with the size [os.lstat] reports ([None] when the call raises), and
    the directories it descends into.  A folder that cannot be listed is
    a [Dir] without files and without directories. *)
#[local] Unset Elimination Schemes.
Inductive Tree :=
| Dir (name : string) (files : list (string * option Z)) (subdirs : list Tree).
#[local] Set Elimination Schemes.

Definition dir_name (t : Tree) : string :=
  match t with Dir name _ _ => name end.

(** [s.count(os.sep)] *)
Fixpoint count_sep (s : string) : Z :=
  match s with
  | String c s' => ((if Ascii.eqb c "/" then 1 else 0) + count_sep s')%Z
  | EmptyString => 0%Z
  end.

(** The sum of lines 264-270 over the files of one directory. *)
Definition files_total (files : list (string * option Z)) : Z :=
  fold_left (fun total_size f =>
               match snd f with
               | Some st_size => (total_size + st_size)%Z
               | None => total_size
               end) files 0%Z.

(** The loop over [os.walk(folder_path)], lines 257-270, from the
    directory [root] on: a directory more than 10 separators below
    [folder_path] is skipped and the walk does not descend from it. *)
Fixpoint walk_total (folder_path root : string) (t : Tree) : Z :=
  match t with
  | Dir _ files subdirs =>
      if (10 <? count_sep root - count_sep folder_path)%Z then 0%Z
      else
        (files_total files
         + fold_right (fun d total =>
                         (walk_total folder_path
                            (Py.path_join root (dir_name d)) d + total)%Z)
             0%Z subdirs)%Z
  end.

(** [get_folder_size(folder_path)]: [tree] is what the folder holds,
    [current_time] the reading of the clock, [cache] the value of
    [_size_cache]; the answer comes with the cache after the call. *)
Definition get_folder_size (tree : Tree) (current_time : Q)
    (cache : gmap string (Z * Q)) (folder_path : string)
    : Z * gmap string (Z * Q) :=
  let recompute :=
    let total_size := walk_total folder_path folder_path tree in
    (total_size, <[folder_path := (total_size, current_time)]> cache) in
  match cache !! folder_path with
  | Some (cached_size, cache_time) =>
      if Qltb (Fmt.float_sub current_time cache_time) 5 then (cached_size, cache)
      else recompute
  | None => recompute
  end.

(** The size of the files of a tree down to [levels] levels of
    directories below its top. *)
Fixpoint size_within (t : Tree) (levels : nat) {struct t} : Z :=
  match t with
  | Dir _ files subdirs =>
      (files_total files
       + match levels with
         | O => 0
         | S k => fold_right (fun d total => (size_within d k + total)%Z) 0%Z subdirs
         end)%Z
  end.

(** The directories below the top of a tree have names as a file system
    gives them: not empty and without ['/']. *)
Fixpoint plain_below (t : Tree) : bool :=
  match t with
  | Dir _ _ subdirs =>
      forallb (fun d => Py.truthy (dir_name d)
                        && (count_sep (dir_name d) =? 0)%Z
                        && plain_below d) subdirs
  end.


(** ** start_copy and update_folder_preview *)



(** The folder name [update_folder_preview] shows. *)
Inductive Preview :=
| PreviewFolder (folder_name : string)
| PreviewNeedsName.         (* "(需输入项目名称)" *)

(** [update_folder_preview()], lines 1328-1353; [now] is what
    [datetime.now()] returns. *)
Definition update_folder_preview (cfg : Config) (now : DateTime) : Preview :=
  let project_name := Py.strip (project_name cfg) in
  let safe_project_name :=
    if Py.truthy project_name
    then Py.replace_char " " "_" (Py.strip (Py.filter keep_char project_name))
    else EmptyString in
  if auto_date_prefix cfg then
    let date_str := strftime_stamp now in
    if Py.truthy safe_project_name
    then PreviewFolder (date_str ++ "_" ++ safe_project_name)
    else PreviewFolder date_str
  else
    if Py.truthy safe_project_name then PreviewFolder safe_project_name
    else PreviewNeedsName.


(** ** The editor of the media types *)

Module Lines.

(** A character that ends a line for [str.splitlines] (code points
    below 256). *)
Definition line_boundary (c : ascii) : bool :=
  Py.in_range 10 13 c || Py.in_range 28 30 c || (Py.code c =? 133)%N.

(** [s.splitlines()]: ["\r\n"] ends a line as one boundary, and no
    empty line follows the last boundary. *)
Fixpoint splitlines (s : string) : list string :=
  match s with
  | String c s' =>
      if line_boundary c then
        EmptyString ::
        (if Ascii.eqb c Text.CR then
           match s' with
           | String d s'' =>
               if Ascii.eqb d Text.LF then splitlines s'' else splitlines s'
           | EmptyString => []
           end
         else splitlines s')
      else
        match splitlines s' with
        | [] => [String c EmptyString]
        | l :: ls => String c l :: ls
        end
  | EmptyString => []
  end.

End Lines.

(** The body of the loop of [save], lines 938-943: the extension a line
    of the editor stands for, [None] for a blank line. *)
Definition clean_extension (line : string) : option string :=
  let s := OsPath.lower (Py.strip line) in
  if negb (Py.truthy s) then None
  else Some (if Py.startswith "." s then s else "." ++ s).

(** [cleaned.add(s)], a set being the list of its members. *)
Definition set_add (s : string) (cleaned : list string) : list string :=
  if existsb (String.eqb s) cleaned then cleaned else (cleaned ++ [s])%list.

(** [save()] of [open_media_types_editor], lines 935-946: [entered] is
    the text of the editor, the answer is [media_extensions] after the
    call. *)
Definition save_media_types (entered : string) (media_extensions : list string)
    : list string :=
  let content := Lines.splitlines (Py.strip entered) in
  let cleaned :=
    fold_left (fun cleaned line =>
                 match clean_extension line with
                 | Some s => set_add s cleaned
                 | None => cleaned
                 end) content [] in
  match cleaned with
  | [] => media_extensions
  | _ :: _ => cleaned
  end.

(** The configuration with another set of media types. *)
Definition with_media_extensions (cfg : Config) (exts : list string) : Config :=
  {| source_items := source_items cfg;
     destination_path := destination_path cfg;
     auto_folder := auto_folder cfg;
     auto_date_prefix := auto_date_prefix cfg;
     project_name := project_name cfg;
     only_media := only_media cfg;
     media_extensions := exts |}.

(** ["\n".join(lines)], the text the editor is opened with. *)
Fixpoint join_lines (lines : list string) : string :=
  match lines with
  | [] => EmptyString
  | [l] => l
  | l :: rest => l ++ String Text.LF (join_lines rest)
  end.

(** An extension that the editor gives back as it is: in lower case with
    its dot, without whitespace at either end and without a character
    that ends a line. *)
Definition editable (e : string) : bool :=
  match clean_extension e with
  | Some e' => String.eqb e' e
  | None => false
  end
  && String.eqb (Py.lstrip e) e && String.eqb (Py.rstrip e) e
  && PyProps.all_chars (fun c => negb (Lines.line_boundary c)) e.


(** ** Log files and the log viewer *)

(** [session_name], line 1414: the project name, or ["untitled"]. *)
Definition session_name (cfg : Config) : string :=
  let stripped := Py.strip (project_name cfg) in
  if Py.truthy stripped then stripped else "untitled".

(** [log_filename] of [init_log_file], lines 320-321. *)
Definition log_filename (now : DateTime) (session_name : string) : string :=
  "copy_log_" ++ strftime_stamp now ++ "_" ++ session_name ++ ".log".

(** [f.endswith('.log')] *)
Fixpoint endswith (suffix s : string) : bool :=
  String.eqb suffix s
  || match s with
     | String _ s' => endswith suffix s'
     | EmptyString => false
     end.

(** [display_text] of [load_log_files], line 2452. *)
Definition display_text (log_file size_str file_date : string) : string :=
  log_file ++ " (" ++ size_str ++ ", " ++ file_date ++ ")".

(** [selected_text.split(' (')[0]] of [on_log_selected], line 2489. *)
Definition selected_log_filename (selected_text : string) : string :=
  match Py.split_once " (" selected_text with
  | Some (head, _) => head
  | None => selected_text
  end.


(** ** The list of source folders *)

(** One entry of [source_items] with all its keys. *)
Record ListedItem := {
  item_path : string;
  item_name : string;
  item_custom_name : string;
  item_size : Z;
  item_display : string
}.

(** The entry as the worker reads it. *)
Definition session_item (it : ListedItem) : SourceItem :=
  {| path := item_path it; name := item_name it;
     custom_name := Some (item_custom_name it) |}.

(** The text of an entry in the list box, lines 1160-1170 and
    1259-1263; the arrow is given by its UTF-8 bytes. *)
Definition display_of (folder_name size_str custom_name : string) : string :=
  if negb (String.eqb custom_name folder_name)
  then folder_name ++ " - " ++ size_str ++ " (→ " ++ custom_name ++ ")"
  else folder_name ++ " - " ++ size_str.

(** The part of the front end these functions share: [source_items],
    the lines of [source_items_listbox] and the cache of folder sizes. *)
Record Front := {
  front_items : list ListedItem;
  listbox : list string;
  size_cache : gmap string (Z * Q)
}.

(** [add_source_folder()]: [folder] is the answer of the directory
    dialog (empty when it is cancelled), [tree] what the folder holds,
    [current_time] the clock of [get_folder_size], [custom] the answer of
    [ask_custom_folder_name] ([None] when it is cancelled). *)
Definition add_source_folder (folder : string) (tree : Tree) (current_time : Q)
    (custom : option string) (st : Front) : Front :=
  if Py.truthy folder then
    let folder_name := OsPath.basename folder in
    let '(total_size, cache) :=
      get_folder_size tree current_time (size_cache st) folder in
    let size_str := format_size total_size in
    match custom with
    | None =>
        {| front_items := front_items st; listbox := listbox st;
           size_cache := cache |}
    | Some custom_name =>
        let source_item :=
          {| item_path := folder; item_name := folder_name;
             item_custom_name := custom_name; item_size := total_size;
             item_display := display_of folder_name size_str custom_name |} in
        {| front_items := (front_items st ++ [source_item])%list;
           listbox := (listbox st ++ [item_display source_item])%list;
           size_cache := cache |}
    end
  else st.

(** [listbox.insert(index, text)] of Tk: before the line at [index], at
    the end when there is none. *)
Definition listbox_insert (index : nat) (text : string) (lines : list string)
    : list string :=
  (take index lines ++ text :: drop index lines)%list.

(** [rename_selected_folder()]: [selection] is [curselection()],
    [answer] the answer of [ask_custom_folder_name].  [None] stands for
    the [IndexError] of [self.source_items[index]]. *)
Definition rename_selected_folder (selection : list nat) (answer : option string)
    (st : Front) : option Front :=
  match selection with
  | [] => Some st
  | [index] =>
      match front_items st !! index with
      | None => None
      | Some source_item =>
          match answer with
          | None => Some st
          | Some new_custom_name =>
              let size_str := format_size (item_size source_item) in
              let renamed :=
                {| item_path := item_path source_item;
                   item_name := item_name source_item;
                   item_custom_name := new_custom_name;
                   item_size := item_size source_item;
                   item_display :=
                     display_of (item_name source_item) size_str new_custom_name |} in
              Some {| front_items := <[index := renamed]> (front_items st);
                      listbox := listbox_insert index (item_display renamed)
                                   (delete index (listbox st));
                      size_cache := size_cache st |}
          end
      end
  | _ :: _ :: _ => Some st
  end.

(** The loop of [remove_selected_folder], lines 1280-1283, over the
    selection from its end; [None] stands for the [IndexError] of
    [pop]. *)
Fixpoint remove_each (reversed_selection : list nat) (st : Front) : option Front :=
  match reversed_selection with
  | [] => Some st
  | index :: rest =>
      match front_items st !! index with
      | None => None
      | Some removed_item =>
          remove_each rest
            {| front_items := delete index (front_items st);
               listbox := delete index (listbox st);
               size_cache := size_cache st |}
      end
  end.

(** [remove_selected_folder()] *)
Definition remove_selected_folder (selection : list nat) (st : Front)
    : option Front :=
  remove_each (rev selection) st.

(** [clear_all_folders()]: [confirmed] is the answer of the dialog. *)
Definition clear_all_folders (confirmed : bool) (st : Front) : Front :=
  match front_items st with
  | [] => st
  | _ :: _ =>
      if confirmed
      then {| front_items := []; listbox := []; size_cache := size_cache st |}
      else st
  end.

(** The front end is in step: the list box shows the text of every
    entry, in order, and the text of an entry is made of its name, its
    size and its custom name. *)
Definition in_step (st : Front) : Prop :=
  listbox st = map item_display (front_items st)
  /\ Forall (fun it => item_display it
                       = display_of (item_name it) (format_size (item_size it))
                           (item_custom_name it)) (front_items st).

(** The entries at the positions from [pos] on that are not selected. *)
Fixpoint unselected {A : Type} (selection : list nat) (pos : nat) (l : list A)
    : list A :=
  match l with
  | [] => []
  | x :: l' =>
      if existsb (Nat.eqb pos) selection then unselected selection (S pos) l'
      else x :: unselected selection (S pos) l'
  end.

(** A selection as Tk gives it: positions of the list box, in
    increasing order. *)
Fixpoint ascending_below (bound : nat) (lo : nat) (selection : list nat) : bool :=
  match selection with
  | [] => true
  | i :: rest => (lo <=? i)%nat && (i <? bound)%nat && ascending_below bound (S i) rest
  end.


(** ** Further small inputs *)

(** The surroundings of [demo_env] with the stop button held down. *)
Definition demo_stopped_env : Env :=
  {| clock := clock demo_env; stop_pressed := fun _ => true;
     now_date := now_date demo_env; os_walk := os_walk demo_env;
     src := src demo_env; chunk_fault := chunk_fault demo_env;
     copy2_fault := copy2_fault demo_env;
     makedirs_fault := makedirs_fault demo_env;
     dest_folder := fun _ => None; open_fault := fun _ => false;
     write_fault := fun _ => None |}.

(** A stand-in digest that prints one hexadecimal digit: the number of
    bytes fed, modulo 16. *)
Definition demo_hex_digits : list string :=
  ["0"; "1"; "2"; "3"; "4"; "5"; "6"; "7"; "8"; "9"; "a"; "b"; "c"; "d"; "e"; "f"].

Definition demo_hex_hexdigest (st : list byte) : string :=
  nth (length st mod 16) demo_hex_digits "0".

(** The card as [os.walk] lists it for the verifier, and a verifier that
    may write everywhere. *)
Definition demo_walk (top : string) : list (string * list string) :=
  if String.eqb top "/card" then [(".", ["a.mp4"]); ("sub", ["b.mp4"])] else [].

Definition demo_card_fs : FS :=
  {[ "/card/a.mp4" := [x01; x02; x03]%byte; "/card/sub/b.mp4" := [x04]%byte ]}.

Definition demo_writable (p : string) : bool := true.

(** A card with a clip, a file that [os.lstat] cannot read and a
    sub-folder. *)
Definition demo_tree : Tree :=
  Dir "card" [("a.mp4", Some 3%Z); ("locked", None)]
    [Dir "sub" [("b.mp4", Some 2048%Z)] []].

(** A list of two source folders, the second one renamed. *)
Definition demo_listed (folder_name custom_name : string) (size : Z) : ListedItem :=
  {| item_path := "/media/" ++ folder_name; item_name := folder_name;
     item_custom_name := custom_name; item_size := size;
     item_display := display_of folder_name (format_size size) custom_name |}.

Definition demo_front : Front :=
  {| front_items := [demo_listed "card" "card" 3; demo_listed "disk" "B-cam" 2048];
     listbox := [item_display (demo_listed "card" "card" 3);
                 item_display (demo_listed "disk" "B-cam" 2048)];
     size_cache := ∅ |}.

(** Two cards that hold a clip of the same name, both sent to the
    folder [A]. *)
Definition demo_twin_env : Env :=
  {| clock := clock demo_env; stop_pressed := stop_pressed demo_env;
     now_date := now_date demo_env;
     os_walk := fun top =>
       if String.eqb top "/card" then [(".", ["a.mp4"])]
       else if String.eqb top "/card2" then [(".", ["a.mp4"])] else [];
     src := {[ "/card/a.mp4" := [x01; x02; x03]%byte;
               "/card2/a.mp4" := [x09]%byte ]};
     chunk_fault := chunk_fault demo_env; copy2_fault := copy2_fault demo_env;
     makedirs_fault := makedirs_fault demo_env;
     dest_folder := fun _ => None; open_fault := fun _ => false;
     write_fault := fun _ => None |}.

Definition demo_twin_cfg : Config :=
  {| source_items :=
       [ {| path := "/card"; name := "card"; custom_name := Some "A" |};
         {| path := "/card2"; name := "card2"; custom_name := Some "A" |} ];
     destination_path := "/dst"; auto_folder := true;
     auto_date_prefix := false; project_name := "P";
     only_media := false; media_extensions := [".mp4"] |}.

(** The world after the copy of the two cards. *)
Definition demo_twin_copied : World :=
  snd (copy_phase demo_twin_env demo_twin_cfg demo_world).

(** * Properties *)

(** ** Strings *)

Section StringFacts.

Import PyProps.

Lemma all_chars_filter p s : all_chars p (Py.filter p s) = true.
Proof.
  induction s as [|c s IH]; simpl; [reflexivity|].
  destruct (p c) eqn:E; simpl; [rewrite E|]; exact IH.
Qed.

Lemma all_chars_lstrip p s :
  all_chars p s = true -> all_chars p (Py.lstrip s) = true.
Proof.
  induction s as [|c s IH]; simpl; [trivial|].
  intros H. apply andb_true_iff in H as [Hc Hs].
  destruct (Py.isspace c); [auto|]. simpl. rewrite Hc. exact Hs.
Qed.

Lemma all_chars_rstrip p s :
  all_chars p s = true -> all_chars p (Py.rstrip s) = true.
Proof.
  induction s as [|c s IH]; simpl; [trivial|].
  intros H. apply andb_true_iff in H as [Hc Hs].
  specialize (IH Hs).
  destruct (Py.rstrip s) eqn:E.
  - destruct (Py.isspace c); simpl; [reflexivity|]. rewrite Hc. reflexivity.
  - simpl in *. rewrite Hc. exact IH.
Qed.

Lemma all_chars_strip p s :
  all_chars p s = true -> all_chars p (Py.strip s) = true.
Proof. intros H. apply all_chars_rstrip, all_chars_lstrip, H. Qed.

Lemma name_char_replace c :
  keep_char c = true ->
  name_char (if Ascii.eqb c " " then "_"%char else c) = true.
Proof.
  unfold keep_char, name_char. simpl.
  destruct (Ascii.eqb c " ") eqn:E; [reflexivity|].
  rewrite !orb_false_r. trivial.
Qed.

Lemma all_chars_replace s :
  all_chars keep_char s = true ->
  all_chars name_char (Py.replace_char " " "_" s) = true.
Proof.
  induction s as [|c s IH]; simpl; [trivial|].
  intros H. apply andb_true_iff in H as [Hc Hs].
  rewrite (name_char_replace c Hc). simpl. auto.
Qed.

Lemma strip_empty_sanitized raw :
  Py.strip raw = EmptyString ->
  Py.replace_char " " "_" (Py.strip (Py.filter keep_char (Py.strip raw)))
  = EmptyString.
Proof. intros ->. reflexivity. Qed.

Lemma rstrip_no_trailing_space s c :
  String.get (String.length (Py.rstrip s) - 1) (Py.rstrip s) = Some c ->
  Py.isspace c = false.
Proof.
  induction s as [|a s IH]; simpl; [discriminate|].
  destruct (Py.rstrip s) as [|b r] eqn:E.
  - destruct (Py.isspace a) eqn:Ea; simpl; [discriminate|].
    intros [= <-]. exact Ea.
  - simpl. simpl in IH. rewrite Nat.sub_0_r in *.
    destruct (String.length r) eqn:El; simpl.
    + destruct r; [|discriminate]. simpl in IH. exact IH.
    + intros H. apply IH. simpl. exact H.
Qed.

Lemma lstrip_no_leading_space s c r :
  Py.lstrip s = String c r -> Py.isspace c = false.
Proof.
  induction s as [|a s IH]; simpl; [discriminate|].
  destruct (Py.isspace a) eqn:Ea; [exact IH|].
  intros [= <- <-]. exact Ea.
Qed.

Lemma rstrip_head s c r :
  Py.isspace c = false -> s = String c r ->
  exists r', Py.rstrip s = String c r'.
Proof.
  intros Hc ->. simpl. destruct (Py.rstrip r); [rewrite Hc|]; eauto.
Qed.

Lemma strip_no_leading_space s c r :
  Py.strip s = String c r -> Py.isspace c = false.
Proof.
  unfold Py.strip. destruct (Py.lstrip s) as [|a t] eqn:E; [discriminate|].
  pose proof (lstrip_no_leading_space _ _ _ E) as Ha.
  destruct (rstrip_head _ a t Ha eq_refl) as [r' ->].
  intros [= <- _]. exact Ha.
Qed.

End StringFacts.


(** C7: a project name is cleaned by keeping the characters that are
    alphanumeric, hyphen, underscore or space, stripping the surrounding
    whitespace and turning the spaces left inside into underscores: the
    result holds only alphanumerics, hyphens and underscores.  The text
    ["  My Shoot! #1  "] gives the folder name ["My_Shoot_1"] without the
    date prefix and ["20250102_030405_My_Shoot_1"] with it, at
    2025-01-02 03:04:05. *)
Theorem sanitized_folder_name :
  (forall raw,
      let kept := Py.filter keep_char (Py.strip raw) in
      PyProps.all_chars keep_char kept = true
      /\ safe_project_name raw = Py.replace_char " " "_" (Py.strip kept)
      /\ (forall c r, Py.strip kept = String c r -> Py.isspace c = false)
      /\ (forall c, String.get (String.length (Py.strip kept) - 1) (Py.strip kept)
                    = Some c -> Py.isspace c = false)
      /\ PyProps.all_chars PyProps.name_char (safe_project_name raw) = true)
  /\ (forall now, make_date_folder false "  My Shoot! #1  " now = "My_Shoot_1")
  /\ make_date_folder true "  My Shoot! #1  "
       {| year := 2025; month := 1; day := 2;
          hour := 3; minute := 4; second := 5 |}
     = "20250102_030405_My_Shoot_1".
Proof.
  split; [|split; [intros now|]; vm_compute; reflexivity].
  intros raw kept. split; [apply all_chars_filter|].
  assert (Hsafe : safe_project_name raw
                  = Py.replace_char " " "_" (Py.strip kept)).
  { unfold safe_project_name, kept.
    destruct (Py.strip raw) eqn:E; reflexivity. }
  split; [exact Hsafe|]. split; [apply strip_no_leading_space|].
  split; [apply rstrip_no_trailing_space|].
  rewrite Hsafe. apply all_chars_replace, all_chars_strip, all_chars_filter.
Qed.

(** ** Chunks *)

Lemma read_chunks_fuel_concat size fuel (data : list byte) :
  (0 < size)%Z -> (length data <= fuel)%nat ->
  concat (read_chunks_fuel fuel size data) = data.
Proof.
  intros Hsize. revert data.
  induction fuel as [|fuel IH]; intros data Hlen; simpl.
  - destruct data; [reflexivity|simpl in Hlen; lia].
  - unfold file_read. destruct (Z.ltb_spec size 0) as [?|_]; [lia|].
    destruct (Z.to_nat size) as [|n] eqn:En; [lia|].
    destruct data as [|b data]; [reflexivity|].
    change (take (S n) (b :: data)) with (b :: take n data).
    change (drop (S n) (b :: data)) with (drop n data).
    simpl. f_equal. rewrite IH.
    + apply take_drop.
    + rewrite length_drop. simpl in Hlen. lia.
Qed.

Lemma read_chunks_fuel_bound size fuel (data : list byte) :
  (0 < size)%Z ->
  Forall (fun chunk => (0 < Z.of_nat (length chunk) <= size)%Z)
    (read_chunks_fuel fuel size data).
Proof.
  intros Hsize. revert data.
  induction fuel as [|fuel IH]; intros data; simpl; [constructor|].
  unfold file_read. destruct (Z.ltb_spec size 0) as [?|_]; [lia|].
  destruct (take (Z.to_nat size) data) as [|b chunk] eqn:E; [constructor|].
  constructor; [|apply IH].
  rewrite <- E, length_take. split; [|lia].
  assert (length (take (Z.to_nat size) data) <> 0)%nat
    by (rewrite E; discriminate).
  rewrite length_take in H. lia.
Qed.

Ltac tiers :=
  unfold chunk_size_for, MiB in *; intros;
  repeat match goal with
         | |- context [(?a <? ?b)%Z] => destruct (Z.ltb_spec a b)
         | H : context [(?a <? ?b)%Z] |- _ =>
             revert H; destruct (Z.ltb_spec a b); intros H
         end;
  lia.

(** C4: the chunk size follows the size tiers: above 500 MiB 16 MiB,
    above 100 MiB 8 MiB, above 10 MiB 4 MiB, otherwise 1 MiB; a file of
    600,000,000 bytes gets 16 MiB chunks; and the chunks the copier reads
    with that size are non-empty, at most that long, and make up the
    file. *)
Theorem chunk_size_by_tier (file_size : Z) (data : list byte) :
  ((500 * MiB < file_size)%Z <-> chunk_size_for file_size = (16 * MiB)%Z)
  /\ ((100 * MiB < file_size <= 500 * MiB)%Z
      <-> chunk_size_for file_size = (8 * MiB)%Z)
  /\ ((10 * MiB < file_size <= 100 * MiB)%Z
      <-> chunk_size_for file_size = (4 * MiB)%Z)
  /\ ((file_size <= 10 * MiB)%Z <-> chunk_size_for file_size = MiB)
  /\ chunk_size_for 600000000 = (16 * MiB)%Z
  /\ Forall (fun chunk =>
               (0 < Z.of_nat (length chunk) <= chunk_size_for file_size)%Z)
       (read_chunks (chunk_size_for file_size) data)
  /\ concat (read_chunks (chunk_size_for file_size) data) = data.
Proof.
  assert (Hpos : (0 < chunk_size_for file_size)%Z) by tiers.
  repeat split; try tiers.
  - apply read_chunks_fuel_bound, Hpos.
  - apply read_chunks_fuel_concat; [exact Hpos|lia].
Qed.

(** ** md5_verifier.py *)

Section VerifierFacts.

Context {md5_state : Type}.
Variable md5_new : md5_state.
Variable md5_update : md5_state -> list byte -> md5_state.
Variable md5_hexdigest : md5_state -> string.

(** C8: a readable file compared with itself, its contents the same at
    both digest computations, is reported as matching, with the empty
    detail. *)
Theorem verify_file_same_file (fs1 fs2 : FS) (f : string) (data : list byte) :
  fs1 !! f = Some data ->
  fs2 !! f = Some data ->
  verify_file_at md5_new md5_update md5_hexdigest fs1 fs2 f f = (true, NoDetail)
  /\ verify_file md5_new md5_update md5_hexdigest fs1 f f = (true, NoDetail).
Proof.
  intros H1 H2.
  unfold verify_file, verify_file_at, calculate_md5, calculate_md5_with.
  rewrite H1, H2, String.eqb_refl. split; reflexivity.
Qed.

End VerifierFacts.

Lemma verify_file_same_file_witness :
  demo_fs !! "/card/a.mp4" = Some [x01; x02; x03]%byte
  /\ verify_file demo_new demo_update demo_hexdigest demo_fs
       "/card/a.mp4" "/card/a.mp4" = (true, NoDetail).
Proof.
  split; [reflexivity|].
  apply (verify_file_same_file demo_new demo_update demo_hexdigest
           demo_fs demo_fs "/card/a.mp4" [x01; x02; x03]%byte);
    reflexivity.
Defined.

Section ManifestFacts.

Import PyProps.

Lemma prefix_cons x sep c s :
  String.prefix (String x sep) (String c s) = Ascii.eqb x c && String.prefix sep s.
Proof.
  change (String.prefix (String x sep) (String c s))
    with (match ascii_dec x c with
          | left _ => String.prefix sep s
          | right _ => false
          end).
  destruct (ascii_dec x c) as [->|n].
  - rewrite Ascii.eqb_refl. reflexivity.
  - apply Ascii.eqb_neq in n. rewrite n. reflexivity.
Qed.

Lemma prefix_empty s : String.prefix EmptyString s = true.
Proof. destruct s; reflexivity. Qed.

Lemma split_once_cons sep c s :
  Py.split_once sep (String c s)
  = if String.prefix sep (String c s)
    then Some (EmptyString,
               String.substring (String.length sep)
                 (String.length (String c s) - String.length sep) (String c s))
    else match Py.split_once sep s with
         | Some (a, b) => Some (String c a, b)
         | None => None
         end.
Proof. reflexivity. Qed.

Lemma occurs_cons sep c s :
  occurs sep (String c s) = String.prefix sep (String c s) || occurs sep s.
Proof. reflexivity. Qed.

Lemma occurs_none_split sep s :
  occurs sep s = false -> Py.split_once sep s = None.
Proof.
  induction s as [|c s IH].
  - simpl. destruct sep; [discriminate|reflexivity].
  - rewrite occurs_cons, split_once_cons. intros H.
    apply orb_false_iff in H as [-> Hs]. rewrite (IH Hs). reflexivity.
Qed.

Lemma prefix_app sep a b :
  String.prefix sep a = true -> String.prefix sep (a ++ b) = true.
Proof.
  revert a. induction sep as [|x sep IH]; intros a.
  - intros _. apply prefix_empty.
  - destruct a as [|y a]; [discriminate|].
    change (String y a ++ b) with (String y (a ++ b)).
    rewrite !prefix_cons. intros H. apply andb_true_iff in H as [-> H].
    rewrite (IH _ H). reflexivity.
Qed.

Lemma occurs_app sep a b :
  occurs sep a = true -> occurs sep (a ++ b) = true.
Proof.
  induction a as [|c a IH].
  - simpl. destruct sep; [|discriminate]. intros _. destruct b; reflexivity.
  - change (String c a ++ b) with (String c (a ++ b)).
    rewrite !occurs_cons. intros H. apply orb_true_iff in H as [H|H].
    + change (String c (a ++ b)) with (String c a ++ b).
      rewrite (prefix_app _ _ _ H). reflexivity.
    + rewrite (IH H). apply orb_true_r.
Qed.

Lemma occurs_lstrip sep s :
  occurs sep (Py.lstrip s) = true -> occurs sep s = true.
Proof.
  induction s as [|c s IH]; [trivial|].
  simpl Py.lstrip. destruct (Py.isspace c); [|trivial].
  intros H. rewrite occurs_cons, (IH H). apply orb_true_r.
Qed.

Lemma rstrip_is_prefix s : exists t, s = Py.rstrip s ++ t.
Proof.
  induction s as [|c s [t IH]]; [exists EmptyString; reflexivity|].
  simpl. destruct (Py.rstrip s) as [|b r] eqn:E.
  - destruct (Py.isspace c).
    + exists (String c s). reflexivity.
    + exists s. reflexivity.
  - exists t. rewrite IH at 1. reflexivity.
Qed.

Lemma occurs_strip sep s :
  occurs sep s = false -> occurs sep (Py.strip s) = false.
Proof.
  intros H. destruct (occurs sep (Py.strip s)) eqn:E; [|reflexivity].
  unfold Py.strip in E.
  destruct (rstrip_is_prefix (Py.lstrip s)) as [t Ht].
  pose proof (occurs_app _ _ t E) as E'. rewrite <- Ht in E'.
  apply occurs_lstrip in E'. congruence.
Qed.

Lemma substring_whole s : String.substring 0 (String.length s) s = s.
Proof. induction s as [|c s IH]; simpl; [reflexivity|]. rewrite IH. reflexivity. Qed.

Lemma split_once_two_spaces d p :
  occurs "  " (d ++ " ") = false ->
  Py.split_once "  " (d ++ "  " ++ p) = Some (d, p).
Proof.
  induction d as [|c d IH]; intros H.
  - change ("" ++ "  " ++ p) with (String " " (String " " p)).
    rewrite split_once_cons.
    rewrite !prefix_cons, prefix_empty.
    simpl. rewrite Nat.sub_0_r, substring_whole. reflexivity.
  - change (String c d ++ " ") with (String c (d ++ " ")) in H.
    rewrite occurs_cons in H. apply orb_false_iff in H as [Hp Hd].
    change (String c d ++ "  " ++ p) with (String c (d ++ "  " ++ p)).
    rewrite split_once_cons, (IH Hd).
    replace (String.prefix "  " (String c (d ++ "  " ++ p))) with false;
      [reflexivity|].
    symmetry. etransitivity; [|exact Hp]. rewrite !prefix_cons. f_equal.
    destruct d as [|e d]; [reflexivity|].
    change (String e d ++ "  " ++ p) with (String e (d ++ "  " ++ p)).
    change (String e d ++ " ") with (String e (d ++ " ")).
    rewrite !prefix_cons, !prefix_empty. reflexivity.
Qed.

Lemma strip_blank s : all_chars Py.isspace s = true -> Py.strip s = EmptyString.
Proof.
  unfold Py.strip. induction s as [|c s IH]; simpl; [reflexivity|].
  intros H. apply andb_true_iff in H as [-> Hs]. auto.
Qed.

Lemma strip_hash s :
  Py.startswith "#" s = true -> Py.startswith "#" (Py.strip s) = true.
Proof.
  unfold Py.startswith, Py.strip. destruct s as [|c s]; [discriminate|].
  rewrite prefix_cons, prefix_empty, andb_true_r. intros H.
  apply Ascii.eqb_eq in H as <-. simpl.
  destruct (Py.rstrip s); rewrite prefix_cons, prefix_empty; reflexivity.
Qed.

(** C9: loading a checksum manifest skips blank lines and lines that
    begin with ['#'], splits each other line at the first two-space
    separator only (later double spaces stay in the path) and maps the
    path to the digest; a line without that separator adds nothing; the
    result is what the lines add in order, starting from the empty map. *)
Theorem load_checksum_lines :
  (forall m line, all_chars Py.isspace line = true -> load_line m line = m)
  /\ (forall m line, Py.startswith "#" line = true -> load_line m line = m)
  /\ (forall m line, occurs "  " line = false -> load_line m line = m)
  /\ (forall m line d p,
        Py.strip line = d ++ "  " ++ p ->
        Py.startswith "#" d = false ->
        occurs "  " (d ++ " ") = false ->
        load_line m line = <[p := d]> m)
  /\ (forall lines line,
        load_lines (lines ++ [line]) = load_line (load_lines lines) line)
  /\ load_lines [] = ∅
  /\ load_lines ["# made by cardcopy"; ""; "abc  dir  name.txt"; "no separator"]
     = {[ "dir  name.txt" := "abc" ]}
  /\ (forall texts f lines,
        texts !! f = Some lines ->
        load_checksum_file texts f = Ok (load_lines lines)).
Proof.
  repeat apply conj.
  - intros m line H. unfold load_line. rewrite (strip_blank _ H). reflexivity.
  - intros m line H. unfold load_line. rewrite (strip_hash _ H).
    rewrite andb_false_r. reflexivity.
  - intros m line H. unfold load_line.
    rewrite (occurs_none_split _ _ (occurs_strip _ _ H)).
    destruct (_ && _); reflexivity.
  - intros m line d p Hs Hh Ho. unfold load_line. rewrite Hs.
    rewrite (split_once_two_spaces d p Ho).
    replace (Py.startswith "#" (d ++ "  " ++ p)) with false.
    + destruct d; reflexivity.
    + unfold Py.startswith in *. destruct d as [|c d]; [reflexivity|].
      change (String c d ++ "  " ++ p) with (String c (d ++ "  " ++ p)).
      rewrite prefix_cons, prefix_empty in *. symmetry. exact Hh.
  - intros lines line. unfold load_lines. rewrite fold_left_app. reflexivity.
  - reflexivity.
  - vm_compute. reflexivity.
  - intros texts f lines H. unfold load_checksum_file. rewrite H. reflexivity.
Qed.

End ManifestFacts.

(** ** File names *)

Lemma append_assoc3 a b c : (a ++ b) ++ c = a ++ b ++ c.
Proof.
  induction a as [|x a IH]; [reflexivity|].
  change ((String x a ++ b) ++ c) with (String x ((a ++ b) ++ c)).
  rewrite IH. reflexivity.
Qed.

Lemma basename_no_slash p : Py.char_in "/" (OsPath.basename p) = false.
Proof.
  induction p as [|c p IH]; [reflexivity|]. cbn [OsPath.basename].
  destruct (Py.char_in "/" p) eqn:E; [exact IH|].
  destruct (Ascii.eqb c "/") eqn:Ec; [exact E|].
  cbn [Py.char_in]. rewrite E, Ascii.eqb_sym, Ec. reflexivity.
Qed.

Lemma char_in_app c a b : Py.char_in c (a ++ b) = Py.char_in c a || Py.char_in c b.
Proof.
  induction a as [|d a IH]; [reflexivity|].
  change (String d a ++ b) with (String d (a ++ b)). cbn [Py.char_in].
  rewrite IH. apply orb_assoc.
Qed.

Lemma basename_plain name : Py.char_in "/" name = false -> OsPath.basename name = name.
Proof.
  destruct name as [|c name]; [reflexivity|]. cbn [Py.char_in OsPath.basename].
  intros H. apply orb_false_iff in H as [Hc Hn]. rewrite Hn, Ascii.eqb_sym, Hc.
  reflexivity.
Qed.

Lemma basename_after_slash a name :
  Py.char_in "/" name = false -> OsPath.basename (a ++ "/" ++ name) = name.
Proof.
  intros Hn. induction a as [|c a IH].
  - change (EmptyString ++ "/" ++ name) with (String "/" name). cbn [OsPath.basename].
    rewrite Hn. reflexivity.
  - change (String c a ++ "/" ++ name) with (String c (a ++ "/" ++ name)).
    cbn [OsPath.basename]. rewrite char_in_app.
    change ("/" ++ name) with (String "/" name). cbn [Py.char_in].
    rewrite Ascii.eqb_refl, orb_true_r. exact IH.
Qed.

Lemma endswith_slash_split a :
  Py.endswith_slash a = true -> exists b, a = b ++ "/".
Proof.
  unfold Py.endswith_slash. induction a as [|c a IH]; [discriminate|].
  cbn [String.length]. rewrite Nat.sub_succ, Nat.sub_0_r.
  destruct a as [|d a].
  - cbn. destruct (Ascii.eqb c "/") eqn:E; [|discriminate].
    apply Ascii.eqb_eq in E as ->. intros _. exists EmptyString. reflexivity.
  - cbn [String.length] in *. rewrite Nat.sub_succ, Nat.sub_0_r in IH.
    cbn [String.get]. intros H. destruct (IH H) as [b ->].
    exists (String c b). reflexivity.
Qed.

Lemma basename_path_join dir name :
  Py.char_in "/" name = false ->
  OsPath.basename (Py.path_join dir name) = name.
Proof.
  intros Hn. unfold Py.path_join.
  assert (Hp : String.prefix "/" name = false).
  { destruct name as [|c name]; [reflexivity|]. cbn [Py.char_in] in Hn.
    apply orb_false_iff in Hn as [Hc _].
    rewrite prefix_cons, prefix_empty, andb_true_r. exact Hc. }
  rewrite Hp. destruct dir as [|c dir].
  - cbn. apply basename_plain, Hn.
  - cbn [Py.truthy negb orb].
    destruct (Py.endswith_slash (String c dir)) eqn:E.
    + destruct (endswith_slash_split _ E) as [b ->].
      rewrite append_assoc3. apply basename_after_slash, Hn.
    + apply basename_after_slash, Hn.
Qed.






(** What the copy of a file may write besides its destination path: the
    file [shutil.copy2] makes in that path when it is a folder. *)
Lemma may_write_cases env source_file dest_file p :
  may_write env source_file dest_file p ->
  p = dest_file
  \/ (is_dir env dest_file = true
      /\ p = Py.path_join dest_file (OsPath.basename source_file)).
Proof.
  unfold may_write, copy2_target. intros [->|Hp]; [left; reflexivity|].
  destruct (is_dir env dest_file); [right|left]; auto.
Qed.

Lemma reached_cases env cfg final_dest items p :
  reached env cfg final_dest items p ->
  written env cfg final_dest items p \/ landed env cfg final_dest items p.
Proof.
  intros (it & Hit & rel & files & file & Hd & Hf & Hw & Hp).
  apply may_write_cases in Hw as [->|[Hdir ->]].
  - left. exists it. split; [exact Hit|]. exists rel, files, file. auto.
  - right. exists it, rel, files, file. auto 10.
Qed.


(** ** Speed and remaining time *)

Lemma Qltb_lt a b : Qltb a b = true <-> (a < b)%Q.
Proof.
  unfold Qltb. rewrite negb_true_iff. split.
  - intros H. apply Qnot_le_lt. intros Hle.
    apply Qle_bool_iff in Hle. congruence.
  - intros H. destruct (Qle_bool b a) eqn:E; [|reflexivity].
    apply Qle_bool_iff in E. exfalso. exact (Qlt_not_le _ _ H E).
Qed.

Lemma Qltb_ge a b : Qltb a b = false <-> (b <= a)%Q.
Proof.
  unfold Qltb. rewrite negb_false_iff. apply Qle_bool_iff.
Qed.

Lemma Qdiv_nonneg a b : (0 <= a)%Q -> (0 < b)%Q -> (0 <= a / b)%Q.
Proof.
  intros Ha Hb. apply Qle_shift_div_l; [exact Hb|]. rewrite Qmult_0_l. exact Ha.
Qed.

Lemma copy_eta_spec c speed :
  (0 <= copy_eta c speed)%Q
  /\ ((0 < speed)%Q -> (copied_size c < inject_Z (total_size c))%Q ->
      copy_eta c speed
      = ((inject_Z (total_size c) - copied_size c) / inject_Z MiB / speed)%Q)
  /\ ((speed <= 0)%Q \/ (inject_Z (total_size c) <= copied_size c)%Q ->
      copy_eta c speed = 0%Q).
Proof.
  unfold copy_eta.
  destruct (Qltb 0 speed) eqn:Es;
    destruct (Qltb (copied_size c) (inject_Z (total_size c))) eqn:Er; simpl.
  - apply Qltb_lt in Es, Er. repeat apply conj.
    + apply Qdiv_nonneg; [|exact Es]. apply Qdiv_nonneg; [lra|reflexivity].
    + reflexivity.
    + intros [H|H]; lra.
  - apply Qltb_ge in Er. repeat apply conj; [lra| intros; lra |reflexivity].
  - apply Qltb_ge in Es. repeat apply conj; [lra| intros; lra |reflexivity].
  - apply Qltb_ge in Es. repeat apply conj; [lra| intros; lra |reflexivity].
Qed.

Lemma verify_eta_spec c speed :
  (0 <= verify_eta c speed)%Q
  /\ ((0 < speed)%Q -> (verified_files c < total_files c)%Z ->
      verify_eta c speed
      = (inject_Z (total_files c - verified_files c) / speed)%Q)
  /\ ((speed <= 0)%Q \/ (total_files c <= verified_files c)%Z ->
      verify_eta c speed = 0%Q).
Proof.
  unfold verify_eta.
  destruct (Qltb 0 speed) eqn:Es;
    destruct (Z.ltb_spec (verified_files c) (total_files c)) as [Er|Er]; simpl.
  - apply Qltb_lt in Es. repeat apply conj.
    + apply Qdiv_nonneg; [|exact Es].
      change 0%Q with (inject_Z 0). rewrite <- Zle_Qle. lia.
    + reflexivity.
    + intros [H|H]; [lra|lia].
  - repeat apply conj; [lra| intros; lia |reflexivity].
  - apply Qltb_ge in Es. repeat apply conj; [lra| intros; lra |reflexivity].
  - apply Qltb_ge in Es. repeat apply conj; [lra| intros; lra |reflexivity].
Qed.

Lemma elapsed_since_frame env start w :
  let r := elapsed_since env start w in
  (0 <= fst r)%Q /\ cm (snd r) = cm w /\ past (snd r) = past w
  /\ shown (snd r) = shown w /\ dst (snd r) = dst w /\ polls (snd r) = polls w.
Proof.
  unfold elapsed_since. destruct (Qltb 0 start); simpl.
  - destruct (Qltb (clock env (ticks w) - start) 0) eqn:E; simpl.
    + repeat apply conj; try reflexivity. lra.
    + apply Qltb_ge in E. repeat apply conj; try reflexivity. exact E.
  - repeat apply conj; try reflexivity. lra.
Qed.

Lemma copy_speed_nonneg c elapsed : (0 <= copy_speed_mb_s c elapsed)%Q.
Proof.
  unfold copy_speed_mb_s, py_max0. destruct (_ && _); [|lra].
  destruct (Qltb 0 _) eqn:E; [|lra]. apply Qltb_lt in E. lra.
Qed.

Lemma verify_speed_nonneg c elapsed :
  (0 <= verified_files c)%Z -> (0 <= verify_speed_of c elapsed)%Q.
Proof.
  intros H. unfold verify_speed_of. destruct (Qltb 0 elapsed) eqn:E; [|lra].
  apply Qltb_lt in E. apply Qdiv_nonneg; [|exact E].
  change 0%Q with (inject_Z 0). rewrite <- Zle_Qle. exact H.
Qed.

(** C6: the remaining time shown is never negative; it is the remaining
    amount divided by the speed when the speed is positive and something
    remains, and 0 otherwise, in the copy phase (remaining bytes, in MiB,
    over the speed in MiB/s) and in the verify phase (remaining files over
    files per second); every progress line put on screen carries the
    remaining time computed this way from the speed it shows. *)
Theorem eta_nonnegative_and_exact :
  (forall c speed,
      (0 <= copy_eta c speed)%Q
      /\ ((0 < speed)%Q -> (copied_size c < inject_Z (total_size c))%Q ->
          copy_eta c speed
          = ((inject_Z (total_size c) - copied_size c) / inject_Z MiB / speed)%Q)
      /\ ((speed <= 0)%Q \/ (inject_Z (total_size c) <= copied_size c)%Q ->
          copy_eta c speed = 0%Q))
  /\ (forall c speed,
      (0 <= verify_eta c speed)%Q
      /\ ((0 < speed)%Q -> (verified_files c < total_files c)%Z ->
          verify_eta c speed
          = (inject_Z (total_files c - verified_files c) / speed)%Q)
      /\ ((speed <= 0)%Q \/ (total_files c <= verified_files c)%Z ->
          verify_eta c speed = 0%Q))
  /\ (forall env w,
      shown (update_progress env w) = shown w
      \/ exists p, shown (update_progress env w) = p :: shown w
                   /\ shown_phase p = CopyPhase
                   /\ (0 <= shown_speed p)%Q
                   /\ shown_eta p = copy_eta (cm w) (shown_speed p)
                   /\ (0 <= shown_eta p)%Q)
  /\ (forall env w,
      shown (update_verify_progress env w) = shown w
      \/ exists p, shown (update_verify_progress env w) = p :: shown w
                   /\ shown_phase p = VerifyPhase
                   /\ shown_eta p = verify_eta (cm w) (shown_speed p)
                   /\ (0 <= shown_eta p)%Q).
Proof.
  repeat apply conj.
  - apply copy_eta_spec.
  - apply verify_eta_spec.
  - intros env w. unfold update_progress.
    destruct (0 <? total_files (cm w))%Z; [right|left; reflexivity].
    pose proof (elapsed_since_frame env (copy_start_time (cm w)) w) as Hf.
    destruct (elapsed_since env (copy_start_time (cm w)) w) as [e w1].
    simpl in Hf. destruct Hf as (He & Hcm & _ & Hsh & _).
    rewrite Hcm. eexists. split.
    + destruct (_ || _); simpl; rewrite Hsh; reflexivity.
    + simpl. repeat apply conj; try reflexivity.
      * apply copy_speed_nonneg.
      * apply copy_eta_spec.
  - intros env w. unfold update_verify_progress.
    destruct (0 <? total_files (cm w))%Z; [right|left; reflexivity].
    pose proof (elapsed_since_frame env (verify_start_time (cm w)) w) as Hf.
    destruct (elapsed_since env (verify_start_time (cm w)) w) as [e w1].
    simpl in Hf. destruct Hf as (He & Hcm & _ & Hsh & _).
    rewrite Hcm. eexists. split.
    + simpl. rewrite Hsh. reflexivity.
    + simpl. repeat apply conj; try reflexivity. apply verify_eta_spec.
Qed.

(** ** The history of the copy manager *)

Lemma counters_le_refl c : counters_le c c.
Proof. unfold counters_le. lia. Qed.

Lemma session_ok_assign cfg f w :
  session_ok cfg w ->
  counters_le (cm w) (f (cm w)) ->
  (copied_size (cm w) <= copied_size (f (cm w)))%Q ->
  state_ok cfg (f (cm w)) ->
  session_ok cfg (assign f w).
Proof.
  intros (Hs & Hf & Hr) Hc Hq Hok. split; [|split].
  - simpl. split; [split; [exact Hc|left; exact Hq]|exact Hs].
  - constructor; assumption.
  - exact Hr.
Qed.

Lemma session_ok_restore cfg f w prev rest :
  session_ok cfg w ->
  past w = prev :: rest ->
  f (cm w) = prev ->
  counters_le (cm w) prev ->
  session_ok cfg (assign f w).
Proof.
  intros (Hs & Hf & Hz) Hp Hr Hc. split; [|split].
  - simpl. rewrite Hp, Hr. split; [split; [exact Hc|right; reflexivity]|].
    unfold history in Hs. rewrite Hp in Hs. exact Hs.
  - constructor; [|exact Hf]. simpl. rewrite Hr.
    unfold history in Hf. rewrite Hp in Hf.
    inversion Hf as [|? ? _ Hf']. inversion Hf'. assumption.
  - exact Hz.
Qed.

Lemma session_ok_same cfg w w' :
  cm w' = cm w -> past w' = past w -> session_ok cfg w -> session_ok cfg w'.
Proof. unfold session_ok, history. intros -> ->. trivial. Qed.

Lemma state_ok_now cfg w : session_ok cfg w -> state_ok cfg (cm w).
Proof. intros (_ & H & _). inversion H. assumption. Qed.

Lemma set_copied_size_restore c v :
  set_copied_size (copied_size c) (set_copied_size v c) = c.
Proof. destruct c. reflexivity. Qed.

Lemma update_progress_frame env w :
  cm (update_progress env w) = cm w /\ past (update_progress env w) = past w
  /\ dst (update_progress env w) = dst w
  /\ polls (update_progress env w) = polls w.
Proof.
  unfold update_progress. destruct (0 <? total_files (cm w))%Z; [|auto].
  pose proof (elapsed_since_frame env (copy_start_time (cm w)) w) as Hf.
  destruct (elapsed_since env (copy_start_time (cm w)) w) as [e w1].
  simpl in Hf. destruct Hf as (_ & Hcm & Hp & _ & Hd & Hpo).
  destruct (_ || _); simpl; auto.
Qed.

Lemma update_verify_progress_frame env w :
  cm (update_verify_progress env w) = cm w
  /\ past (update_verify_progress env w) = past w
  /\ dst (update_verify_progress env w) = dst w
  /\ polls (update_verify_progress env w) = polls w.
Proof.
  unfold update_verify_progress. destruct (0 <? total_files (cm w))%Z; [|auto].
  pose proof (elapsed_since_frame env (verify_start_time (cm w)) w) as Hf.
  destruct (elapsed_since env (verify_start_time (cm w)) w) as [e w1].
  simpl in Hf. destruct Hf as (_ & Hcm & Hp & _ & Hd & Hpo). simpl. auto.
Qed.

Lemma py_min_le a b : (py_min a b <= b)%Q.
Proof.
  unfold py_min. destruct (Qltb b a) eqn:E; [lra|].
  apply Qltb_ge in E. exact E.
Qed.

Lemma provisional_bounds c file_size copied :
  (0 <= copied)%Z ->
  (copied_size c <= inject_Z (total_size c))%Q ->
  (copied_size c <= provisional c file_size copied)%Q
  /\ (provisional c file_size copied <= inject_Z (total_size c))%Q.
Proof.
  intros Hc Hle. unfold provisional. split; [|apply py_min_le].
  assert (Hr : (0 <= inject_Z file_size *
                     (if (0 <? file_size)%Z
                      then inject_Z copied / inject_Z file_size else 0))%Q).
  { destruct (Z.ltb_spec 0 file_size) as [Hpos|_]; [|lra].
    assert (0 < inject_Z file_size)%Q
      by (change 0%Q with (inject_Z 0); rewrite <- Zlt_Qlt; exact Hpos).
    assert (0 <= inject_Z copied)%Q
      by (change 0%Q with (inject_Z 0); rewrite <- Zle_Qle; exact Hc).
    apply Qmult_le_0_compat; [lra|]. apply Qdiv_nonneg; assumption. }
  unfold py_min. destruct (Qltb _ _); lra.
Qed.

Lemma push_progress_frame env file_size copied w :
  cm (push_progress env file_size copied w) = cm w
  /\ dst (push_progress env file_size copied w) = dst w
  /\ polls (push_progress env file_size copied w) = polls w.
Proof.
  unfold push_progress.
  destruct (0 <? total_size (cm w))%Z; [|auto].
  destruct (significant _ _); [|auto].
  destruct (update_progress_frame env
              (assign (set_copied_size (provisional (cm w) file_size copied)) w))
    as (Hcm & _ & Hd & Hp).
  simpl. rewrite Hcm, Hd, Hp. simpl.
  split; [apply set_copied_size_restore|auto].
Qed.

Lemma session_ok_push cfg env file_size copied w :
  (0 <= copied)%Z ->
  session_ok cfg w ->
  session_ok cfg (push_progress env file_size copied w).
Proof.
  intros Hc Hok. unfold push_progress.
  destruct (0 <? total_size (cm w))%Z; [|exact Hok].
  destruct (significant _ _); [|exact Hok].
  pose proof (state_ok_now _ _ Hok) as [Hle Hv].
  destruct (provisional_bounds (cm w) file_size copied Hc Hle) as [Hlo Hhi].
  set (temp := provisional (cm w) file_size copied) in *.
  destruct (update_progress_frame env (assign (set_copied_size temp) w))
    as (Hcm & Hp & _).
  eapply (session_ok_restore _ _ _ (cm w) (past w)).
  - eapply session_ok_same; [exact Hcm|exact Hp|].
    apply session_ok_assign;
      [exact Hok|unfold counters_le; simpl; lia|exact Hlo|].
    split; [exact Hhi|exact Hv].
  - rewrite Hp. reflexivity.
  - rewrite Hcm. simpl. apply set_copied_size_restore.
  - rewrite Hcm. unfold counters_le. simpl. lia.
Qed.

(** ** Frames of the copy of one file *)

Arguments poll : simpl never.

Lemma same_but_flag_refl c : same_but_flag c c.
Proof. reflexivity. Qed.

Lemma same_but_flag_trans a b c :
  same_but_flag a b -> same_but_flag b c -> same_but_flag a c.
Proof. unfold same_but_flag. congruence. Qed.

Lemma same_but_flag_fields a b :
  same_but_flag a b ->
  copy_view a = copy_view b /\ verify_view a = verify_view b
  /\ copied_files a = copied_files b /\ copied_size a = copied_size b.
Proof.
  destruct a, b. unfold same_but_flag. simpl. intros H.
  inversion H. subst. auto.
Qed.

Lemma same_but_flag_set_copying v c : same_but_flag c (set_copying v c).
Proof. destruct c. reflexivity. Qed.

Lemma log_grows_refl P w : log_grows P w w.
Proof. exists []. split; [reflexivity|constructor]. Qed.

Lemma log_grows_trans P w1 w2 w3 :
  log_grows P w1 w2 -> log_grows P w2 w3 -> log_grows P w1 w3.
Proof.
  intros (n1 & H1 & F1) (n2 & H2 & F2). exists (n2 ++ n1)%list. split.
  - rewrite H2, H1. apply app_assoc.
  - apply Forall_app. split; assumption.
Qed.

Lemma log_grows_same P w w' : log w' = log w -> log_grows P w w'.
Proof. intros H. exists []. split; [exact H|constructor]. Qed.

Lemma log_grows_add P l w : P l -> log_grows P w (add_log l w).
Proof. intros H. exists [l]. split; [reflexivity|]. constructor; [exact H|constructor]. Qed.

Lemma log_grows_weaken (P Q : LogLine -> Prop) w w' :
  (forall l, P l -> Q l) -> log_grows P w w' -> log_grows Q w w'.
Proof.
  intros H (new & Hl & Hf). exists new. split; [exact Hl|].
  eapply Forall_impl; eassumption.
Qed.

Lemma log_grows_In P w w' l :
  log_grows P w w' -> In l (log w') -> In l (log w) \/ P l.
Proof.
  intros (new & Hl & Hf) Hin. rewrite Hl in Hin.
  apply in_app_or in Hin as [Hin|Hin]; [right|left; exact Hin].
  rewrite Forall_forall in Hf. apply Hf, list_elem_of_In, Hin.
Qed.

Lemma log_grows_keeps P w w' l :
  log_grows P w w' -> In l (log w) -> In l (log w').
Proof.
  intros (new & Hl & _) Hin. rewrite Hl. apply in_or_app. right. exact Hin.
Qed.

Lemma poll_frame env w :
  same_but_flag (cm w) (cm (snd (poll env w)))
  /\ dst (snd (poll env w)) = dst w /\ log (snd (poll env w)) = log w
  /\ fst (poll env w) = copying (cm (snd (poll env w)))
  /\ (copying (cm w) = false -> fst (poll env w) = false).
Proof.
  unfold poll. destruct (stop_pressed env (polls w)); simpl.
  - repeat apply conj; auto using same_but_flag_set_copying.
  - repeat apply conj; auto using same_but_flag_refl.
Qed.

Lemma poll_never_stopped env w :
  never_stopped env ->
  fst (poll env w) = copying (cm w) /\ cm (snd (poll env w)) = cm w.
Proof. intros H. unfold poll. rewrite H. simpl. auto. Qed.

Lemma session_ok_poll cfg env w :
  session_ok cfg w -> session_ok cfg (snd (poll env w)).
Proof.
  intros Hok. unfold poll. destruct (stop_pressed env (polls w)); simpl.
  - apply session_ok_assign.
    + eapply session_ok_same; [| |exact Hok]; reflexivity.
    + unfold counters_le. simpl. lia.
    + simpl. lra.
    + apply state_ok_now in Hok. exact Hok.
  - eapply session_ok_same; [| |exact Hok]; reflexivity.
Qed.

Lemma elapsed_since_log env start w :
  log_grows diagnostic w (snd (elapsed_since env start w)).
Proof.
  unfold elapsed_since. destruct (Qltb 0 start); [|apply log_grows_refl].
  simpl. destruct (Qltb _ 0); simpl.
  - exists [LogNegativeTime]. split; [reflexivity|].
    constructor; [left; reflexivity|constructor].
  - apply log_grows_same. reflexivity.
Qed.

Lemma update_progress_log env w :
  log_grows diagnostic w (update_progress env w).
Proof.
  unfold update_progress. destruct (0 <? total_files (cm w))%Z;
    [|apply log_grows_refl].
  pose proof (elapsed_since_log env (copy_start_time (cm w)) w) as H1.
  destruct (elapsed_since env (copy_start_time (cm w)) w) as [e w1].
  simpl in H1. eapply log_grows_trans; [exact H1|].
  destruct (_ || _).
  - exists [LogSpeedAnomaly]. split; [reflexivity|].
    constructor; [right; reflexivity|constructor].
  - apply log_grows_same. reflexivity.
Qed.

Lemma update_verify_progress_log env w :
  log_grows diagnostic w (update_verify_progress env w).
Proof.
  unfold update_verify_progress. destruct (0 <? total_files (cm w))%Z;
    [|apply log_grows_refl].
  pose proof (elapsed_since_log env (verify_start_time (cm w)) w) as H1.
  destruct (elapsed_since env (verify_start_time (cm w)) w) as [e w1].
  exact H1.
Qed.

Lemma push_progress_log env file_size copied w :
  log_grows diagnostic w (push_progress env file_size copied w).
Proof.
  unfold push_progress. destruct (0 <? total_size (cm w))%Z;
    [|apply log_grows_refl].
  destruct (significant _ _); [|apply log_grows_refl].
  destruct (update_progress_log env
    (assign (set_copied_size (provisional (cm w) file_size copied)) w))
    as (new & Hl & Hf).
  exists new. split; [exact Hl|exact Hf].
Qed.

Section QuietSteps.

Variable cfg : Config.
Variable env : Env.
Variable Pl : LogLine -> Prop.
Variable Wr : string -> Prop.

Lemma quiet_refl w : quiet_step cfg env Pl Wr w w.
Proof.
  repeat apply conj; auto using same_but_flag_refl, log_grows_refl.
Qed.

Lemma quiet_trans w1 w2 w3 :
  quiet_step cfg env Pl Wr w1 w2 -> quiet_step cfg env Pl Wr w2 w3 ->
  quiet_step cfg env Pl Wr w1 w3.
Proof.
  intros (A1 & B1 & C1 & D1 & E1) (A2 & B2 & C2 & D2 & E2).
  repeat apply conj.
  - eapply same_but_flag_trans; eassumption.
  - auto.
  - eapply log_grows_trans; eassumption.
  - intros p Hp. rewrite D2, D1; auto.
  - intros Hn. rewrite E2, E1; auto.
Qed.

Lemma quiet_poll w : quiet_step cfg env Pl Wr w (snd (poll env w)).
Proof.
  destruct (poll_frame env w) as (Hs & Hd & Hl & _).
  repeat apply conj.
  - exact Hs.
  - apply session_ok_poll.
  - apply log_grows_same, Hl.
  - intros p _. rewrite Hd. reflexivity.
  - intros Hn. apply poll_never_stopped, Hn.
Qed.

Lemma quiet_time w : quiet_step cfg env Pl Wr w (snd (time env w)).
Proof.
  repeat apply conj; simpl; auto using same_but_flag_refl.
  apply log_grows_same. reflexivity.
Qed.

Lemma quiet_set_dst w d :
  (forall p, ~ Wr p -> d !! p = dst w !! p) ->
  quiet_step cfg env Pl Wr w (set_dst d w).
Proof.
  intros H. repeat apply conj; simpl; auto using same_but_flag_refl.
  apply log_grows_same. reflexivity.
Qed.

Lemma quiet_add_log w l : Pl l -> quiet_step cfg env Pl Wr w (add_log l w).
Proof.
  intros H. repeat apply conj; simpl; auto using same_but_flag_refl.
  apply log_grows_add, H.
Qed.

Lemma quiet_push file_size copied w :
  (forall l, diagnostic l -> Pl l) ->
  (0 <= copied)%Z ->
  quiet_step cfg env Pl Wr w (push_progress env file_size copied w).
Proof.
  intros HPl Hc.
  destruct (push_progress_frame env file_size copied w) as (Hcm & Hd & _).
  repeat apply conj.
  - rewrite Hcm. apply same_but_flag_refl.
  - apply session_ok_push, Hc.
  - eapply log_grows_weaken; [exact HPl|apply push_progress_log].
  - intros p _. rewrite Hd. reflexivity.
  - intros _. exact Hcm.
Qed.

End QuietSteps.

Lemma quiet_weaken cfg env (Pl Pl' : LogLine -> Prop) (Wr Wr' : string -> Prop)
    w w' :
  (forall l, Pl l -> Pl' l) -> (forall p, Wr p -> Wr' p) ->
  quiet_step cfg env Pl Wr w w' -> quiet_step cfg env Pl' Wr' w w'.
Proof.
  intros HP HW (A & B & C & D & E). repeat apply conj; auto.
  eapply log_grows_weaken; eassumption.
Qed.

Lemma chunk_loop_eq env source_file dest_file file_size chunks i copied last w :
  chunk_loop env source_file dest_file file_size chunks i copied last w
  = let close w :=
      if decide (write_fault env dest_file = Some i)
      then (Raise (OSError dest_file), w) else (Ok tt, w) in
    let '(go, w) := poll env w in
    if negb go then close w
    else if decide (chunk_fault env source_file = Some i)
    then (Raise (OSError source_file), w)
    else
      match chunks with
      | [] => close w
      | chunk :: rest =>
          if decide (write_fault env dest_file = Some i)
          then (Raise (OSError dest_file), w)
          else
          let w := write_chunk dest_file chunk w in
          let copied := (copied + Z.of_nat (length chunk))%Z in
          let '(current_time, w) := time env w in
          if Qle_bool update_interval (current_time - last)%Q then
            let w := push_progress env file_size copied w in
            chunk_loop env source_file dest_file file_size rest (S i) copied
              current_time w
          else
            chunk_loop env source_file dest_file file_size rest (S i) copied
              last w
      end.
Proof. destruct chunks; reflexivity. Qed.

Lemma chunk_loop_quiet cfg env source_file dest_file file_size chunks :
  forall i copied last w,
    (0 <= copied)%Z ->
    quiet_step cfg env diagnostic (eq dest_file) w
      (snd (chunk_loop env source_file dest_file file_size chunks i copied
              last w)).
Proof.
  induction chunks as [|chunk rest IH]; intros i copied last w Hc;
    rewrite chunk_loop_eq; cbv zeta;
    pose proof (quiet_poll cfg env diagnostic (eq dest_file) w) as Hp;
    destruct (poll env w) as [go w1]; cbn [fst snd] in Hp;
    (destruct go; cbn [negb fst snd];
     [|destruct (decide (write_fault env dest_file = Some i)); exact Hp]);
    (destruct (decide (chunk_fault env source_file = Some i)); [exact Hp|]);
    (destruct (decide (write_fault env dest_file = Some i)); [exact Hp|]).
  - exact Hp.
  - eapply quiet_trans; [exact Hp|].
    assert (Hw : quiet_step cfg env diagnostic (eq dest_file) w1
                   (write_chunk dest_file chunk w1)).
    { apply quiet_set_dst. intros p Hne.
      apply lookup_insert_ne. exact Hne. }
    eapply quiet_trans; [exact Hw|].
    assert (Hc' : (0 <= copied + Z.of_nat (length chunk))%Z) by lia.
    pose proof (quiet_time cfg env diagnostic (eq dest_file)
                  (write_chunk dest_file chunk w1)) as Ht.
    destruct (time env (write_chunk dest_file chunk w1)) as [now w2].
    cbn [fst snd] in Ht. cbv zeta.
    eapply quiet_trans; [exact Ht|].
    destruct (Qle_bool _ _).
    + eapply quiet_trans; [|apply IH; exact Hc'].
      apply quiet_push; [auto|exact Hc'].
    + apply IH; exact Hc'.
Qed.

Lemma chunked_copy_quiet cfg env source_file dest_file file_size w :
  quiet_step cfg env diagnostic (eq dest_file) w
    (snd (chunked_copy env source_file dest_file file_size w)).
Proof.
  unfold chunked_copy.
  pose proof (quiet_time cfg env diagnostic (eq dest_file) w) as Ht.
  destruct (time env w) as [last w1]. cbn [fst snd] in Ht.
  destruct (src env !! source_file) as [data|]; [|exact Ht].
  destruct (cannot_create env dest_file); [exact Ht|].
  eapply quiet_trans; [exact Ht|].
  eapply quiet_trans; [|apply chunk_loop_quiet; lia].
  apply quiet_set_dst. intros p Hne. apply lookup_insert_ne. exact Hne.
Qed.

Lemma copy2_quiet cfg env Pl source_file dest_file w :
  quiet_step cfg env Pl (eq (copy2_target env source_file dest_file)) w
    (snd (copy2 env source_file dest_file w)).
Proof.
  unfold copy2. destruct (src env !! source_file); [|apply quiet_refl].
  destruct (copy2_fault env source_file); [apply quiet_refl|].
  destruct (cannot_create env _); [apply quiet_refl|].
  apply quiet_set_dst. intros p Hne. apply lookup_insert_ne. exact Hne.
Qed.

Lemma copy_file_with_progress_quiet cfg env source_file dest_file file_size w :
  quiet_step cfg env
    (fun l => diagnostic l \/ l = LogFallback source_file)
    (may_write env source_file dest_file) w
    (snd (copy_file_with_progress env source_file dest_file file_size w)).
Proof.
  unfold copy_file_with_progress.
  pose proof (chunked_copy_quiet cfg env source_file dest_file file_size w) as Hc.
  destruct (chunked_copy env source_file dest_file file_size w) as [[[]|e] w1];
    cbn [fst snd] in Hc.
  - eapply quiet_weaken; [| |exact Hc]; [auto|].
    intros p <-. left. reflexivity.
  - eapply quiet_trans;
      [eapply quiet_weaken; [| |exact Hc]; [auto|intros p <-; left; reflexivity]|].
    eapply quiet_trans;
      [|eapply quiet_weaken; [| |apply copy2_quiet];
        [intros l Hl; exact Hl|intros p <-; right; reflexivity]].
    apply quiet_add_log. right. reflexivity.
Qed.

Lemma copy_one_file_done env cfg root current_dest file file_size w w1 :
  passes_filter cfg (Py.path_join root file) = true ->
  OsPath.getsize (src env) (Py.path_join root file) = Some file_size ->
  copy_file_with_progress env (Py.path_join root file)
    (Py.path_join current_dest file) file_size
    (add_log (LogCopyFile file (Py.path_join root file)
                (Py.path_join current_dest file)) w) = (Ok tt, w1) ->
  cm (copy_one_file env cfg root current_dest file w)
  = set_copied_size (copied_size (cm w1) + inject_Z file_size)%Q
      (set_copied_files (copied_files (cm w1) + 1)%Z (cm w1))
  /\ dst (copy_one_file env cfg root current_dest file w) = dst w1.
Proof.
  intros Hf Hg Hc. unfold copy_one_file. unfold passes_filter in Hf.
  apply negb_true_iff in Hf. rewrite Hf, Hg, Hc. cbn [cm dst add_log].
  match goal with |- context [update_progress env ?x] =>
    destruct (update_progress_frame env x) as (Hcm & _ & Hd & _);
    rewrite Hcm, Hd end.
  destruct (dest_getsize env (dst w1) _); [destruct (_ =? _)%Z|];
    split; reflexivity.
Qed.

(** C1, as the code has it: a progress push never commits the
    provisional value.  When the push fires with a change above 1% of the
    total, the provisional value is stored, the display is refreshed from
    it, and the earlier value is stored back, so that the copy manager is
    the same after the push as before; the copy of a file leaves
    [copied_size] as it was, whatever its pushes, and the caller adds the
    whole file size once the file is done. *)
Theorem progress_push_is_transient (env : Env) (file_size copied : Z) (w : World) :
  let temp := provisional (cm w) file_size copied in
  cm (push_progress env file_size copied w) = cm w
  /\ ((0 <? total_size (cm w))%Z && significant (cm w) temp = true ->
      history (push_progress env file_size copied w)
      = cm w :: set_copied_size temp (cm w) :: history w
      /\ shown (push_progress env file_size copied w)
         = shown (update_progress env (assign (set_copied_size temp) w)))
  /\ (forall source_file dest_file,
        copied_size
          (cm (snd (copy_file_with_progress env source_file dest_file
                      file_size w)))
        = copied_size (cm w))
  /\ (forall cfg root current_dest file,
        passes_filter cfg (Py.path_join root file) = true ->
        OsPath.getsize (src env) (Py.path_join root file) = Some file_size ->
        fst (copy_file_with_progress env (Py.path_join root file)
               (Py.path_join current_dest file) file_size
               (add_log (LogCopyFile file (Py.path_join root file)
                           (Py.path_join current_dest file)) w)) = Ok tt ->
        copied_size (cm (copy_one_file env cfg root current_dest file w))
        = (copied_size (cm w) + inject_Z file_size)%Q).
Proof.
  intros temp. repeat apply conj.
  - apply push_progress_frame.
  - intros H. apply andb_true_iff in H as [H1 H2].
    unfold push_progress. fold temp. rewrite H1, H2.
    destruct (update_progress_frame env (assign (set_copied_size temp) w))
      as (Hcm & Hp & _).
    split; [|reflexivity].
    unfold history. simpl. rewrite Hcm, Hp. simpl.
    rewrite set_copied_size_restore. reflexivity.
  - intros source_file dest_file.
    destruct (copy_file_with_progress_quiet (demo_cfg false) env source_file
                dest_file file_size w) as (Hs & _).
    apply same_but_flag_fields in Hs. symmetry. apply Hs.
  - intros cfg root current_dest file Hf Hg Hok.
    set (w0 := add_log _ w) in *.
    destruct (copy_file_with_progress_quiet cfg env (Py.path_join root file)
                (Py.path_join current_dest file) file_size w0) as (Hs & _).
    apply same_but_flag_fields in Hs. destruct Hs as (_ & _ & _ & Hs).
    destruct (copy_file_with_progress env (Py.path_join root file)
                (Py.path_join current_dest file) file_size w0)
      as [[[]|e] w1] eqn:E; [|discriminate].
    destruct (copy_one_file_done env cfg root current_dest file file_size w w1
                Hf Hg E) as [-> _].
    cbn [snd] in Hs. simpl. rewrite <- Hs. reflexivity.
Qed.

(** C1, as the claim states it, fails: in the copy of the 3-byte clip
    the push fires after one second with the provisional value 3, more
    than 1% of the total of 3 bytes away from the committed 0; the copy
    manager goes through 0, 3 and back to 0, and after the push (and
    after the whole file copy) the committed [copied_size] is 0, not the
    provisional 3. *)
Lemma progress_push_not_committed :
  let w := demo_counted in
  let temp := provisional (cm w) 3 3 in
  let after_push := push_progress demo_env 3 3 w in
  let after_copy :=
    snd (copy_file_with_progress demo_env "/card/a.mp4" "/dst/P/card/a.mp4" 3 w) in
  ((0 <? total_size (cm w))%Z && significant (cm w) temp = true)
  /\ (temp == 3)%Q
  /\ map copied_size (history after_push) = [0%Q; temp; 0%Q]
  /\ map copied_size (history after_copy) = [0%Q; temp; 0%Q]
  /\ copied_size (cm after_push) = 0%Q
  /\ ~ (copied_size (cm after_push) == temp)%Q
  /\ ~ (copied_size (cm after_copy) == temp)%Q.
Proof.
  repeat apply conj; try (vm_compute; reflexivity);
    vm_compute; intros H; discriminate H.
Qed.

(** ** Copy errors *)

Lemma copy_files_cons env cfg root current_dest file rest w :
  copy_files env cfg root current_dest (file :: rest) w
  = let '(go, w) := poll env w in
    if go
    then copy_files env cfg root current_dest rest
           (copy_one_file env cfg root current_dest file w)
    else w.
Proof. reflexivity. Qed.





(** The same copy when the destination path is a folder: the chunked
    copy cannot open it, [shutil.copy2] puts the file into the folder,
    and the file is counted with the line on the two sizes that
    differ. *)
Example copy_onto_a_folder :
  let w := copy_one_file demo_folder_env (demo_cfg true) "/card" "/dst/P/card"
             "a.mp4" demo_counted in
  dst w !! "/dst/P/card/a.mp4" = None
  /\ dst w !! "/dst/P/card/a.mp4/a.mp4" = Some [x01; x02; x03]%byte
  /\ copied_files (cm w) = 1%Z
  /\ log w = [LogCopied "a.mp4" 3; LogSizeMismatch 3 4096; LogCopyOk "a.mp4";
              LogFallback "/card/a.mp4";
              LogCopyFile "a.mp4" "/card/a.mp4" "/dst/P/card/a.mp4"].
Proof. vm_compute. repeat split. Qed.

(** ** The copy of folders *)

Section CopySteps.

Variable env : Env.

Lemma copy_step_refl Pl Wr w : copy_step env Pl Wr w w.
Proof. repeat apply conj; auto using log_grows_refl. Qed.

Lemma copy_step_trans Pl Wr w1 w2 w3 :
  copy_step env Pl Wr w1 w2 -> copy_step env Pl Wr w2 w3 ->
  copy_step env Pl Wr w1 w3.
Proof.
  intros (A1 & B1 & C1 & D1) (A2 & B2 & C2 & D2). repeat apply conj.
  - congruence.
  - eapply log_grows_trans; eassumption.
  - intros p Hp. rewrite C2, C1; auto.
  - intros Hn. rewrite D2, D1; auto.
Qed.

Lemma copy_step_weaken (Pl Pl' : LogLine -> Prop) (Wr Wr' : string -> Prop) w w' :
  (forall l, Pl l -> Pl' l) -> (forall p, Wr p -> Wr' p) ->
  copy_step env Pl Wr w w' -> copy_step env Pl' Wr' w w'.
Proof.
  intros HP HW (A & B & C & D). repeat apply conj; auto.
  eapply log_grows_weaken; eassumption.
Qed.

Lemma quiet_copy_step cfg Pl Wr w w' :
  quiet_step cfg env Pl Wr w w' -> copy_step env Pl Wr w w'.
Proof.
  intros (A & _ & C & D & E). repeat apply conj; auto.
  - apply same_but_flag_fields in A. apply A.
  - intros Hn. rewrite (E Hn). reflexivity.
Qed.

Lemma copy_step_same Pl Wr w w' :
  cm w' = cm w -> dst w' = dst w -> log_grows Pl w w' ->
  copy_step env Pl Wr w w'.
Proof.
  intros Hc Hd Hl. repeat apply conj; auto.
  - rewrite Hc. reflexivity.
  - intros p _. rewrite Hd. reflexivity.
  - intros _. rewrite Hc. reflexivity.
Qed.

End CopySteps.

Lemma size_of_nonneg env cfg f : (0 <= size_of env cfg f)%Z.
Proof.
  unfold size_of, OsPath.getsize. destruct (passes_filter cfg f); [|lia].
  destruct (src env !! f); simpl; lia.
Qed.

Lemma files_size_nonneg env cfg root files : (0 <= files_size env cfg root files)%Z.
Proof.
  induction files as [|f files IH]; simpl; [lia|].
  pose proof (size_of_nonneg env cfg (Py.path_join root f)). lia.
Qed.

Lemma dirs_size_nonneg env cfg top dirs : (0 <= dirs_size env cfg top dirs)%Z.
Proof.
  induction dirs as [|d dirs IH]; simpl; [lia|].
  pose proof (files_size_nonneg env cfg (OsPath.walk_root top (fst d)) (snd d)).
  lia.
Qed.

Lemma items_size_nonneg env cfg items : (0 <= items_size env cfg items)%Z.
Proof.
  induction items as [|it items IH]; simpl; [lia|].
  pose proof (dirs_size_nonneg env cfg (path it) (os_walk env (path it))). lia.
Qed.

Lemma pending_less w P P' : (P' <= P)%Z -> pending w P -> pending w P'.
Proof.
  unfold pending. intros H Hp. rewrite Zle_Qle in H. lra.
Qed.

Lemma pending_same w w' P :
  same_but_flag (cm w) (cm w') -> pending w P -> pending w' P.
Proof.
  intros H. apply same_but_flag_fields in H as (Hv & _ & _ & Hs).
  unfold pending. rewrite Hs.
  assert (Ht : total_size (cm w) = total_size (cm w'))
    by (unfold copy_view in Hv; congruence).
  rewrite Ht. trivial.
Qed.

Lemma copy_one_file_step env cfg root current_dest file w :
  copy_step env (copy_line_in root current_dest)
    (reached_in cfg env root current_dest [file]) w
    (copy_one_file env cfg root current_dest file w).
Proof.
  unfold copy_one_file.
  destruct (only_media cfg && negb (is_media_file cfg (Py.path_join root file)))
    eqn:Ef; [apply copy_step_refl|].
  assert (Hpass : passes_filter cfg (Py.path_join root file) = true)
    by (unfold passes_filter; rewrite Ef; reflexivity).
  assert (Hwr : forall p,
                may_write env (Py.path_join root file)
                  (Py.path_join current_dest file) p ->
                reached_in cfg env root current_dest [file] p).
  { intros p Hp. exists file. split; [left; reflexivity|auto]. }
  destruct (OsPath.getsize (src env) (Py.path_join root file)) as [file_size|].
  2:{ apply copy_step_same; try reflexivity. apply log_grows_add. exact I. }
  set (w0 := add_log _ w).
  assert (H0 : copy_step env (copy_line_in root current_dest)
                 (reached_in cfg env root current_dest [file]) w w0).
  { apply copy_step_same; try reflexivity. apply log_grows_add.
    split; reflexivity. }
  eapply copy_step_trans; [exact H0|].
  pose proof (copy_file_with_progress_quiet cfg env (Py.path_join root file)
                (Py.path_join current_dest file) file_size w0) as Hq.
  apply quiet_copy_step in Hq.
  eapply (copy_step_weaken env _ (copy_line_in root current_dest) _
            (reached_in cfg env root current_dest [file])) in Hq.
  2:{ intros l [[->| ->]| ->]; exact I. }
  2:{ exact Hwr. }
  destruct (copy_file_with_progress env (Py.path_join root file)
              (Py.path_join current_dest file) file_size w0) as [[[]|e] w1];
    cbn [snd] in Hq; (eapply copy_step_trans; [exact Hq|]).
  - match goal with |- context [update_progress env ?x] =>
      destruct (update_progress_frame env x) as (Hcm & _ & Hd & _);
      pose proof (update_progress_log env x) as Hl end.
    repeat apply conj.
    + cbn [cm add_log]. rewrite Hcm.
      destruct (dest_getsize env (dst w1) _); [destruct (_ =? _)%Z|]; reflexivity.
    + eapply log_grows_trans; [|apply log_grows_add; exact I].
      eapply log_grows_trans;
        [|eapply log_grows_weaken; [|exact Hl]; intros l [->| ->]; exact I].
      destruct (dest_getsize env (dst w1) _); [destruct (_ =? _)%Z|].
      * exists [LogSizeMatch file_size; LogCopyOk file].
        split; [reflexivity|repeat constructor].
      * exists [LogSizeMismatch file_size z; LogCopyOk file].
        split; [reflexivity|repeat constructor].
      * exists [LogMissingAfterCopy file].
        split; [reflexivity|repeat constructor].
    + intros p _. cbn [dst add_log]. rewrite Hd.
      destruct (dest_getsize env (dst w1) _); [destruct (_ =? _)%Z|]; reflexivity.
    + intros _. cbn [cm add_log]. rewrite Hcm.
      destruct (dest_getsize env (dst w1) _); [destruct (_ =? _)%Z|]; reflexivity.
  - apply copy_step_same; try reflexivity. apply log_grows_add. exact I.
Qed.

Lemma copy_one_file_ok env cfg root current_dest file w P :
  (0 <= P)%Z ->
  session_ok cfg w ->
  pending w (size_of env cfg (Py.path_join root file) + P) ->
  session_ok cfg (copy_one_file env cfg root current_dest file w)
  /\ pending (copy_one_file env cfg root current_dest file w) P.
Proof.
  intros HP Hok Hpend.
  pose proof (size_of_nonneg env cfg (Py.path_join root file)) as Hnn.
  unfold copy_one_file. unfold size_of, passes_filter in Hpend.
  destruct (only_media cfg && negb (is_media_file cfg (Py.path_join root file)))
    eqn:Ef; simpl in Hpend; [split; [exact Hok|exact Hpend]|].
  destruct (OsPath.getsize (src env) (Py.path_join root file)) as [file_size|] eqn:Eg.
  2:{ split; [eapply session_ok_same; [| |exact Hok]; reflexivity|exact Hpend]. }
  simpl in Hpend.
  assert (Hfs : (0 <= file_size)%Z).
  { unfold OsPath.getsize in Eg. destruct (src env !! _); [|discriminate].
    injection Eg as <-. lia. }
  set (w0 := add_log _ w).
  assert (Hok0 : session_ok cfg w0)
    by (eapply session_ok_same; [| |exact Hok]; reflexivity).
  pose proof (copy_file_with_progress_quiet cfg env (Py.path_join root file)
                (Py.path_join current_dest file) file_size w0)
    as (Hs & Hq & _).
  destruct (copy_file_with_progress env (Py.path_join root file)
              (Py.path_join current_dest file) file_size w0) as [[[]|e] w1];
    cbn [snd] in Hs, Hq; specialize (Hq Hok0);
    assert (Hp1 : pending w1 (file_size + P))
      by (eapply pending_same; [exact Hs|exact Hpend]).
  - set (w2 := match dest_getsize env (dst w1) _ with
               | Some dest_size => _ | None => _ end).
    assert (Hcm2 : cm w2 = cm w1 /\ past w2 = past w1).
    { unfold w2. destruct (dest_getsize env (dst w1) _); [destruct (_ =? _)%Z|];
        split; reflexivity. }
    destruct Hcm2 as [Hcm2 Hpast2].
    assert (Hok2 : session_ok cfg w2)
      by (eapply session_ok_same; [exact Hcm2|exact Hpast2|exact Hq]).
    pose proof (state_ok_now _ _ Hok2) as [Hle Hv].
    set (w3 := assign (fun c => set_copied_files (copied_files c + 1)%Z c) w2).
    assert (Hok3 : session_ok cfg w3).
    { apply session_ok_assign; [exact Hok2| | |].
      - unfold counters_le. simpl. lia.
      - simpl. lra.
      - split; [exact Hle|exact Hv]. }
    set (w4 := assign (fun c =>
                 set_copied_size (copied_size c + inject_Z file_size)%Q c) w3).
    unfold pending in Hp1. rewrite inject_Z_plus in Hp1.
    assert (HfsQ : (0 <= inject_Z file_size)%Q)
      by (change 0%Q with (inject_Z 0); rewrite <- Zle_Qle; exact Hfs).
    assert (HPQ : (0 <= inject_Z P)%Q)
      by (change 0%Q with (inject_Z 0); rewrite <- Zle_Qle; exact HP).
    assert (Hok4 : session_ok cfg w4).
    { apply session_ok_assign; [exact Hok3| | |].
      - unfold counters_le. simpl. lia.
      - simpl. lra.
      - split; simpl; [rewrite Hcm2; lra|rewrite Hcm2 in *; exact Hv]. }
    destruct (update_progress_frame env w4) as (Hcm & Hpast & _).
    split.
    + eapply session_ok_same; [| |exact Hok4]; simpl; assumption.
    + unfold pending. cbn [cm add_log]. rewrite Hcm. simpl. rewrite Hcm2. lra.
  - split.
    + eapply session_ok_same; [| |exact Hq]; reflexivity.
    + eapply pending_less; [|exact Hp1]. lia.
Qed.

Lemma poll_copy_step env Pl Wr w : copy_step env Pl Wr w (snd (poll env w)).
Proof.
  eapply quiet_copy_step. apply (quiet_poll (demo_cfg false)).
Qed.

Lemma poll_pending env w P : pending w P -> pending (snd (poll env w)) P.
Proof. apply pending_same, poll_frame. Qed.

Lemma copy_files_step env cfg root current_dest files :
  forall w,
    copy_step env (copy_line_in root current_dest)
      (reached_in cfg env root current_dest files) w
      (copy_files env cfg root current_dest files w).
Proof.
  induction files as [|file rest IH]; intros w; [apply copy_step_refl|].
  rewrite copy_files_cons.
  pose proof (poll_copy_step env (copy_line_in root current_dest)
                (reached_in cfg env root current_dest (file :: rest)) w) as Hp.
  destruct (poll env w) as [go w1]. cbn [snd] in Hp.
  destruct go; [|exact Hp].
  eapply copy_step_trans; [exact Hp|].
  eapply copy_step_trans.
  - eapply copy_step_weaken; [| |apply copy_one_file_step].
    + intros l Hl. exact Hl.
    + unfold reached_in. intros p (f & [<-|[]] & Hf).
      exists file. split; [left; reflexivity|exact Hf].
  - eapply copy_step_weaken; [| |apply IH].
    + intros l Hl. exact Hl.
    + unfold reached_in. intros p (f & Hin & Hf).
      exists f. split; [right; exact Hin|exact Hf].
Qed.

Lemma copy_files_ok env cfg root current_dest files :
  forall w P,
    (0 <= P)%Z ->
    session_ok cfg w ->
    pending w (files_size env cfg root files + P) ->
    session_ok cfg (copy_files env cfg root current_dest files w)
    /\ pending (copy_files env cfg root current_dest files w) P.
Proof.
  induction files as [|file rest IH]; intros w P HP Hok Hpend.
  - split; [exact Hok|exact Hpend].
  - rewrite copy_files_cons.
    pose proof (session_ok_poll cfg env w Hok) as Hok1.
    pose proof (poll_pending env w _ Hpend) as Hp1.
    destruct (poll env w) as [go w1]. cbn [snd] in Hok1, Hp1.
    pose proof (files_size_nonneg env cfg root rest) as Hr.
    pose proof (size_of_nonneg env cfg (Py.path_join root file)) as Hf.
    simpl in Hp1. destruct go.
    + destruct (copy_one_file_ok env cfg root current_dest file w1
                  (files_size env cfg root rest + P)) as [Hok2 Hp2];
        [lia|exact Hok1| |].
      * eapply pending_less; [|exact Hp1]. lia.
      * apply IH; assumption.
    + split; [exact Hok1|]. eapply pending_less; [|exact Hp1]. lia.
Qed.

Lemma copy_dirs_cons env cfg source_path target_path rel_path files rest w :
  copy_dirs env cfg source_path target_path ((rel_path, files) :: rest) w
  = let '(go, w) := poll env w in
    if go then
      let root := OsPath.walk_root source_path rel_path in
      let current_dest := dest_dir target_path rel_path in
      let w := if makedirs_fault env current_dest
               then add_log (LogMkdirFailed current_dest) w else w in
      copy_dirs env cfg source_path target_path rest
        (copy_files env cfg root current_dest files w)
    else w.
Proof. reflexivity. Qed.

Lemma copy_dirs_step env cfg final_dest it dirs :
  forall w,
    copy_step env (copy_line_of final_dest it)
      (reached_of cfg env final_dest it dirs) w
      (copy_dirs env cfg (path it)
         (Py.path_join final_dest (folder_name_of it)) dirs w).
Proof.
  induction dirs as [|[rel files] rest IH]; intros w; [apply copy_step_refl|].
  rewrite copy_dirs_cons.
  pose proof (poll_copy_step env (copy_line_of final_dest it)
                (reached_of cfg env final_dest it ((rel, files) :: rest)) w) as Hp.
  destruct (poll env w) as [go w1]. cbn [snd] in Hp.
  destruct go; [|exact Hp].
  eapply copy_step_trans; [exact Hp|]. cbv zeta.
  set (root := OsPath.walk_root (path it) rel).
  set (cd := dest_dir (Py.path_join final_dest (folder_name_of it)) rel).
  set (w2 := if makedirs_fault env cd then _ else w1).
  assert (H2 : copy_step env (copy_line_of final_dest it)
                 (reached_of cfg env final_dest it ((rel, files) :: rest)) w1 w2).
  { unfold w2. destruct (makedirs_fault env cd); [|apply copy_step_refl].
    apply copy_step_same; try reflexivity. apply log_grows_add. exact I. }
  eapply copy_step_trans; [exact H2|].
  eapply copy_step_trans.
  - eapply copy_step_weaken; [| |apply copy_files_step].
    + intros l Hl. destruct l; try exact I. destruct Hl as [-> ->].
      exists rel. split; reflexivity.
    + unfold reached_in, reached_of. intros p (f & Hin & Hp' & Hf).
      exists rel, files, f.
      split; [left; reflexivity|]. split; [exact Hin|].
      split; [exact Hp'|exact Hf].
  - eapply copy_step_weaken; [| |apply IH].
    + intros l Hl. exact Hl.
    + unfold reached_of. intros p (r & fs & f & Hin & Hf). exists r, fs, f.
      split; [right; exact Hin|exact Hf].
Qed.

Lemma copy_dirs_ok env cfg source_path target_path dirs :
  forall w P,
    (0 <= P)%Z ->
    session_ok cfg w ->
    pending w (dirs_size env cfg source_path dirs + P) ->
    session_ok cfg (copy_dirs env cfg source_path target_path dirs w)
    /\ pending (copy_dirs env cfg source_path target_path dirs w) P.
Proof.
  induction dirs as [|[rel files] rest IH]; intros w P HP Hok Hpend.
  - split; [exact Hok|exact Hpend].
  - rewrite copy_dirs_cons.
    pose proof (session_ok_poll cfg env w Hok) as Hok1.
    pose proof (poll_pending env w _ Hpend) as Hp1.
    destruct (poll env w) as [go w1]. cbn [snd] in Hok1, Hp1.
    pose proof (dirs_size_nonneg env cfg source_path rest) as Hr.
    pose proof (files_size_nonneg env cfg
                  (OsPath.walk_root source_path rel) files) as Hf.
    simpl in Hp1. destruct go.
    + cbv zeta.
      set (w2 := if makedirs_fault env _ then _ else w1).
      assert (Hcm : cm w2 = cm w1 /\ past w2 = past w1)
        by (unfold w2; destruct (makedirs_fault env _); split; reflexivity).
      destruct Hcm as [Hcm Hpast].
      destruct (copy_files_ok env cfg (OsPath.walk_root source_path rel)
                  (dest_dir target_path rel) files w2
                  (dirs_size env cfg source_path rest + P)) as [Hok2 Hp2].
      * lia.
      * eapply session_ok_same; [exact Hcm|exact Hpast|exact Hok1].
      * unfold pending. rewrite Hcm.
        eapply pending_less; [|exact Hp1]. lia.
      * apply IH; assumption.
    + split; [exact Hok1|]. eapply pending_less; [|exact Hp1]. lia.
Qed.

Lemma copy_folder_step env cfg final_dest it w :
  copy_step env (copy_line_of final_dest it)
    (reached_of cfg env final_dest it (os_walk env (path it))) w
    (snd (copy_folder env cfg (path it) final_dest (folder_name_of it) w)).
Proof.
  unfold copy_folder. destruct (makedirs_fault env _); [apply copy_step_refl|].
  apply copy_dirs_step.
Qed.

Lemma copy_folder_ok env cfg source_path dest_path folder_name w P :
  (0 <= P)%Z ->
  session_ok cfg w ->
  pending w (dirs_size env cfg source_path (os_walk env source_path) + P) ->
  session_ok cfg (snd (copy_folder env cfg source_path dest_path folder_name w))
  /\ pending (snd (copy_folder env cfg source_path dest_path folder_name w)) P.
Proof.
  intros HP Hok Hpend. unfold copy_folder.
  destruct (makedirs_fault env _); cbn [snd].
  - split; [exact Hok|]. eapply pending_less; [|exact Hpend].
    pose proof (dirs_size_nonneg env cfg source_path (os_walk env source_path)).
    lia.
  - apply copy_dirs_ok; assumption.
Qed.

Lemma copy_items_cons env cfg final_dest it rest w :
  copy_items env cfg final_dest (it :: rest) w
  = let '(go, w) := poll env w in
    if go then
      match copy_folder env cfg (path it) final_dest (folder_name_of it) w with
      | (Ok tt, w) => copy_items env cfg final_dest rest w
      | (Raise e, w) => (Raise e, w)
      end
    else (Ok tt, w).
Proof. reflexivity. Qed.

Lemma copy_items_step env cfg final_dest items :
  forall w,
    copy_step env (copy_line items final_dest)
      (reached env cfg final_dest items) w
      (snd (copy_items env cfg final_dest items w)).
Proof.
  induction items as [|it rest IH]; intros w; [apply copy_step_refl|].
  rewrite copy_items_cons.
  pose proof (poll_copy_step env (copy_line (it :: rest) final_dest)
                (reached env cfg final_dest (it :: rest)) w) as Hp.
  destruct (poll env w) as [go w1]. cbn [snd] in Hp.
  destruct go; [|exact Hp].
  eapply copy_step_trans; [exact Hp|].
  pose proof (copy_folder_step env cfg final_dest it w1) as Hf.
  eapply (copy_step_weaken env _ (copy_line (it :: rest) final_dest) _
            (reached env cfg final_dest (it :: rest))) in Hf.
  2:{ intros l Hl. destruct l; try exact I. destruct Hl as (rel & Hs & Hd).
      exists it, rel. split; [left; reflexivity|auto]. }
  2:{ intros p Hw. exists it. split; [left; reflexivity|exact Hw]. }
  destruct (copy_folder env cfg (path it) final_dest (folder_name_of it) w1)
    as [[[]|e] w2]; cbn [snd] in Hf; [|exact Hf].
  eapply copy_step_trans; [exact Hf|].
  eapply copy_step_weaken; [| |apply IH].
  - intros l Hl. destruct l; try exact I.
    destruct Hl as (it' & rel & Hin & Hs). exists it', rel.
    split; [right; exact Hin|exact Hs].
  - unfold reached. intros p (it' & Hin & Hw). exists it'.
    split; [right; exact Hin|exact Hw].
Qed.

Lemma copy_items_ok env cfg final_dest items :
  forall w P,
    (0 <= P)%Z ->
    session_ok cfg w ->
    pending w (items_size env cfg items + P) ->
    session_ok cfg (snd (copy_items env cfg final_dest items w))
    /\ pending (snd (copy_items env cfg final_dest items w)) P.
Proof.
  induction items as [|it rest IH]; intros w P HP Hok Hpend.
  - split; [exact Hok|exact Hpend].
  - rewrite copy_items_cons.
    pose proof (session_ok_poll cfg env w Hok) as Hok1.
    pose proof (poll_pending env w _ Hpend) as Hp1.
    destruct (poll env w) as [go w1]. cbn [snd] in Hok1, Hp1.
    pose proof (items_size_nonneg env cfg rest) as Hr.
    pose proof (dirs_size_nonneg env cfg (path it) (os_walk env (path it))) as Hd.
    simpl in Hp1. destruct go.
    + destruct (copy_folder_ok env cfg (path it) final_dest (folder_name_of it)
                  w1 (items_size env cfg rest + P)) as [Hok2 Hp2];
        [lia|exact Hok1| |].
      * eapply pending_less; [|exact Hp1]. lia.
      * destruct (copy_folder env cfg (path it) final_dest (folder_name_of it) w1)
          as [[[]|e] w2]; cbn [snd] in *.
        -- apply IH; assumption.
        -- split; [exact Hok2|]. eapply pending_less; [|exact Hp2]. lia.
    + split; [exact Hok1|]. eapply pending_less; [|exact Hp1]. lia.
Qed.

(** ** The counting walk and the start of a session *)

Lemma counted_as_refl c : counted_as c c 0 0.
Proof. unfold counted_as. destruct c. simpl. rewrite !Z.add_0_r. reflexivity. Qed.

Lemma counted_as_trans c1 c2 c3 S1 N1 S2 N2 :
  counted_as c1 c2 S1 N1 -> counted_as c2 c3 S2 N2 ->
  counted_as c1 c3 (S1 + S2) (N1 + N2).
Proof.
  unfold counted_as. intros -> ->. destruct c1. simpl.
  rewrite !Z.add_assoc. reflexivity.
Qed.

Lemma inject_Z_nonneg z : (0 <= z)%Z -> (0 <= inject_Z z)%Q.
Proof. intros H. change 0%Q with (inject_Z 0). rewrite <- Zle_Qle. exact H. Qed.

Lemma counted_as_ok cfg w w' S N :
  (0 <= S)%Z -> (0 <= N)%Z ->
  counted_as (cm w) (cm w') S N ->
  state_ok cfg (cm w) -> state_ok cfg (cm w').
Proof.
  intros HS HN -> [Hle Hv]. split; simpl.
  - rewrite inject_Z_plus. apply inject_Z_nonneg in HS. lra.
  - intros H. specialize (Hv H). lia.
Qed.

Section Counting.

Variable env : Env.
Variable cfg : Config.

Lemma count_rel_refl w : count_rel cfg w w 0 0.
Proof. repeat apply conj; auto using counted_as_refl. Qed.

Lemma count_rel_trans w1 w2 w3 S1 N1 S2 N2 :
  count_rel cfg w1 w2 S1 N1 -> count_rel cfg w2 w3 S2 N2 ->
  count_rel cfg w1 w3 (S1 + S2) (N1 + N2).
Proof.
  intros (A1 & B1 & C1 & D1 & E1) (A2 & B2 & C2 & D2 & E2).
  repeat apply conj; try congruence; auto.
  eapply counted_as_trans; eassumption.
Qed.

Lemma count_one_rel root w file :
  count_rel cfg w (count_one env cfg root w file)
    (size_of env cfg (Py.path_join root file))
    (if passes_filter cfg (Py.path_join root file) then 1 else 0).
Proof.
  unfold count_one, size_of, passes_filter.
  destruct (only_media cfg && negb (is_media_file cfg (Py.path_join root file)));
    simpl; [apply count_rel_refl|].
  unfold OsPath.getsize.
  destruct (src env !! Py.path_join root file) as [data|]; simpl.
  - repeat apply conj; try reflexivity.
    intros Hok. pose proof (state_ok_now _ _ Hok) as [Hle Hv].
    apply session_ok_assign.
    + apply session_ok_assign; [exact Hok| | |].
      * unfold counters_le. simpl. lia.
      * simpl. lra.
      * split; simpl; [exact Hle|]. intros H. specialize (Hv H). lia.
    + unfold counters_le. simpl. lia.
    + simpl. lra.
    + split; simpl.
      * rewrite inject_Z_plus.
        assert (0 <= inject_Z (Z.of_nat (length data)))%Q
          by (change 0%Q with (inject_Z 0); rewrite <- Zle_Qle; lia).
        lra.
      * intros H. specialize (Hv H). lia.
  - repeat apply conj; try reflexivity.
    + unfold counted_as. cbn [cm assign]. destruct (cm w). simpl.
      rewrite Z.add_0_r. reflexivity.
    + intros Hok. pose proof (state_ok_now _ _ Hok) as [Hle Hv].
      apply session_ok_assign; [exact Hok| | |].
      * unfold counters_le. simpl. lia.
      * simpl. lra.
      * split; simpl; [exact Hle|]. intros H. specialize (Hv H). lia.
Qed.

Lemma count_dir_rel top dir :
  forall w,
    count_rel cfg w (count_dir env cfg top w dir)
      (files_size env cfg (OsPath.walk_root top (fst dir)) (snd dir))
      (files_passing cfg (OsPath.walk_root top (fst dir)) (snd dir)).
Proof.
  unfold count_dir. destruct dir as [rel files]. cbn [fst snd].
  induction files as [|file rest IH]; intros w; [apply count_rel_refl|].
  cbn [fold_left files_size files_passing fold_right].
  eapply count_rel_trans; [apply count_one_rel|apply IH].
Qed.

Lemma count_item_rel it :
  forall w,
    count_rel cfg w (count_item env cfg w it)
      (dirs_size env cfg (path it) (os_walk env (path it)))
      (dirs_passing cfg (path it) (os_walk env (path it))).
Proof.
  unfold count_item. generalize (os_walk env (path it)) as dirs.
  induction dirs as [|dir rest IH]; intros w; [apply count_rel_refl|].
  cbn [fold_left dirs_size dirs_passing fold_right].
  eapply count_rel_trans; [apply count_dir_rel|apply IH].
Qed.

Lemma count_items_rel_list items :
  forall w,
    count_rel cfg w (fold_left (count_item env cfg) items w)
      (items_size env cfg items) (items_passing env cfg items).
Proof.
  induction items as [|it rest IH]; intros w; [apply count_rel_refl|].
  cbn [fold_left items_size items_passing fold_right].
  eapply count_rel_trans; [apply count_item_rel|apply IH].
Qed.

End Counting.

Lemma session_ok_begin cfg w : session_ok cfg (begin_session w).
Proof.
  split; [|split].
  - simpl. auto.
  - constructor; [|constructor]. unfold state_ok, begin_session, reset_counters.
    simpl. split; [apply Qle_refl|intros _; apply Z.le_refl].
  - unfold starts_reset. simpl. auto.
Qed.

Ltac conjs := repeat match goal with |- _ /\ _ => split end.

Lemma verify_final_dest_stored env cfg c :
  date_folder c = stored_folder env cfg ->
  verify_final_dest cfg c = session_root env cfg.
Proof.
  unfold verify_final_dest, stored_folder, session_root. intros ->.
  destruct (auto_folder cfg); reflexivity.
Qed.

Lemma destination_root_spec env cfg w0 :
  let wB := begin_session w0 in
  let r := destination_root env cfg wB in
  fst r = session_root env cfg
  /\ session_ok cfg (snd r)
  /\ cm (snd r) = set_date_folder (stored_folder env cfg) (cm wB)
  /\ log (snd r) = log w0 /\ dst (snd r) = dst w0.
Proof.
  intros wB r. unfold r, destination_root, session_root, stored_folder.
  pose proof (session_ok_begin cfg w0) as HokB. fold wB in HokB.
  destruct (auto_folder cfg).
  - change (date_folder (cm wB)) with (@None string). cbn [fst snd].
    conjs; try reflexivity.
    apply session_ok_assign; [exact HokB| | |].
    + unfold counters_le. simpl. lia.
    + simpl. apply Qle_refl.
    + apply (state_ok_now _ _ HokB).
  - cbn [fst snd]. conjs; try reflexivity. exact HokB.
Qed.

Lemma copy_phase_spec env cfg w0 :
  let r := copy_phase env cfg w0 in
  session_ok cfg (snd r)
  /\ date_folder (cm (snd r)) = stored_folder env cfg
  /\ verified_files (cm (snd r)) = 0%Z
  /\ (fst r = Ok tt ->
      total_files (cm (snd r)) = items_passing env cfg (source_items cfg)
      /\ total_size (cm (snd r)) = items_size env cfg (source_items cfg))
  /\ log_grows (copy_line (source_items cfg) (session_root env cfg)) w0 (snd r)
  /\ (forall p, ~ reached env cfg (session_root env cfg) (source_items cfg) p ->
                dst (snd r) !! p = dst w0 !! p)
  /\ (never_stopped env -> copying (cm (snd r)) = true).
Proof.
  intros r. unfold r, copy_phase.
  destruct (destination_root_spec env cfg w0) as (Hfd & HokA & HcmA & HlogA & HdstA).
  destruct (destination_root env cfg (begin_session w0)) as [final_dest wA].
  cbn [fst snd] in Hfd, HokA, HcmA, HlogA, HdstA. subst final_dest.
  destruct (makedirs_fault env (session_root env cfg)); cbn [fst snd].
  - conjs.
    + exact HokA.
    + rewrite HcmA. reflexivity.
    + rewrite HcmA. reflexivity.
    + discriminate.
    + apply log_grows_same. exact HlogA.
    + intros p _. rewrite HdstA. reflexivity.
    + intros _. rewrite HcmA. reflexivity.
  - set (wL := add_log (LogMakeRoot (session_root env cfg)) wA).
    assert (HokL : session_ok cfg wL)
      by (eapply session_ok_same; [| |exact HokA]; reflexivity).
    destruct (count_items_rel_list env cfg (source_items cfg) wL)
      as (Hcount & HlogC & HdstC & _ & HokC).
    fold (count_items env cfg wL) in Hcount, HlogC, HdstC, HokC.
    set (wC := count_items env cfg wL) in *.
    specialize (HokC HokL).
    unfold time. cbv zeta beta iota.
    set (wT := {| cm := cm wC; past := past wC; log := log wC;
                  shown := shown wC; dst := dst wC; ticks := S (ticks wC);
                  polls := polls wC |}).
    set (wD := assign (set_copy_start_time (clock env (ticks wC))) wT).
    assert (HokD : session_ok cfg wD).
    { apply session_ok_assign.
      - eapply session_ok_same; [| |exact HokC]; reflexivity.
      - unfold counters_le. simpl. lia.
      - simpl. apply Qle_refl.
      - apply (state_ok_now _ _ HokC). }
    assert (HcmD : cm wD = set_copy_start_time (clock env (ticks wC)) (cm wC))
      by reflexivity.
    unfold counted_as in Hcount. change (cm wL) with (cm wA) in Hcount.
    rewrite HcmA in Hcount.
    assert (HpendD : pending wD (items_size env cfg (source_items cfg) + 0)).
    { unfold pending. rewrite HcmD, Hcount. simpl.
      rewrite Z.add_0_r, Z.add_0_l, Qplus_0_l. apply Qle_refl. }
    destruct (copy_items_ok env cfg (session_root env cfg) (source_items cfg)
                wD 0%Z ltac:(lia) HokD HpendD) as [Hok1 _].
    destruct (copy_items_step env cfg (session_root env cfg) (source_items cfg) wD)
      as (Hview & Hlog & Hdst & Hflag).
    set (w1 := snd (copy_items env cfg (session_root env cfg)
                      (source_items cfg) wD)) in *.
    assert (Hv : copy_view (cm w1) = copy_view (cm wD)) by (symmetry; exact Hview).
    rewrite HcmD, Hcount in Hv. unfold copy_view in Hv. simpl in Hv.
    injection Hv as Htf Hts Hvf Hdf _ _ _ _ _.
    conjs.
    + exact Hok1.
    + exact Hdf.
    + exact Hvf.
    + intros _. split; [rewrite Htf|rewrite Hts]; reflexivity.
    + eapply log_grows_trans; [|exact Hlog].
      exists [LogMakeRoot (session_root env cfg)]. split.
      * change (log wD) with (log wC). rewrite HlogC. simpl. rewrite HlogA.
        reflexivity.
      * constructor; [exact I|constructor].
    + intros p Hp. rewrite (Hdst p Hp). change (dst wD) with (dst wC).
      rewrite HdstC. simpl. rewrite HdstA. reflexivity.
    + intros Hn. rewrite (Hflag Hn), HcmD, Hcount. reflexivity.
Qed.

(** ** The verify phase *)

Lemma session_ok_assign_neutral cfg f w :
  session_ok cfg w ->
  total_files (f (cm w)) = total_files (cm w) ->
  copied_files (f (cm w)) = copied_files (cm w) ->
  verified_files (f (cm w)) = verified_files (cm w) ->
  total_size (f (cm w)) = total_size (cm w) ->
  copied_size (f (cm w)) = copied_size (cm w) ->
  session_ok cfg (assign f w).
Proof.
  intros Hok H1 H2 H3 H4 H5. pose proof (state_ok_now _ _ Hok) as [Hle Hv].
  apply session_ok_assign; [exact Hok| | |].
  - unfold counters_le. lia.
  - rewrite H5. apply Qle_refl.
  - split; [rewrite H5, H4; exact Hle|rewrite H3, H1; exact Hv].
Qed.

Section VerifySteps.

Context {md5_state : Type}.
Variable md5_new : md5_state.
Variable md5_update : md5_state -> list byte -> md5_state.
Variable md5_hexdigest : md5_state -> string.
Variable env : Env.
Variable cfg : Config.

Local Abbreviation verify_one :=
  (verify_one_file md5_new md5_update md5_hexdigest).
Local Abbreviation verify_list :=
  (verify_file_list md5_new md5_update md5_hexdigest).
Local Abbreviation verify_ds := (verify_dirs md5_new md5_update md5_hexdigest).
Local Abbreviation verify_its := (verify_items md5_new md5_update md5_hexdigest).

Lemma verify_step_refl Pl w : verify_step env Pl w w.
Proof.
  unfold verify_step. conjs; auto using log_grows_refl. lia.
Qed.

Lemma verify_step_trans Pl w1 w2 w3 :
  verify_step env Pl w1 w2 -> verify_step env Pl w2 w3 ->
  verify_step env Pl w1 w3.
Proof.
  intros (A1 & B1 & C1 & D1 & E1 & F1) (A2 & B2 & C2 & D2 & E2 & F2).
  unfold verify_step. conjs; try congruence.
  - lia.
  - eapply log_grows_trans; eassumption.
  - intros Hn. rewrite F2, F1; auto.
Qed.

Lemma verify_step_weaken (Pl Pl' : LogLine -> Prop) w w' :
  (forall l, Pl l -> Pl' l) ->
  verify_step env Pl w w' -> verify_step env Pl' w w'.
Proof.
  intros HP (A & B & C & D & E & F). unfold verify_step. conjs; auto.
  eapply log_grows_weaken; eassumption.
Qed.

Lemma poll_verify_step Pl w : verify_step env Pl w (snd (poll env w)).
Proof.
  destruct (poll_frame env w) as (Hs & Hd & Hl & _).
  pose proof (same_but_flag_fields _ _ Hs) as (Hcv & Hvv & _).
  unfold verify_step. conjs.
  - exact Hvv.
  - unfold copy_view in Hcv. congruence.
  - unfold copy_view in Hcv. assert (verified_files (cm w)
      = verified_files (cm (snd (poll env w)))) by congruence. lia.
  - apply log_grows_same, Hl.
  - exact Hd.
  - intros Hn. destruct (poll_never_stopped env w Hn) as [_ ->]. reflexivity.
Qed.

Lemma poll_to_verify w R : to_verify cfg w R -> to_verify cfg (snd (poll env w)) R.
Proof.
  destruct (poll_frame env w) as (Hs & _).
  pose proof (same_but_flag_fields _ _ Hs) as (Hcv & _).
  unfold to_verify, copy_view in *. intros H Hm. specialize (H Hm).
  assert (verified_files (cm w) = verified_files (cm (snd (poll env w))))
    by congruence.
  assert (total_files (cm w) = total_files (cm (snd (poll env w))))
    by congruence.
  lia.
Qed.

(** The state of [verify_one_file] when it reaches the test of the
    destination file. *)
Lemma verify_one_file_eq root current_dest file w :
  let source_file := Py.path_join root file in
  let dest_file := Py.path_join current_dest file in
  exists w3,
    (verify_view (cm w3) = verify_view (cm w)
     /\ verified_files (cm w3) = verified_files (cm w)
     /\ total_md5_files (cm w3) = total_md5_files (cm w)
     /\ copying (cm w3) = copying (cm w))
    /\ dst w3 = dst w
    /\ log w3 = LogCheckFile file source_file dest_file
                  (OsPath.exists_ (dst w) dest_file) :: log w
    /\ (session_ok cfg w -> session_ok cfg w3)
    /\ verify_one env root current_dest file w
       = if OsPath.exists_ (dst w) dest_file then
           if (total_md5_files (cm w3) =? 0)%Z then add_log (LogMd5Error file) w3
           else
             match calculate_md5 md5_new md5_update md5_hexdigest
                     (src env) source_file with
             | Raise e => add_log (LogMd5Error file) w3
             | Ok source_md5 =>
                 match calculate_md5 md5_new md5_update md5_hexdigest
                         (dst w) dest_file with
                 | Raise e => add_log (LogMd5Error file) w3
                 | Ok dest_md5 =>
                     if String.eqb source_md5 dest_md5 then
                       add_log (LogMd5Match file)
                         (update_verify_progress env
                            (assign (fun c =>
                               set_verified_files (verified_files c + 1)%Z c) w3))
                     else add_log (LogMd5Mismatch file) w3
                 end
             end
         else add_log (LogNotFound file) w3.
Proof.
  intros source_file dest_file. unfold verify_one_file.
  fold source_file dest_file.
  set (w1 := assign (fun c =>
               set_md5_verified_files (md5_verified_files c + 1)%Z c) w).
  destruct (OsPath.getsize (src env) source_file) as [file_size|].
  - eexists. split; [|split; [|split; [|split; [|reflexivity]]]];
      [conjs; reflexivity|reflexivity|reflexivity|].
    intros Hok. eapply session_ok_same; [| |
      apply (session_ok_assign_neutral cfg
               (fun c => set_md5_calc_size (md5_calc_size c + file_size)%Z c) w1);
      [apply session_ok_assign_neutral; [exact Hok|..]|..]];
      reflexivity.
  - eexists. split; [|split; [|split; [|split; [|reflexivity]]]];
      [conjs; reflexivity|reflexivity|reflexivity|].
    intros Hok. eapply session_ok_same; [| |
      apply (session_ok_assign_neutral cfg
               (fun c => set_md5_verified_files (md5_verified_files c + 1)%Z c) w);
      [exact Hok|..]]; reflexivity.
Qed.

Lemma verify_one_step root current_dest file w :
  verify_step env (check_line_in root current_dest) w
    (verify_one env root current_dest file w).
Proof.
  destruct (verify_one_file_eq root current_dest file w)
    as (w3 & (Hvv & Hvf & Htm & Hcp) & Hd & Hl & _ & ->).
  assert (H3 : verify_step env (check_line_in root current_dest) w w3).
  { unfold verify_step. conjs; auto; try lia.
    exists [LogCheckFile file (Py.path_join root file)
              (Py.path_join current_dest file)
              (OsPath.exists_ (dst w) (Py.path_join current_dest file))].
    split; [exact Hl|]. constructor; [split; reflexivity|constructor]. }
  assert (Hadd : forall l, check_line_in root current_dest l ->
                 verify_step env (check_line_in root current_dest) w (add_log l w3)).
  { intros l Hcl. eapply verify_step_trans; [exact H3|].
    unfold verify_step. conjs; try reflexivity. apply log_grows_add, Hcl. }
  destruct (OsPath.exists_ (dst w) _); [|apply Hadd; exact I].
  destruct (_ =? _)%Z; [apply Hadd; exact I|].
  destruct (calculate_md5 _ _ _ (src env) _); [|apply Hadd; exact I].
  destruct (calculate_md5 _ _ _ (dst w) _); [|apply Hadd; exact I].
  destruct (String.eqb _ _); [|apply Hadd; exact I].
  eapply verify_step_trans; [exact H3|].
  match goal with |- context [update_verify_progress env ?x] =>
    destruct (update_verify_progress_frame env x) as (Hcm & _ & Hdd & _);
    pose proof (update_verify_progress_log env x) as Hlog end.
  unfold verify_step. cbn [cm dst add_log]. rewrite Hcm, Hdd. conjs.
  - reflexivity.
  - reflexivity.
  - simpl. lia.
  - eapply log_grows_trans; [|apply log_grows_add; exact I].
    eapply log_grows_weaken; [|exact Hlog]. intros l [->| ->]; exact I.
  - reflexivity.
  - reflexivity.
Qed.

Lemma verify_one_ok root current_dest file w R :
  (0 <= R)%Z ->
  session_ok cfg w ->
  to_verify cfg w (1 + R) ->
  session_ok cfg (verify_one env root current_dest file w)
  /\ to_verify cfg (verify_one env root current_dest file w) R.
Proof.
  intros HR Hok Htv.
  destruct (verify_one_file_eq root current_dest file w)
    as (w3 & (Hvv & Hvf & Htm & Hcp) & Hd & Hl & Hok3 & ->).
  specialize (Hok3 Hok).
  assert (Htf : total_files (cm w3) = total_files (cm w))
    by (unfold verify_view in Hvv; congruence).
  assert (Hskip : forall l, session_ok cfg (add_log l w3)
                            /\ to_verify cfg (add_log l w3) R).
  { intros l. split; [eapply session_ok_same; [| |exact Hok3]; reflexivity|].
    unfold to_verify in *. cbn [cm add_log]. intros Hm. specialize (Htv Hm). lia. }
  destruct (OsPath.exists_ (dst w) _); [|apply Hskip].
  destruct (_ =? _)%Z; [apply Hskip|].
  destruct (calculate_md5 _ _ _ (src env) _); [|apply Hskip].
  destruct (calculate_md5 _ _ _ (dst w) _); [|apply Hskip].
  destruct (String.eqb _ _); [|apply Hskip].
  match goal with |- context [update_verify_progress env ?x] =>
    destruct (update_verify_progress_frame env x) as (Hcm & Hp & _) end.
  pose proof (state_ok_now _ _ Hok3) as [Hle Hv].
  split.
  - eapply session_ok_same; [exact Hcm|exact Hp|].
    apply session_ok_assign; [exact Hok3| | |].
    + unfold counters_le. simpl. lia.
    + simpl. apply Qle_refl.
    + split; simpl; [exact Hle|]. intros Hm. specialize (Htv Hm). lia.
  - unfold to_verify in *. cbn [cm add_log]. rewrite Hcm. simpl.
    intros Hm. specialize (Htv Hm). lia.
Qed.

Lemma verify_one_bound root current_dest file w :
  (verified_files (cm (verify_one env root current_dest file w))
   <= verified_files (cm w) + 1)%Z.
Proof.
  destruct (verify_one_file_eq root current_dest file w)
    as (w3 & (Hvv & Hvf & Htm & Hcp) & Hd & Hl & _ & ->).
  destruct (OsPath.exists_ (dst w) _); [|simpl; lia].
  destruct (_ =? _)%Z; [simpl; lia|].
  destruct (calculate_md5 _ _ _ (src env) _); [|simpl; lia].
  destruct (calculate_md5 _ _ _ (dst w) _); [|simpl; lia].
  destruct (String.eqb _ _); [|simpl; lia].
  match goal with |- context [update_verify_progress env ?x] =>
    destruct (update_verify_progress_frame env x) as (Hcm & _) end.
  cbn [cm add_log]. rewrite Hcm. simpl. lia.
Qed.

Lemma verify_one_missing root current_dest file w :
  dst w !! Py.path_join current_dest file = None ->
  In (LogNotFound file) (log (verify_one env root current_dest file w))
  /\ verified_files (cm (verify_one env root current_dest file w))
     = verified_files (cm w).
Proof.
  intros Hnone.
  destruct (verify_one_file_eq root current_dest file w)
    as (w3 & (Hvv & Hvf & Htm & Hcp) & Hd & Hl & _ & ->).
  unfold OsPath.exists_. rewrite Hnone. simpl.
  split; [left; reflexivity|exact Hvf].
Qed.

Lemma verify_file_list_cons root current_dest file rest w :
  verify_list env root current_dest (file :: rest) w
  = let '(go, w) := poll env w in
    if go
    then verify_list env root current_dest rest
           (verify_one env root current_dest file w)
    else w.
Proof. reflexivity. Qed.

Lemma verify_list_step root current_dest files :
  forall w,
    verify_step env (check_line_in root current_dest) w
      (verify_list env root current_dest files w).
Proof.
  induction files as [|file rest IH]; intros w; [apply verify_step_refl|].
  rewrite verify_file_list_cons.
  pose proof (poll_verify_step (check_line_in root current_dest) w) as Hp.
  destruct (poll env w) as [go w1]. cbn [snd] in Hp.
  destruct go; [|exact Hp].
  eapply verify_step_trans; [exact Hp|].
  eapply verify_step_trans; [apply verify_one_step|apply IH].
Qed.

Lemma verify_list_ok root current_dest files :
  forall w R,
    (0 <= R)%Z ->
    session_ok cfg w ->
    to_verify cfg w (Z.of_nat (length files) + R) ->
    session_ok cfg (verify_list env root current_dest files w)
    /\ to_verify cfg (verify_list env root current_dest files w) R.
Proof.
  induction files as [|file rest IH]; intros w R HR Hok Htv.
  - split; [exact Hok|exact Htv].
  - rewrite verify_file_list_cons.
    pose proof (session_ok_poll cfg env w Hok) as Hok1.
    pose proof (poll_to_verify w _ Htv) as Htv1.
    destruct (poll env w) as [go w1]. cbn [snd] in Hok1, Htv1.
    cbn [length] in Htv1. destruct go.
    + destruct (verify_one_ok root current_dest file w1
                  (Z.of_nat (length rest) + R)) as [Hok2 Htv2];
        [lia|exact Hok1| |].
      * unfold to_verify in *. intros Hm. specialize (Htv1 Hm). lia.
      * apply IH; assumption.
    + split; [exact Hok1|].
      unfold to_verify in *. intros Hm. specialize (Htv1 Hm). lia.
Qed.

Lemma verify_list_bound root current_dest files :
  forall w,
    (verified_files (cm (verify_list env root current_dest files w))
     <= verified_files (cm w) + Z.of_nat (length files))%Z.
Proof.
  induction files as [|file rest IH]; intros w; [simpl; lia|].
  rewrite verify_file_list_cons.
  destruct (poll_verify_step (fun _ => True) w) as (_ & _ & Hp & _).
  destruct (poll_frame env w) as (Hs & _).
  apply same_but_flag_fields in Hs as (Hcv & _).
  assert (Hvf : verified_files (cm w) = verified_files (cm (snd (poll env w))))
    by (unfold copy_view in Hcv; congruence).
  destruct (poll env w) as [go w1]. cbn [snd] in Hvf. cbn [length].
  destruct go; [|lia].
  pose proof (IH (verify_one env root current_dest file w1)).
  pose proof (verify_one_bound root current_dest file w1). lia.
Qed.

Lemma verify_list_missing root current_dest files file :
  never_stopped env ->
  forall w,
    copying (cm w) = true ->
    In file files ->
    dst w !! Py.path_join current_dest file = None ->
    In (LogNotFound file) (log (verify_list env root current_dest files w))
    /\ (verified_files (cm (verify_list env root current_dest files w)) + 1
        <= verified_files (cm w) + Z.of_nat (length files))%Z.
Proof.
  intros Hn. induction files as [|file0 rest IH]; intros w Hc Hin Hnone;
    [destruct Hin|].
  rewrite verify_file_list_cons.
  destruct (poll_never_stopped env w Hn) as [Hgo Hcm].
  destruct (poll_frame env w) as (_ & Hd & _).
  destruct (poll env w) as [go w1]. cbn [fst snd] in Hgo, Hcm, Hd.
  rewrite Hgo, Hc. cbn [length].
  pose proof (verify_one_step root current_dest file0 w1)
    as (_ & _ & _ & _ & Hd2 & Hc2).
  pose proof (verify_one_bound root current_dest file0 w1) as Hb.
  rewrite Hcm in Hb.
  destruct Hin as [->|Hin].
  - destruct (verify_one_missing root current_dest file w1) as [Hlog Hvf];
      [rewrite Hd; exact Hnone|].
    split.
    + eapply log_grows_keeps; [|exact Hlog].
      destruct (verify_list_step root current_dest rest
                  (verify_one env root current_dest file w1))
        as (_ & _ & _ & Hl & _). exact Hl.
    + pose proof (verify_list_bound root current_dest rest
                    (verify_one env root current_dest file w1)).
      rewrite Hcm in Hvf. lia.
  - destruct (IH (verify_one env root current_dest file0 w1)) as [Hlog Hle].
    + rewrite (Hc2 Hn), Hcm. exact Hc.
    + exact Hin.
    + rewrite Hd2, Hd. exact Hnone.
    + split; [exact Hlog|lia].
Qed.

Lemma verify_dirs_cons source_path dest_path rel_path files rest w :
  verify_ds env source_path dest_path ((rel_path, files) :: rest) w
  = let '(go, w) := poll env w in
    if go then
      let root := OsPath.walk_root source_path rel_path in
      let current_dest := dest_dir dest_path rel_path in
      verify_ds env source_path dest_path rest
        (verify_list env root current_dest files w)
    else w.
Proof. reflexivity. Qed.

Lemma verify_dirs_step final_dest it dirs :
  forall w,
    verify_step env (check_line_of final_dest it) w
      (verify_ds env (path it) (Py.path_join final_dest (folder_name_of it))
         dirs w).
Proof.
  induction dirs as [|[rel files] rest IH]; intros w; [apply verify_step_refl|].
  rewrite verify_dirs_cons.
  pose proof (poll_verify_step (check_line_of final_dest it) w) as Hp.
  destruct (poll env w) as [go w1]. cbn [snd] in Hp.
  destruct go; [|exact Hp].
  eapply verify_step_trans; [exact Hp|]. cbv zeta.
  eapply verify_step_trans; [|apply IH].
  eapply verify_step_weaken; [|apply verify_list_step].
  intros l Hl. destruct l; try exact I. destruct Hl as [-> ->].
  exists rel. split; reflexivity.
Qed.

Lemma dirs_walked_nonneg dirs : (0 <= dirs_walked dirs)%Z.
Proof. induction dirs as [|d dirs IH]; simpl; lia. Qed.

Lemma items_walked_nonneg items : (0 <= items_walked env items)%Z.
Proof.
  induction items as [|it items IH]; simpl; [lia|].
  pose proof (dirs_walked_nonneg (os_walk env (path it))). lia.
Qed.

Lemma verify_dirs_ok source_path dest_path dirs :
  forall w R,
    (0 <= R)%Z ->
    session_ok cfg w ->
    to_verify cfg w (dirs_walked dirs + R) ->
    session_ok cfg (verify_ds env source_path dest_path dirs w)
    /\ to_verify cfg (verify_ds env source_path dest_path dirs w) R.
Proof.
  induction dirs as [|[rel files] rest IH]; intros w R HR Hok Htv.
  - split; [exact Hok|exact Htv].
  - rewrite verify_dirs_cons.
    pose proof (session_ok_poll cfg env w Hok) as Hok1.
    pose proof (poll_to_verify w _ Htv) as Htv1.
    destruct (poll env w) as [go w1]. cbn [snd] in Hok1, Htv1.
    pose proof (dirs_walked_nonneg rest) as Hr.
    simpl in Htv1. destruct go.
    + cbv zeta.
      destruct (verify_list_ok (OsPath.walk_root source_path rel)
                  (dest_dir dest_path rel) files w1
                  (dirs_walked rest + R)) as [Hok2 Htv2];
        [lia|exact Hok1| |].
      * unfold to_verify in *. intros Hm. specialize (Htv1 Hm). lia.
      * apply IH; assumption.
    + split; [exact Hok1|].
      unfold to_verify in *. intros Hm. specialize (Htv1 Hm). lia.
Qed.

Lemma verify_dirs_bound source_path dest_path dirs :
  forall w,
    (verified_files (cm (verify_ds env source_path dest_path dirs w))
     <= verified_files (cm w) + dirs_walked dirs)%Z.
Proof.
  induction dirs as [|[rel files] rest IH]; intros w; [simpl; lia|].
  rewrite verify_dirs_cons.
  destruct (poll_frame env w) as (Hs & _).
  apply same_but_flag_fields in Hs as (Hcv & _).
  assert (Hvf : verified_files (cm w) = verified_files (cm (snd (poll env w))))
    by (unfold copy_view in Hcv; congruence).
  destruct (poll env w) as [go w1]. cbn [snd] in Hvf.
  pose proof (dirs_walked_nonneg rest) as Hr. simpl.
  destruct go; [|lia].
  pose proof (verify_list_bound (OsPath.walk_root source_path rel)
                (dest_dir dest_path rel) files w1).
  pose proof (IH (verify_list env (OsPath.walk_root source_path rel)
                    (dest_dir dest_path rel) files w1)).
  lia.
Qed.

Lemma verify_dirs_log source_path dest_path dirs :
  forall w,
    log_grows (fun _ => True) w (verify_ds env source_path dest_path dirs w).
Proof.
  induction dirs as [|[rel files] rest IH]; intros w; [apply log_grows_refl|].
  rewrite verify_dirs_cons.
  destruct (poll_frame env w) as (_ & _ & Hl & _).
  destruct (poll env w) as [go w1]. cbn [snd] in Hl.
  assert (H1 : log_grows (fun _ => True) w w1)
    by (apply log_grows_same; exact Hl).
  destruct go; [|exact H1]. cbv zeta.
  eapply log_grows_trans; [exact H1|].
  eapply log_grows_trans; [|apply IH].
  destruct (verify_list_step (OsPath.walk_root source_path rel)
              (dest_dir dest_path rel) files w1) as (_ & _ & _ & Hl2 & _).
  eapply log_grows_weaken; [|exact Hl2]. auto.
Qed.

Lemma verify_dirs_missing source_path dest_path dirs rel files file :
  never_stopped env ->
  forall w,
    copying (cm w) = true ->
    In (rel, files) dirs -> In file files ->
    dst w !! Py.path_join (dest_dir dest_path rel) file = None ->
    In (LogNotFound file) (log (verify_ds env source_path dest_path dirs w))
    /\ (verified_files (cm (verify_ds env source_path dest_path dirs w)) + 1
        <= verified_files (cm w) + dirs_walked dirs)%Z.
Proof.
  intros Hn. induction dirs as [|[rel0 files0] rest IH];
    intros w Hc Hin Hfile Hnone; [destruct Hin|].
  rewrite verify_dirs_cons.
  destruct (poll_never_stopped env w Hn) as [Hgo Hcm].
  destruct (poll_frame env w) as (_ & Hd & _).
  destruct (poll env w) as [go w1]. cbn [fst snd] in Hgo, Hcm, Hd.
  rewrite Hgo, Hc. cbv zeta.
  set (root0 := OsPath.walk_root source_path rel0).
  set (cd0 := dest_dir dest_path rel0).
  pose proof (verify_list_step root0 cd0 files0 w1)
    as (_ & _ & _ & _ & Hd2 & Hc2).
  pose proof (verify_list_bound root0 cd0 files0 w1) as Hb.
  rewrite Hcm in Hb. simpl.
  destruct Hin as [Heq|Hin].
  - injection Heq as -> ->.
    destruct (verify_list_missing root0 cd0 files file Hn w1) as [Hlog Hle].
    + rewrite Hcm. exact Hc.
    + exact Hfile.
    + rewrite Hd. exact Hnone.
    + split.
      * eapply log_grows_keeps; [|exact Hlog]. apply verify_dirs_log.
      * rewrite Hcm in Hle.
        pose proof (verify_dirs_bound source_path dest_path rest
                      (verify_list env root0 cd0 files w1)). lia.
  - destruct (IH (verify_list env root0 cd0 files0 w1)) as [Hlog Hle].
    + rewrite (Hc2 Hn), Hcm. exact Hc.
    + exact Hin.
    + exact Hfile.
    + rewrite Hd2, Hd. exact Hnone.
    + split; [exact Hlog|lia].
Qed.

Lemma verify_items_cons final_dest it rest w :
  verify_its env final_dest (it :: rest) w
  = let '(go, w) := poll env w in
    if go then
      let dest_path := Py.path_join final_dest (folder_name_of it) in
      verify_its env final_dest rest
        (verify_ds env (path it) dest_path (os_walk env (path it)) w)
    else w.
Proof. reflexivity. Qed.

Lemma verify_items_step final_dest items :
  forall w,
    verify_step env (check_line items final_dest) w
      (verify_its env final_dest items w).
Proof.
  induction items as [|it rest IH]; intros w; [apply verify_step_refl|].
  rewrite verify_items_cons.
  pose proof (poll_verify_step (check_line (it :: rest) final_dest) w) as Hp.
  destruct (poll env w) as [go w1]. cbn [snd] in Hp.
  destruct go; [|exact Hp].
  eapply verify_step_trans; [exact Hp|]. cbv zeta.
  eapply verify_step_trans.
  - eapply verify_step_weaken; [|apply verify_dirs_step].
    intros l Hl. destruct l; try exact I. destruct Hl as (rel & Hs & Hd).
    exists it, rel. split; [left; reflexivity|split; [exact Hs|exact Hd]].
  - eapply verify_step_weaken; [|apply IH].
    intros l Hl. destruct l; try exact I.
    destruct Hl as (it' & rel & Hin & Hs). exists it', rel.
    split; [right; exact Hin|exact Hs].
Qed.

Lemma verify_items_ok final_dest items :
  forall w R,
    (0 <= R)%Z ->
    session_ok cfg w ->
    to_verify cfg w (items_walked env items + R) ->
    session_ok cfg (verify_its env final_dest items w)
    /\ to_verify cfg (verify_its env final_dest items w) R.
Proof.
  induction items as [|it rest IH]; intros w R HR Hok Htv.
  - split; [exact Hok|exact Htv].
  - rewrite verify_items_cons.
    pose proof (session_ok_poll cfg env w Hok) as Hok1.
    pose proof (poll_to_verify w _ Htv) as Htv1.
    destruct (poll env w) as [go w1]. cbn [snd] in Hok1, Htv1.
    pose proof (items_walked_nonneg rest) as Hr.
    simpl in Htv1. destruct go.
    + cbv zeta.
      destruct (verify_dirs_ok (path it)
                  (Py.path_join final_dest (folder_name_of it))
                  (os_walk env (path it)) w1
                  (items_walked env rest + R)) as [Hok2 Htv2];
        [lia|exact Hok1| |].
      * unfold to_verify in *. intros Hm. specialize (Htv1 Hm). lia.
      * apply IH; assumption.
    + split; [exact Hok1|].
      pose proof (dirs_walked_nonneg (os_walk env (path it))).
      unfold to_verify in *. intros Hm. specialize (Htv1 Hm). lia.
Qed.

Lemma verify_items_bound final_dest items :
  forall w,
    (verified_files (cm (verify_its env final_dest items w))
     <= verified_files (cm w) + items_walked env items)%Z.
Proof.
  induction items as [|it rest IH]; intros w; [simpl; lia|].
  rewrite verify_items_cons.
  destruct (poll_frame env w) as (Hs & _).
  apply same_but_flag_fields in Hs as (Hcv & _).
  assert (Hvf : verified_files (cm w) = verified_files (cm (snd (poll env w))))
    by (unfold copy_view in Hcv; congruence).
  destruct (poll env w) as [go w1]. cbn [snd] in Hvf.
  pose proof (items_walked_nonneg rest) as Hr.
  pose proof (dirs_walked_nonneg (os_walk env (path it))) as Hd. simpl.
  destruct go; [|lia].
  pose proof (verify_dirs_bound (path it)
                (Py.path_join final_dest (folder_name_of it))
                (os_walk env (path it)) w1).
  pose proof (IH (verify_ds env (path it)
                    (Py.path_join final_dest (folder_name_of it))
                    (os_walk env (path it)) w1)).
  lia.
Qed.

Lemma verify_items_missing final_dest items it rel files file :
  never_stopped env ->
  forall w,
    copying (cm w) = true ->
    In it items -> In (rel, files) (os_walk env (path it)) -> In file files ->
    dst w !! dest_file_of final_dest it rel file = None ->
    In (LogNotFound file) (log (verify_its env final_dest items w))
    /\ (verified_files (cm (verify_its env final_dest items w)) + 1
        <= verified_files (cm w) + items_walked env items)%Z.
Proof.
  intros Hn. induction items as [|it0 rest IH];
    intros w Hc Hin Hdir Hfile Hnone; [destruct Hin|].
  rewrite verify_items_cons.
  destruct (poll_never_stopped env w Hn) as [Hgo Hcm].
  destruct (poll_frame env w) as (_ & Hd & _).
  destruct (poll env w) as [go w1]. cbn [fst snd] in Hgo, Hcm, Hd.
  rewrite Hgo, Hc. cbv zeta.
  pose proof (verify_dirs_step final_dest it0 (os_walk env (path it0)) w1)
    as (_ & _ & _ & _ & Hd2 & Hc2).
  pose proof (verify_dirs_bound (path it0)
                (Py.path_join final_dest (folder_name_of it0)) (os_walk env (path it0)) w1) as Hb.
  rewrite Hcm in Hb. simpl.
  destruct Hin as [->|Hin].
  - destruct (verify_dirs_missing (path it)
                (Py.path_join final_dest (folder_name_of it)) (os_walk env (path it))
                rel files file Hn w1) as [Hlog Hle].
    + rewrite Hcm. exact Hc.
    + exact Hdir.
    + exact Hfile.
    + rewrite Hd. exact Hnone.
    + split.
      * eapply log_grows_keeps; [|exact Hlog].
        destruct (verify_items_step final_dest rest
                    (verify_ds env (path it)
                (Py.path_join final_dest (folder_name_of it)) (os_walk env (path it)) w1))
          as (_ & _ & _ & Hl & _). exact Hl.
      * rewrite Hcm in Hle.
        pose proof (verify_items_bound final_dest rest
                      (verify_ds env (path it)
                (Py.path_join final_dest (folder_name_of it)) (os_walk env (path it)) w1)).
        lia.
  - destruct (IH (verify_ds env (path it0)
                (Py.path_join final_dest (folder_name_of it0)) (os_walk env (path it0)) w1))
      as [Hlog Hle].
    + rewrite (Hc2 Hn), Hcm. exact Hc.
    + exact Hin.
    + exact Hdir.
    + exact Hfile.
    + rewrite Hd2, Hd. exact Hnone.
    + split; [exact Hlog|lia].
Qed.

Lemma fold_dirs_walked dirs :
  forall acc,
    fold_left (fun total (dir : string * list string) =>
                 (total + Z.of_nat (length (snd dir)))%Z) dirs acc
    = (acc + dirs_walked dirs)%Z.
Proof.
  induction dirs as [|d dirs IH]; intros acc; simpl; [lia|].
  rewrite IH. lia.
Qed.

Lemma count_walked_eq items : count_walked env items = items_walked env items.
Proof.
  unfold count_walked.
  assert (H : forall acc,
             fold_left (fun total it =>
               fold_left (fun total (dir : string * list string) =>
                            (total + Z.of_nat (length (snd dir)))%Z)
                 (os_walk env (path it)) total) items acc
             = (acc + items_walked env items)%Z).
  { induction items as [|it rest IH]; intros acc; simpl; [lia|].
    rewrite fold_dirs_walked, IH. lia. }
  rewrite H. lia.
Qed.

Local Abbreviation verify_all :=
  (verify_files md5_new md5_update md5_hexdigest).

Lemma verify_files_spec w :
  let w' := verify_all env cfg w in
  let final_dest := verify_final_dest cfg (cm w) in
  (verify_view (cm w') = verify_view (cm w)
   /\ dst w' = dst w
   /\ total_md5_files (cm w') = items_walked env (source_items cfg)
   /\ (verified_files (cm w) <= verified_files (cm w')
       <= verified_files (cm w) + items_walked env (source_items cfg))%Z)
  /\ log_grows (check_line (source_items cfg) final_dest) w w'
  /\ In (LogVerifySummary (total_md5_files (cm w')) (verified_files (cm w'))
           (total_md5_files (cm w') - verified_files (cm w'))%Z) (log w')
  /\ (session_ok cfg w ->
      to_verify cfg w (items_walked env (source_items cfg)) ->
      session_ok cfg w')
  /\ (never_stopped env -> copying (cm w') = copying (cm w))
  /\ (never_stopped env -> copying (cm w) = true ->
      forall it rel files file,
        In it (source_items cfg) -> In (rel, files) (os_walk env (path it)) ->
        In file files ->
        dst w !! dest_file_of final_dest it rel file = None ->
        In (LogNotFound file) (log w')
        /\ (verified_files (cm w') + 1
            <= verified_files (cm w) + items_walked env (source_items cfg))%Z).
Proof.
  intros w' final_dest. unfold w', verify_files, time. cbv zeta beta iota.
  set (total := count_walked env (source_items cfg)).
  set (wP := add_log (LogVerifyStart total) _).
  assert (HvvP : verify_view (cm wP) = verify_view (cm w)) by reflexivity.
  assert (HvfP : verified_files (cm wP) = verified_files (cm w)) by reflexivity.
  assert (HtmP : total_md5_files (cm wP) = total) by reflexivity.
  assert (HdP : dst wP = dst w) by reflexivity.
  assert (HcP : copying (cm wP) = copying (cm w)) by reflexivity.
  assert (HlP : log wP = LogVerifyStart total :: log w) by reflexivity.
  assert (HfdP : verify_final_dest cfg (cm wP) = final_dest) by reflexivity.
  assert (HokP : session_ok cfg w -> session_ok cfg wP).
  { intros Hok. eapply session_ok_same; [| |
      apply session_ok_assign_neutral;
      [apply session_ok_assign_neutral;
       [apply session_ok_assign_neutral;
        [apply session_ok_assign_neutral;
         [eapply (session_ok_same cfg w); [| |exact Hok]|..]|..]|..]|..]];
    reflexivity. }
  rewrite HfdP.
  pose proof (verify_items_step final_dest (source_items cfg) wP)
    as (Hvv & Htm & Hmono & Hlog & Hd & Hc).
  pose proof (verify_items_bound final_dest (source_items cfg) wP) as Hb.
  set (wV := verify_its env final_dest (source_items cfg) wP) in *.
  cbn [cm dst log add_log].
  split; [conjs|conjs].
  - congruence.
  - congruence.
  - rewrite Htm, HtmP. apply count_walked_eq.
  - lia.
  - lia.
  - eapply log_grows_trans; [|apply log_grows_add; exact I].
    eapply log_grows_trans; [|exact Hlog].
    exists [LogVerifyStart total]. split; [exact HlP|repeat constructor].
  - left. reflexivity.
  - intros Hok Htv.
    destruct (verify_items_ok final_dest (source_items cfg) wP 0%Z) as [Hok' _].
    + lia.
    + apply HokP, Hok.
    + unfold to_verify in *. rewrite HvfP. intros Hm. specialize (Htv Hm).
      assert (total_files (cm wP) = total_files (cm w))
        by (unfold verify_view in HvvP; congruence).
      lia.
    + eapply session_ok_same; [| |exact Hok']; reflexivity.
  - intros Hn. rewrite (Hc Hn). exact HcP.
  - intros Hn Hcw it rel files file Hit Hdir Hfile Hnone.
    destruct (verify_items_missing final_dest (source_items cfg) it rel files
                file Hn wP Hcw Hit Hdir Hfile Hnone) as [Hl Hle].
    split; [right; exact Hl|]. fold wV in Hle. lia.
Qed.

End VerifySteps.

(** ** Counting with and without the filter *)


Lemma files_passing_all cfg root files :
  only_media cfg = false ->
  files_passing cfg root files = Z.of_nat (length files).
Proof.
  intros Hm. induction files as [|f files IH]; simpl; [reflexivity|].
  unfold passes_filter at 1. rewrite Hm. simpl. lia.
Qed.



Lemma dirs_passing_all cfg top dirs :
  only_media cfg = false -> dirs_passing cfg top dirs = dirs_walked dirs.
Proof.
  intros Hm. induction dirs as [|d dirs IH]; simpl; [reflexivity|].
  rewrite IH, (files_passing_all _ _ _ Hm). reflexivity.
Qed.



Lemma items_passing_all env cfg items :
  only_media cfg = false -> items_passing env cfg items = items_walked env items.
Proof.
  intros Hm. induction items as [|it items IH]; simpl; [reflexivity|].
  rewrite IH, (dirs_passing_all _ _ _ Hm). reflexivity.
Qed.


(** ** Whole sessions *)

Section Sessions.

Context {md5_state : Type}.
Variable md5_new : md5_state.
Variable md5_update : md5_state -> list byte -> md5_state.
Variable md5_hexdigest : md5_state -> string.

Local Abbreviation run_verify :=
  (verify_files md5_new md5_update md5_hexdigest).
Local Abbreviation run_finish :=
  (finish_session md5_new md5_update md5_hexdigest).
Local Abbreviation run_session :=
  (copy_process md5_new md5_update md5_hexdigest).

Lemma copy_view_fields a b :
  copy_view a = copy_view b ->
  total_files a = total_files b /\ total_size a = total_size b
  /\ verified_files a = verified_files b /\ date_folder a = date_folder b
  /\ total_md5_files a = total_md5_files b.
Proof. unfold copy_view. intros H. injection H. intros. conjs; assumption. Qed.


Lemma finish_session_ok env cfg w :
  session_ok cfg w ->
  to_verify cfg w (items_walked env (source_items cfg)) ->
  session_ok cfg (snd (run_finish env cfg w)).
Proof.
  intros Hok Htv. unfold finish_session.
  pose proof (session_ok_poll cfg env w Hok) as Hok1.
  pose proof (poll_to_verify env cfg w _ Htv) as Htv1.
  destruct (poll env w) as [go w1]. cbn [snd] in Hok1, Htv1.
  set (w2 := if go && (0 <? copied_files (cm w1))%Z
             then run_verify env cfg w1 else w1).
  assert (Hok2 : session_ok cfg w2).
  { unfold w2. destruct (go && _); [|exact Hok1].
    apply (verify_files_spec md5_new md5_update md5_hexdigest env cfg w1);
      assumption. }
  pose proof (session_ok_poll cfg env w2 Hok2) as Hok3.
  destruct (poll env w2) as [go2 w3]. cbn [snd] in Hok3.
  destruct go2; cbn [snd];
    (eapply session_ok_same; [| |exact Hok3]; reflexivity).
Qed.

(** C2, as the code has it: from the reset at session start to the end
    of [copy_process] (the source trees unchanged meanwhile), every value
    the copy manager takes has [copied_size <= total_size], and
    [verified_files <= total_files] when the only-media filter is off;
    [total_files], [copied_files], [verified_files] and [total_size]
    never decrease; [copied_size] never decreases except by the
    assignment that ends a progress push and puts back the value the
    copy manager had before the push; the first value has all these
    counters at zero. *)
Theorem session_counters_invariant (env : Env) (cfg : Config) (w0 : World) :
  let h := history (snd (run_session env cfg w0)) in
  steps_ok h /\ Forall (state_ok cfg) h /\ starts_reset h.
Proof.
  intros h. change (session_ok cfg (snd (run_session env cfg w0))).
  unfold copy_process.
  destruct (copy_phase_spec env cfg w0)
    as (Hok & _ & Hvf & Hcount & _).
  destruct (copy_phase env cfg w0) as [[[]|e] w1]; cbn [fst snd] in *.
  - apply finish_session_ok; [exact Hok|].
    destruct (Hcount eq_refl) as [Htf _].
    unfold to_verify. intros Hm. rewrite Hvf, Htf.
    rewrite (items_passing_all env cfg _ Hm). lia.
  - eapply session_ok_same; [| |exact Hok]; reflexivity.
Qed.

(** C3: the folder name is computed once, when the copy starts, and
    stored; it is still the stored name when the copy phase ends, and the
    verify phase, run in any later surroundings (another clock, another
    date), resolves its root folder from the stored name and every
    destination path under that root, the item's folder name
    ([custom_name] when set) and the file's relative path, exactly as the
    copy phase built it. *)
Theorem destination_layout_stable (env later : Env) (cfg : Config) (w0 : World) :
  let w1 := snd (copy_phase env cfg w0) in
  let root := session_root env cfg in
  date_folder (cm w1) = stored_folder env cfg
  /\ verify_final_dest cfg (cm w1) = root
  /\ date_folder (cm (run_verify later cfg w1)) = stored_folder env cfg
  /\ (forall f s d,
        In (LogCopyFile f s d) (log w1) ->
        In (LogCopyFile f s d) (log w0)
        \/ exists it rel, In it (source_items cfg)
                          /\ s = source_file_of it rel f
                          /\ d = dest_file_of root it rel f)
  /\ (forall f s d present,
        In (LogCheckFile f s d present) (log (run_verify later cfg w1)) ->
        In (LogCheckFile f s d present) (log w1)
        \/ exists it rel, In it (source_items cfg)
                          /\ s = source_file_of it rel f
                          /\ d = dest_file_of root it rel f).
Proof.
  intros w1 root.
  destruct (copy_phase_spec env cfg w0) as (_ & Hdf & _ & _ & Hlog & _).
  fold w1 in Hdf, Hlog. fold root in Hlog.
  pose proof (verify_final_dest_stored env cfg _ Hdf) as Hfd. fold root in Hfd.
  destruct (verify_files_spec md5_new md5_update md5_hexdigest later cfg w1)
    as ((Hvv & _) & Hlogv & _).
  rewrite Hfd in Hlogv.
  conjs.
  - exact Hdf.
  - exact Hfd.
  - unfold verify_view in Hvv. rewrite <- Hdf. congruence.
  - intros f s d Hin. exact (log_grows_In _ _ _ _ Hlog Hin).
  - intros f s d present Hin. exact (log_grows_In _ _ _ _ Hlogv Hin).
Qed.


End Sessions.

(** C2, as the claim states it, fails: in the session of the demo card
    with the only-media filter on, started in a world an earlier session
    left, [copied_size] goes from the provisional 3 back to 0 when the
    push ends, [verified_files] ends at 2 above [total_files] = 1 (the
    text file, never counted, is already at its destination and matches),
    and [md5_verified_files] falls from 2 to 0 when the verify phase
    starts. *)
Lemma session_counters_not_monotone :
  let w := snd (copy_process demo_new demo_update demo_hexdigest demo_env
                  (demo_cfg true) demo_stale_world) in
  nondecreasing Qle_bool copied_size (history w) = false
  /\ forallb (fun c => (verified_files c <=? total_files c)%Z) (history w) = false
  /\ nondecreasing Z.leb md5_verified_files (history w) = false
  /\ verified_files (cm w) = 2%Z /\ total_files (cm w) = 1%Z.
Proof. vm_compute. repeat split. Qed.



(** The stored name in use: the folder is named at 03:04:05, the verify
    phase runs in surroundings ten seconds later and still checks the
    clip under the folder of 03:04:05. *)
Example layout_survives_clock_advance :
  let w1 := snd (copy_phase demo_env demo_dated_cfg demo_world) in
  date_folder (cm w1) = Some "20250102_030405_P"
  /\ now_date demo_later_env
     = {| year := 2025; month := 1; day := 2;
          hour := 3; minute := 4; second := 15 |}
  /\ In (LogCopyFile "a.mp4" "/card/a.mp4" "/dst/20250102_030405_P/card/a.mp4")
       (log w1)
  /\ In (LogCheckFile "a.mp4" "/card/a.mp4"
           "/dst/20250102_030405_P/card/a.mp4" true)
       (log (verify_files demo_new demo_update demo_hexdigest demo_later_env
               demo_dated_cfg w1)).
Proof. vm_compute. auto 20. Qed.




Lemma copy2_target_plain env source_file dest_file :
  is_dir env dest_file = false -> copy2_target env source_file dest_file = dest_file.
Proof. unfold copy2_target. intros ->. reflexivity. Qed.






Section SessionOutcome.

Context {md5_state : Type}.
Variable md5_new : md5_state.
Variable md5_update : md5_state -> list byte -> md5_state.
Variable md5_hexdigest : md5_state -> string.

Local Abbreviation session := (copy_process md5_new md5_update md5_hexdigest).
Local Abbreviation finish := (finish_session md5_new md5_update md5_hexdigest).
Local Abbreviation verify := (verify_files md5_new md5_update md5_hexdigest).

Lemma finish_session_dst env cfg w : dst (snd (finish env cfg w)) = dst w.
Proof.
  unfold finish_session.
  destruct (poll_frame env w) as (_ & Hd1 & _).
  destruct (poll env w) as [go w1]. cbn [snd] in Hd1.
  set (w2 := if go && (0 <? copied_files (cm w1))%Z then verify env cfg w1 else w1).
  assert (Hd2 : dst w2 = dst w1).
  { unfold w2. destruct (go && _); [|reflexivity].
    apply (verify_files_spec md5_new md5_update md5_hexdigest env cfg w1). }
  destruct (poll_frame env w2) as (_ & Hd3 & _).
  destruct (poll env w2) as [go2 w3]. cbn [snd] in Hd3.
  destruct go2; cbn [snd dst add_log]; congruence.
Qed.

(** A session writes nothing but the destination files of the walked
    files that pass the filter, and, where such a destination path is a
    folder, the file of the same name as the source inside it: every
    other path of the destination is after the session what it was
    before. *)
Theorem session_writes_only_its_files (env : Env) (cfg : Config) (w0 : World)
    (p : string) :
  ~ written env cfg (session_root env cfg) (source_items cfg) p ->
  ~ landed env cfg (session_root env cfg) (source_items cfg) p ->
  dst (snd (session env cfg w0)) !! p = dst w0 !! p.
Proof.
  intros Hp Hl. unfold copy_process.
  assert (Hr : ~ reached env cfg (session_root env cfg) (source_items cfg) p).
  { intros Hr. apply reached_cases in Hr as [Hr|Hr]; auto. }
  destruct (copy_phase_spec env cfg w0) as (_ & _ & _ & _ & _ & Hdst & _).
  specialize (Hdst p Hr).
  destruct (copy_phase env cfg w0) as [[[]|e] w1]; cbn [fst snd] in *.
  - rewrite finish_session_dst. exact Hdst.
  - exact Hdst.
Qed.




End SessionOutcome.

Lemma poll_stopped env w :
  stop_pressed env (polls w) = true ->
  fst (poll env w) = false /\ copying (cm (snd (poll env w))) = false
  /\ dst (snd (poll env w)) = dst w /\ log (snd (poll env w)) = log w
  /\ copy_view (cm (snd (poll env w))) = copy_view (cm w)
  /\ copied_files (cm (snd (poll env w))) = copied_files (cm w).
Proof. unfold poll. intros ->. cbn. auto 10. Qed.

Lemma poll_flag_down env w :
  copying (cm w) = false ->
  fst (poll env w) = false /\ copying (cm (snd (poll env w))) = false
  /\ dst (snd (poll env w)) = dst w /\ log (snd (poll env w)) = log w
  /\ copy_view (cm (snd (poll env w))) = copy_view (cm w)
  /\ copied_files (cm (snd (poll env w))) = copied_files (cm w).
Proof.
  unfold poll. intros H. destruct (stop_pressed env (polls w)); cbn; rewrite ?H; auto 10.
Qed.

Section StopAtStart.

Context {md5_state : Type}.
Variable md5_new : md5_state.
Variable md5_update : md5_state -> list byte -> md5_state.
Variable md5_hexdigest : md5_state -> string.

Local Abbreviation session := (copy_process md5_new md5_update md5_hexdigest).
Local Abbreviation finish := (finish_session md5_new md5_update md5_hexdigest).

Lemma finish_session_flag_down env cfg w :
  copying (cm w) = false ->
  finish env cfg w
  = (Stopped, add_log LogStopped (snd (poll env (snd (poll env w))))).
Proof.
  intros Hc. unfold finish_session.
  destruct (poll_flag_down env w Hc) as (Hgo & Hc1 & _).
  destruct (poll env w) as [go w1]. cbn [fst snd] in *. subst go. cbn [andb].
  destruct (poll_flag_down env w1 Hc1) as (Hgo2 & _).
  destruct (poll env w1) as [go2 w2]. cbn [fst snd] in *. subst go2. reflexivity.
Qed.

(** When the stop button is pressed before the worker first looks at the
    flag, the files are counted but none is copied: nothing is written to
    the destination, the session is reported as stopped (or ends on the
    error that the root folder could not be made), and no verification
    runs. *)
Theorem stop_before_first_file (env : Env) (cfg : Config) (w0 : World) :
  stop_pressed env (polls w0) = true ->
  let r := session env cfg w0 in
  let root := session_root env cfg in
  dst (snd r) = dst w0
  /\ copied_files (cm (snd r)) = 0%Z
  /\ verified_files (cm (snd r)) = 0%Z
  /\ (if makedirs_fault env root
      then fst r = Failed (OSError root)
           /\ log (snd r) = LogProcessError (OSError root) :: log w0
      else fst r = Stopped
           /\ total_files (cm (snd r)) = items_passing env cfg (source_items cfg)
           /\ log (snd r) = LogStopped :: LogMakeRoot root :: log w0).
Proof.
  intros Hstop r root. unfold r, copy_process, copy_phase.
  destruct (destination_root_spec env cfg w0) as (Hfd & _ & HcmA & HlogA & HdstA).
  assert (HpA : polls (snd (destination_root env cfg (begin_session w0))) = polls w0).
  { unfold destination_root. destruct (auto_folder cfg); [|reflexivity].
    cbn. reflexivity. }
  destruct (destination_root env cfg (begin_session w0)) as [final_dest wA].
  cbn [fst snd] in Hfd, HcmA, HlogA, HdstA, HpA. subst final_dest. fold root.
  destruct (makedirs_fault env root); cbn [fst snd process_error add_log dst cm log].
  - rewrite HcmA, HdstA, HlogA. auto.
  - set (wL := add_log (LogMakeRoot root) wA).
    destruct (count_items_rel_list env cfg (source_items cfg) wL)
      as (Hcount & HlogC & HdstC & HpC & _).
    fold (count_items env cfg wL) in Hcount, HlogC, HdstC, HpC.
    set (wC := count_items env cfg wL) in *.
    unfold time. cbv zeta beta iota.
    set (wD := assign _ _).
    assert (HpD : polls wD = polls w0) by (cbn; rewrite HpC; exact HpA).
    assert (HcmD : cm wD = set_copy_start_time (clock env (ticks wC)) (cm wC))
      by reflexivity.
    assert (HdD : dst wD = dst w0) by (cbn; rewrite HdstC; exact HdstA).
    assert (HlD : log wD = LogMakeRoot root :: log w0)
      by (cbn; rewrite HlogC; cbn; rewrite HlogA; reflexivity).
    unfold counted_as in Hcount. change (cm wL) with (cm wA) in Hcount.
    rewrite HcmA in Hcount.
    rewrite <- HpD in Hstop.
    destruct (source_items cfg) as [|it items] eqn:Hitems.
    + cbn [copy_items]. unfold finish_session.
      destruct (poll_stopped env wD Hstop) as (Hgo & Hc1 & Hd1 & Hl1 & Hv1 & Hf1).
      destruct (poll env wD) as [go w1]. cbn [fst snd] in *. subst go. cbn [andb].
      destruct (poll_flag_down env w1 Hc1) as (Hgo2 & _ & Hd2 & Hl2 & Hv2 & Hf2).
      destruct (poll env w1) as [go2 w2]. cbn [fst snd] in *. subst go2.
      cbn [fst snd dst cm log add_log].
      apply copy_view_fields in Hv1 as (A1 & _ & A3 & _).
      apply copy_view_fields in Hv2 as (B1 & _ & B3 & _).
      rewrite Hd2, Hd1, HdD, Hf2, Hf1, B3, A3, B1, A1, Hl2, Hl1, HlD, HcmD, Hcount.
      conjs; reflexivity.
    + rewrite copy_items_cons.
      destruct (poll_stopped env wD Hstop) as (Hgo & Hc1 & Hd1 & Hl1 & Hv1 & Hf1).
      destruct (poll env wD) as [go w1]. cbn [fst snd] in *. subst go.
      rewrite (finish_session_flag_down env cfg w1 Hc1).
      destruct (poll_flag_down env w1 Hc1) as (_ & Hc2 & Hd2 & Hl2 & Hv2 & Hf2).
      destruct (poll_flag_down env _ Hc2) as (_ & _ & Hd3 & Hl3 & Hv3 & Hf3).
      cbn [fst snd dst cm log add_log].
      apply copy_view_fields in Hv1 as (A1 & _ & A3 & _).
      apply copy_view_fields in Hv2 as (B1 & _ & B3 & _).
      apply copy_view_fields in Hv3 as (C1 & _ & C3 & _).
      rewrite Hd3, Hd2, Hd1, HdD, Hf3, Hf2, Hf1, C3, B3, A3, C1, B1, A1,
        Hl3, Hl2, Hl1, HlD, HcmD, Hcount.
      conjs; reflexivity.
Qed.

End StopAtStart.










Lemma clean_copy_same env pairs w w1 w2 :
  clean_copy env pairs w w1 -> cm w2 = cm w1 -> dst w2 = dst w1 ->
  clean_copy env pairs w w2.
Proof. unfold clean_copy. intros (A & B & C & D) -> ->. auto. Qed.








(** ** A directory that could not be made *)

Lemma head_to_slash_join a name :
  Py.char_in "/" name = false ->
  OsPath.head_to_slash (a ++ "/" ++ name) = a ++ "/".
Proof.
  intros Hn. induction a as [|c a IH].
  - change (EmptyString ++ "/" ++ name) with (String "/" name).
    cbn [OsPath.head_to_slash]. rewrite Hn. reflexivity.
  - change (String c a ++ "/" ++ name) with (String c (a ++ "/" ++ name)).
    cbn [OsPath.head_to_slash]. rewrite IH, char_in_app.
    change ("/" ++ name) with (String "/" name). cbn [Py.char_in].
    rewrite Ascii.eqb_refl, orb_true_r. reflexivity.
Qed.

Lemma rstrip_slash_app a : OsPath.rstrip_slash (a ++ "/") = OsPath.rstrip_slash a.
Proof.
  induction a as [|c a IH]; [reflexivity|].
  change (String c a ++ "/") with (String c (a ++ "/")).
  cbn [OsPath.rstrip_slash]. rewrite IH. reflexivity.
Qed.

Lemma rstrip_slash_plain a :
  Py.endswith_slash a = false -> OsPath.rstrip_slash a = a.
Proof.
  unfold Py.endswith_slash. induction a as [|c a IH]; [reflexivity|].
  cbn [String.length]. rewrite Nat.sub_succ, Nat.sub_0_r.
  destruct a as [|d a].
  - cbn. destruct (Ascii.eqb c "/"); [discriminate|reflexivity].
  - cbn [String.length] in *. rewrite Nat.sub_succ, Nat.sub_0_r in IH.
    cbn [String.get]. intros H. specialize (IH H).
    cbn [OsPath.rstrip_slash] in *. rewrite IH. reflexivity.
Qed.

(** The directory of a file that [os.walk] names is the directory it was
    joined to. *)
Lemma dirname_path_join a name :
  Py.truthy a = true -> Py.endswith_slash a = false ->
  Py.char_in "/" name = false ->
  OsPath.dirname (Py.path_join a name) = a.
Proof.
  intros Ha He Hn. unfold Py.path_join.
  assert (Hp : String.prefix "/" name = false).
  { destruct name as [|c name]; [reflexivity|]. cbn [Py.char_in] in Hn.
    apply orb_false_iff in Hn as [Hc _].
    rewrite prefix_cons, prefix_empty, andb_true_r. exact Hc. }
  rewrite Hp, Ha, He. cbn [negb orb].
  unfold OsPath.dirname. rewrite head_to_slash_join by exact Hn.
  rewrite rstrip_slash_app, rstrip_slash_plain by exact He.
  destruct a; [discriminate|reflexivity].
Qed.

(** A file of a directory that could not be made is not copied.  When
    [os.makedirs] failed for the directory [current_dest] (line 1612 logs
    it and the loop goes on to its files), the destination of each of its
    files cannot be created: the chunked copy and [shutil.copy2] both
    raise, a file that passes the filter is reported as failed, the copy
    manager stays as it is and nothing is written.  The directory and the
    file are named as [os.walk] and [os.path.join] give them (a directory
    path that is not empty and does not end with a separator, a file name
    without separator), and the destination path of the file is not a
    folder, as nothing can have made one in a directory that does not
    exist. *)
Theorem unmade_directory_takes_no_file (env : Env) (cfg : Config)
    (root current_dest file : string) (w : World) :
  let source_file := Py.path_join root file in
  let dest_file := Py.path_join current_dest file in
  let w' := copy_one_file env cfg root current_dest file w in
  Py.truthy current_dest = true ->
  Py.endswith_slash current_dest = false ->
  Py.char_in "/" file = false ->
  makedirs_fault env current_dest = true ->
  is_dir env dest_file = false ->
  cannot_create env dest_file = true
  /\ dst w' = dst w
  /\ cm w' = cm w
  /\ (passes_filter cfg source_file = true ->
      log w'
      = match OsPath.getsize (src env) source_file with
        | Some _ =>
            LogCopyFailed file :: LogFallback source_file
            :: LogCopyFile file source_file dest_file :: log w
        | None => LogCopyFailed file :: log w
        end).
Proof.
  intros source_file dest_file w' Ha He Hn Hmk Hnd.
  assert (Hcc : cannot_create env dest_file = true).
  { unfold cannot_create, dest_file.
    rewrite (dirname_path_join _ _ Ha He Hn), Ha, Hmk.
    cbn [andb]. rewrite orb_true_r. reflexivity. }
  assert (Hrun : forall file_size w0,
            exists e w1,
              copy_file_with_progress env source_file dest_file file_size w0
              = (Raise e, w1)
              /\ dst w1 = dst w0 /\ cm w1 = cm w0
              /\ log w1 = LogFallback source_file :: log w0).
  { intros file_size w0. unfold copy_file_with_progress, chunked_copy, copy2.
    rewrite (copy2_target_plain env source_file dest_file Hnd).
    cbn [time]. rewrite Hcc.
    destruct (src env !! source_file); [destruct (copy2_fault env source_file)|];
      eexists _, _; (split; [reflexivity|]); cbn; auto. }
  split; [exact Hcc|].
  unfold w', copy_one_file. fold source_file dest_file.
  unfold passes_filter.
  destruct (only_media cfg && negb (is_media_file cfg source_file)).
  { conjs; try reflexivity. discriminate. }
  destruct (OsPath.getsize (src env) source_file) as [file_size|].
  - destruct (Hrun file_size (add_log (LogCopyFile file source_file dest_file) w))
      as (e & w1 & -> & Hd & Hc & Hl).
    cbn [add_log dst cm log] in *. conjs; auto. intros _. rewrite Hl. reflexivity.
  - cbn. conjs; auto.
Qed.

(** A session on a card whose sub-folder cannot be made at the
    destination: the file of the card's top is copied and verified, the
    clip of the sub-folder fails and is not counted, and the session
    completes with one file verified of the two it looks for. *)
Example copy_into_an_unmade_directory :
  let r := copy_process demo_new demo_update demo_hexdigest demo_unmade_env
             (demo_cfg false) demo_world in
  fst r = Completed
  /\ dst (snd r) = {[ "/dst/P/card/notes.txt" := [x05]%byte ]}
  /\ total_files (cm (snd r)) = 2%Z
  /\ copied_files (cm (snd r)) = 1%Z
  /\ total_md5_files (cm (snd r)) = 2%Z
  /\ verified_files (cm (snd r)) = 1%Z
  /\ In (LogMkdirFailed "/dst/P/card/sub") (log (snd r))
  /\ In (LogCopyFailed "a.mp4") (log (snd r)).
Proof. vm_compute. conjs; auto 20. Qed.
Section VerifyClean.

Context {md5_state : Type}.
Variable md5_new : md5_state.
Variable md5_update : md5_state -> list byte -> md5_state.
Variable md5_hexdigest : md5_state -> string.
Variable env : Env.
Variable cfg : Config.
Hypothesis Hn : never_stopped env.

Local Abbreviation verify_one :=
  (verify_one_file md5_new md5_update md5_hexdigest).
Local Abbreviation verify_list :=
  (verify_file_list md5_new md5_update md5_hexdigest).
Local Abbreviation verify_ds := (verify_dirs md5_new md5_update md5_hexdigest).
Local Abbreviation verify_its := (verify_items md5_new md5_update md5_hexdigest).









End VerifyClean.

Lemma dirs_walked_pairs source_path target_path dirs :
  dirs_walked dirs = Z.of_nat (length (dirs_pairs source_path target_path dirs)).
Proof.
  induction dirs as [|[rel files] dirs IH]; [reflexivity|].
  change (dirs_pairs source_path target_path ((rel, files) :: dirs))
    with (files_pairs (OsPath.walk_root source_path rel)
            (dest_dir target_path rel) files
          ++ dirs_pairs source_path target_path dirs)%list.
  rewrite length_app. unfold files_pairs at 1. rewrite length_map.
  cbn [dirs_walked fold_right snd]. fold (dirs_walked dirs). lia.
Qed.

Lemma items_walked_pairs env final_dest items :
  items_walked env items = Z.of_nat (length (session_pairs env final_dest items)).
Proof.
  induction items as [|it items IH]; [reflexivity|].
  change (session_pairs env final_dest (it :: items))
    with (item_pairs env final_dest it ++ session_pairs env final_dest items)%list.
  rewrite length_app. cbn [items_walked fold_right]. fold (items_walked env items).
  unfold item_pairs.
  rewrite (dirs_walked_pairs (path it) (Py.path_join final_dest (folder_name_of it))).
  lia.
Qed.

Section CleanSession.

Context {md5_state : Type}.
Variable md5_new : md5_state.
Variable md5_update : md5_state -> list byte -> md5_state.
Variable md5_hexdigest : md5_state -> string.

Local Abbreviation session := (copy_process md5_new md5_update md5_hexdigest).


End CleanSession.

Section DigestFacts.

Context {md5_state : Type}.
Variable md5_new : md5_state.
Variable md5_update : md5_state -> list byte -> md5_state.
Variable md5_hexdigest : md5_state -> string.

(** What the documentation of [hashlib] promises of [update]: feeding
    the data in pieces is feeding their concatenation. *)
Hypothesis update_app :
  forall st a b, md5_update (md5_update st a) b = md5_update st (a ++ b)%list.
Hypothesis update_nil : forall st, md5_update st [] = st.

Lemma fold_update_concat chunks st :
  fold_left md5_update chunks st = md5_update st (concat chunks).
Proof.
  revert st. induction chunks as [|c chunks IH]; intros st; cbn [fold_left concat].
  - symmetry. apply update_nil.
  - rewrite IH. apply update_app.
Qed.

Lemma read_chunks_concat size (data : list byte) :
  size <> 0%Z -> concat (read_chunks size data) = data.
Proof.
  intros Hs. destruct (Z.lt_trichotomy size 0) as [Hneg|[H0|Hpos]]; [|lia|].
  - unfold read_chunks. destruct data as [|b data]; [reflexivity|].
    cbn [length read_chunks_fuel]. unfold file_read.
    apply Z.ltb_lt in Hneg. rewrite Hneg.
    destruct (length data); cbn [read_chunks_fuel concat]; unfold file_read;
      rewrite ?Hneg; cbn [concat]; apply app_nil_r.
  - apply read_chunks_fuel_concat; [exact Hpos|lia].
Qed.

(** The digest [calculate_md5] returns does not depend on the chunk
    size: for every chunk size but 0 it is the digest of the whole
    content of the file.  With chunk size 0 the first read returns
    nothing and the digest is that of the empty input, whatever the file
    holds. *)
Theorem calculate_md5_chunk_size_irrelevant (fs : FS) (file_path : string)
    (data : list byte) :
  fs !! file_path = Some data ->
  (forall chunk_size, chunk_size <> 0%Z ->
     calculate_md5_with md5_new md5_update md5_hexdigest chunk_size fs file_path
     = Ok (md5_hexdigest (md5_update md5_new data)))
  /\ calculate_md5 md5_new md5_update md5_hexdigest fs file_path
     = Ok (md5_hexdigest (md5_update md5_new data))
  /\ calculate_md5_with md5_new md5_update md5_hexdigest 0 fs file_path
     = Ok (md5_hexdigest md5_new).
Proof.
  intros Hf. unfold calculate_md5, calculate_md5_with. rewrite Hf. conjs.
  - intros cs Hcs. rewrite fold_update_concat, read_chunks_concat by exact Hcs.
    reflexivity.
  - rewrite fold_update_concat, read_chunks_concat by lia. reflexivity.
  - unfold read_chunks. destruct data; reflexivity.
Qed.

End DigestFacts.

(** ** Dictionaries *)

Lemma dict_get_set {V : Type} k k' (v : V) d :
  Dict.get k' (Dict.set k v d)
  = if String.eqb k' k then Some v else Dict.get k' d.
Proof.
  induction d as [|[k0 v0] d IH]; cbn [Dict.set Dict.get].
  - reflexivity.
  - destruct (String.eqb k k0) eqn:E; cbn [Dict.get].
    + apply String.eqb_eq in E as ->. destruct (String.eqb k' k0); reflexivity.
    + rewrite IH. destruct (String.eqb k' k0) eqn:E0; [|reflexivity].
      apply String.eqb_eq in E0 as ->. rewrite String.eqb_sym, E. reflexivity.
Qed.

Lemma dict_set_new {V : Type} k (v : V) d :
  Dict.get k d = None -> Dict.set k v d = (d ++ [(k, v)])%list.
Proof.
  induction d as [|[k0 v0] d IH]; cbn [Dict.set Dict.get app]; [reflexivity|].
  destruct (String.eqb k k0); [discriminate|]. intros H. rewrite (IH H). reflexivity.
Qed.

Lemma dict_set_keys {V : Type} k (v : V) d :
  Dict.keys (Dict.set k v d)
  = match Dict.get k d with
    | Some _ => Dict.keys d
    | None => (Dict.keys d ++ [k])%list
    end.
Proof.
  unfold Dict.keys.
  induction d as [|[k0 v0] d IH]; cbn [Dict.set Dict.get map app fst]; [reflexivity|].
  destruct (String.eqb k k0) eqn:E; cbn [map fst].
  - apply String.eqb_eq in E as ->. reflexivity.
  - rewrite IH. destruct (Dict.get k d); reflexivity.
Qed.

Lemma dict_get_none {V : Type} k (d : list (string * V)) :
  Dict.get k d = None <-> ~ In k (Dict.keys d).
Proof.
  unfold Dict.keys.
  induction d as [|[k0 v0] d IH]; cbn [Dict.get map fst In]; [tauto|].
  destruct (String.eqb k k0) eqn:E.
  - apply String.eqb_eq in E as ->. split; [discriminate|tauto].
  - apply String.eqb_neq in E. rewrite IH. split; [intros H [Hk|Hk]; auto|tauto].
Qed.



Lemma dict_set_nodup {V : Type} k (v : V) d :
  NoDup (Dict.keys d) -> NoDup (Dict.keys (Dict.set k v d)).
Proof.
  intros Hnd. rewrite dict_set_keys. destruct (Dict.get k d) eqn:E; [exact Hnd|].
  apply dict_get_none in E. apply NoDup_app. split; [exact Hnd|]. split.
  - intros x Hx Hk. apply list_elem_of_In in Hx, Hk.
    destruct Hk as [<-|[]]. auto.
  - apply NoDup_singleton.
Qed.

Lemma dict_set_in {V : Type} k (v : V) d k' v' :
  In (k', v') (Dict.set k v d) -> (k' = k /\ v' = v) \/ In (k', v') d.
Proof.
  induction d as [|[k0 v0] d IH]; cbn [Dict.set In].
  - intros [H|[]]. injection H as <- <-. auto.
  - destruct (String.eqb k k0); cbn [In].
    + intros [H|H]; [injection H as <- <-|]; auto.
    + intros [H|H]; [auto|]. destruct (IH H); auto.
Qed.

(** A walk that folds [step] over the files of every directory keeps an
    invariant that every step keeps. *)
Lemma walk_fold_ind {A : Type} (P : A -> Prop)
    (step : string -> A -> string -> A) (dirs : list (string * list string)) :
  (forall rel files file acc,
     In (rel, files) dirs -> In file files -> P acc -> P (step rel acc file)) ->
  forall init, P init ->
  P (fold_left (fun acc d => fold_left (step (fst d)) (snd d) acc) dirs init).
Proof.
  induction dirs as [|[rel files] dirs IH]; intros Hstep init Hinit; [exact Hinit|].
  cbn [fold_left fst snd]. apply IH.
  - intros rel' files' file acc Hd. apply Hstep. right. exact Hd.
  - assert (Hfiles : forall fs', (forall f, In f fs' -> In f files) ->
                       forall acc, P acc -> P (fold_left (step rel) fs' acc)).
    { induction fs' as [|f fs' IHf]; intros Hsub acc Hacc; [exact Hacc|].
      cbn [fold_left]. apply IHf; [intros g Hg; apply Hsub; right; exact Hg|].
      apply (Hstep rel files); [left; reflexivity|apply Hsub; left; reflexivity|exact Hacc]. }
    apply Hfiles; auto.
Qed.

(** ** Text files *)

Section TextFacts.

Import PyProps TextProps.

Lemma universal_newlines_plain s :
  all_chars (fun c => negb (line_break c)) s = true ->
  Text.universal_newlines s = s.
Proof.
  induction s as [|c s IH]; [reflexivity|].
  cbn [all_chars Text.universal_newlines]. intros H.
  apply andb_true_iff in H as [Hc Hs].
  unfold line_break in Hc. apply negb_true_iff, orb_false_iff in Hc as [_ Hcr].
  rewrite Hcr, (IH Hs). reflexivity.
Qed.

Lemma universal_newlines_line body rest :
  all_chars (fun c => negb (line_break c)) body = true ->
  Text.universal_newlines (body ++ String Text.LF rest)
  = body ++ String Text.LF (Text.universal_newlines rest).
Proof.
  induction body as [|c body IH]; intros H.
  - reflexivity.
  - cbn [all_chars] in H. apply andb_true_iff in H as [Hc Hs].
    unfold line_break in Hc. apply negb_true_iff, orb_false_iff in Hc as [_ Hcr].
    change (String c body ++ String Text.LF rest)
      with (String c (body ++ String Text.LF rest)).
    cbn [Text.universal_newlines]. rewrite Hcr, (IH Hs). reflexivity.
Qed.

Lemma keepends_line body rest :
  all_chars (fun c => negb (line_break c)) body = true ->
  Text.keepends (body ++ String Text.LF rest)
  = (body ++ String Text.LF EmptyString) :: Text.keepends rest.
Proof.
  induction body as [|c body IH]; intros H.
  - reflexivity.
  - cbn [all_chars] in H. apply andb_true_iff in H as [Hc Hs].
    unfold line_break in Hc. apply negb_true_iff, orb_false_iff in Hc as [Hlf _].
    change (String c body ++ String Text.LF rest)
      with (String c (body ++ String Text.LF rest)).
    cbn [Text.keepends]. rewrite Hlf, (IH Hs). reflexivity.
Qed.

Lemma all_chars_app p a b :
  all_chars p (a ++ b) = all_chars p a && all_chars p b.
Proof.
  induction a as [|c a IH]; [reflexivity|].
  change (String c a ++ b) with (String c (a ++ b)). cbn [all_chars].
  rewrite IH. apply andb_assoc.
Qed.

Lemma is_hex_plain c :
  is_hex c = true ->
  Py.isspace c = false /\ line_break c = false /\ Ascii.eqb c "#" = false
  /\ Ascii.eqb " " c = false.
Proof.
  destruct c as [[] [] [] [] [] [] [] []]; vm_compute; intros H;
    repeat split; congruence.
Qed.

Lemma hex_text_no_break d :
  all_chars is_hex d = true -> all_chars (fun c => negb (line_break c)) d = true.
Proof.
  induction d as [|c d IH]; [reflexivity|]. cbn [all_chars]. intros H.
  apply andb_true_iff in H as [Hc Hd].
  destruct (is_hex_plain c Hc) as (_ & -> & _). rewrite (IH Hd). reflexivity.
Qed.

Lemma hex_text_no_spaces d :
  all_chars is_hex d = true -> occurs "  " (d ++ " ") = false.
Proof.
  induction d as [|c d IH]; [reflexivity|]. cbn [all_chars]. intros H.
  apply andb_true_iff in H as [Hc Hd].
  change (String c d ++ " ") with (String c (d ++ " ")).
  rewrite occurs_cons, (IH Hd), orb_false_r, prefix_cons.
  destruct (is_hex_plain c Hc) as (_ & _ & _ & ->). reflexivity.
Qed.

Lemma rstrip_app_kept a b :
  Py.truthy (Py.rstrip b) = true -> Py.rstrip (a ++ b) = a ++ Py.rstrip b.
Proof.
  intros Hb. induction a as [|c a IH]; [reflexivity|].
  change (String c a ++ b) with (String c (a ++ b)).
  change (String c a ++ Py.rstrip b) with (String c (a ++ Py.rstrip b)).
  cbn [Py.rstrip].
  rewrite IH. destruct (a ++ Py.rstrip b) eqn:E; [|reflexivity].
  destruct a; [|discriminate]. change (EmptyString ++ Py.rstrip b) with (Py.rstrip b) in E.
  rewrite E in Hb. discriminate.
Qed.

Lemma rstrip_newline s :
  Py.rstrip (s ++ String Text.LF EmptyString) = Py.rstrip s.
Proof.
  induction s as [|c s IH]; [reflexivity|].
  change (String c s ++ String Text.LF EmptyString) with (String c (s ++ String Text.LF EmptyString)).
  cbn [Py.rstrip]. rewrite IH. reflexivity.
Qed.

Lemma strip_checksum_line d p :
  hex_text d = true -> fits_line p = true ->
  Py.strip (checksum_line d p) = d ++ "  " ++ p.
Proof.
  unfold hex_text, fits_line, checksum_line, Py.strip. intros Hd Hp.
  apply andb_true_iff in Hd as [Hne Hd].
  apply andb_true_iff in Hp as [Hp Hr]. apply andb_true_iff in Hp as [Hpne _].
  apply String.eqb_eq in Hr.
  destruct d as [|c d]; [discriminate|]. cbn [all_chars] in Hd.
  apply andb_true_iff in Hd as [Hc Hd].
  destruct (is_hex_plain c Hc) as (Hsp & _).
  change (String c d ++ "  " ++ p ++ String (ascii_of_N 10) EmptyString)
    with (String c (d ++ "  " ++ p ++ String (ascii_of_N 10) EmptyString)).
  cbn [Py.lstrip]. rewrite Hsp.
  change (String c (d ++ "  " ++ p ++ String (ascii_of_N 10) EmptyString))
    with (String c d ++ "  " ++ p ++ String Text.LF EmptyString).
  rewrite <- (append_assoc3 (String c d) "  ").
  rewrite rstrip_app_kept; rewrite rstrip_newline, Hr.
  - apply append_assoc3.
  - exact Hpne.
Qed.

Lemma load_checksum_line m d p :
  hex_text d = true -> fits_line p = true ->
  load_line m (checksum_line d p) = <[p := d]> m.
Proof.
  intros Hd Hp. unfold load_line. rewrite (strip_checksum_line d p Hd Hp).
  unfold hex_text in Hd. apply andb_true_iff in Hd as [Hne Hd].
  rewrite (split_once_two_spaces d p (hex_text_no_spaces d Hd)).
  destruct d as [|c d]; [discriminate|]. cbn [all_chars] in Hd.
  apply andb_true_iff in Hd as [Hc _].
  destruct (is_hex_plain c Hc) as (_ & _ & Hh & _).
  change (String c d ++ "  " ++ p) with (String c (d ++ "  " ++ p)).
  unfold Py.startswith. rewrite prefix_cons, Ascii.eqb_sym, Hh. reflexivity.
Qed.

Lemma file_lines_checksum_text checksums :
  Forall (fun e => hex_text (snd e) = true /\ fits_line (fst e) = true) checksums ->
  Text.file_lines (Verifier.checksum_text checksums)
  = map (fun e => checksum_line (snd e) (fst e)) checksums.
Proof.
  unfold Text.file_lines. induction checksums as [|[p d] cs IH]; intros H.
  - reflexivity.
  - apply Forall_cons in H as [[Hd Hp] H]. cbn [fst snd] in Hd, Hp.
    cbn [Verifier.checksum_text fold_right map fst snd].
    fold (Verifier.checksum_text cs).
    assert (Hbody : all_chars (fun c => negb (line_break c)) (d ++ "  " ++ p) = true).
    { unfold hex_text in Hd. apply andb_true_iff in Hd as [_ Hd].
      unfold fits_line in Hp. apply andb_true_iff in Hp as [Hp _].
      apply andb_true_iff in Hp as [_ Hp].
      rewrite !all_chars_app, (hex_text_no_break d Hd), Hp. reflexivity. }
    unfold checksum_line.
    replace ((d ++ "  " ++ p ++ String (ascii_of_N 10) EmptyString) ++ Verifier.checksum_text cs)
      with ((d ++ "  " ++ p) ++ String Text.LF (Verifier.checksum_text cs)).
    2:{ rewrite !append_assoc3. reflexivity. }
    rewrite (universal_newlines_line _ _ Hbody), (keepends_line _ _ Hbody), (IH H).
    rewrite append_assoc3. reflexivity.
Qed.

End TextFacts.

Section ChecksumFiles.

Import PyProps TextProps.

Context {md5_state : Type}.
Variable md5_new : md5_state.
Variable md5_update : md5_state -> list byte -> md5_state.
Variable md5_hexdigest : md5_state -> string.

Local Abbreviation md5_of := (calculate_md5 md5_new md5_update md5_hexdigest).
Local Abbreviation collect :=
  (Verifier.collect_checksums md5_new md5_update md5_hexdigest).
Local Abbreviation create :=
  (Verifier.create_checksum_file md5_new md5_update md5_hexdigest).

Lemma load_lines_checksums checksums :
  forall m,
    NoDup (Dict.keys checksums) ->
    Forall (fun e => hex_text (snd e) = true /\ fits_line (fst e) = true) checksums ->
    forall rel,
      fold_left load_line (map (fun e => checksum_line (snd e) (fst e)) checksums) m
        !! rel
      = match Dict.get rel checksums with
        | Some d => Some d
        | None => m !! rel
        end.
Proof.
  induction checksums as [|[p d] cs IH]; intros m Hnd Hok rel; [reflexivity|].
  apply Forall_cons in Hok as [[Hd Hp] Hok]. cbn [fst snd] in Hd, Hp.
  unfold Dict.keys in Hnd. cbn [map fst] in Hnd.
  apply NoDup_cons in Hnd as [Hni Hnd].
  cbn [map fold_left fst snd Dict.get].
  rewrite (load_checksum_line m d p Hd Hp), (IH _ Hnd Hok).
  destruct (String.eqb rel p) eqn:E.
  - apply String.eqb_eq in E as ->.
    replace (Dict.get p cs) with (@None string).
    + apply lookup_insert_eq.
    + symmetry. apply dict_get_none. intros Hin. apply Hni.
      apply list_elem_of_In. exact Hin.
  - apply String.eqb_neq in E. destruct (Dict.get rel cs); [reflexivity|].
    apply lookup_insert_ne. congruence.
Qed.

Lemma checksum_entry_keeps fs folder_path rel acc file k :
  is_Some (Dict.get k acc) ->
  is_Some (Dict.get k (Verifier.checksum_entry md5_new md5_update md5_hexdigest
                         fs folder_path rel acc file)).
Proof.
  intros Hs. unfold Verifier.checksum_entry.
  destruct (String.eqb file "checksums.md5"); [exact Hs|].
  destruct (md5_of fs (Py.path_join (OsPath.walk_root folder_path rel) file));
    [|exact Hs].
  rewrite dict_get_set. destruct (String.eqb _ _); [eauto|exact Hs].
Qed.

Lemma checksum_files_keep fs folder_path rel files k :
  forall acc,
    is_Some (Dict.get k acc) ->
    is_Some (Dict.get k
      (fold_left (Verifier.checksum_entry md5_new md5_update md5_hexdigest
                    fs folder_path rel) files acc)).
Proof.
  induction files as [|f files IH]; intros acc Hs; [exact Hs|].
  cbn [fold_left]. apply IH, checksum_entry_keeps, Hs.
Qed.

Lemma checksum_dirs_keep fs folder_path dirs k :
  forall acc,
    is_Some (Dict.get k acc) ->
    is_Some (Dict.get k
      (fold_left (fun cs d =>
         fold_left (Verifier.checksum_entry md5_new md5_update md5_hexdigest
                      fs folder_path (fst d)) (snd d) cs) dirs acc)).
Proof.
  induction dirs as [|d dirs IH]; intros acc Hs; [exact Hs|].
  cbn [fold_left]. apply IH, checksum_files_keep, Hs.
Qed.

Lemma checksum_files_list fs folder_path rel files file md5_hash :
  In file files -> file <> "checksums.md5" ->
  md5_of fs (Py.path_join (OsPath.walk_root folder_path rel) file) = Ok md5_hash ->
  forall acc,
    is_Some (Dict.get (Verifier.rel_file rel file)
      (fold_left (Verifier.checksum_entry md5_new md5_update md5_hexdigest
                    fs folder_path rel) files acc)).
Proof.
  intros Hf Hne Hmd5. induction files as [|f files IH]; intros acc; [destruct Hf|].
  cbn [fold_left]. destruct Hf as [->|Hf]; [|apply IH, Hf].
  apply checksum_files_keep. unfold Verifier.checksum_entry.
  apply String.eqb_neq in Hne. rewrite Hne, Hmd5, dict_get_set, String.eqb_refl.
  eauto.
Qed.

Lemma collected_checksums_spec (fs : FS) (folder_path : string)
    (dirs : list (string * list string)) :
  let checksums := collect fs folder_path dirs in
  NoDup (Dict.keys checksums)
  /\ (forall rel_path md5_hash,
        In (rel_path, md5_hash) checksums ->
        exists rel files file,
          In (rel, files) dirs /\ In file files /\ file <> "checksums.md5"
          /\ rel_path = Verifier.rel_file rel file
          /\ md5_of fs (Py.path_join (OsPath.walk_root folder_path rel) file)
             = Ok md5_hash)
  /\ (forall rel files file md5_hash,
        In (rel, files) dirs -> In file files -> file <> "checksums.md5" ->
        md5_of fs (Py.path_join (OsPath.walk_root folder_path rel) file)
        = Ok md5_hash ->
        is_Some (Dict.get (Verifier.rel_file rel file) checksums)).
Proof.
  intros checksums. unfold checksums, Verifier.collect_checksums.
  split; [|split].
  - apply (walk_fold_ind (fun cs => NoDup (Dict.keys cs))).
    + intros rel files file acc _ _ Hacc. unfold Verifier.checksum_entry.
      destruct (String.eqb file "checksums.md5"); [exact Hacc|].
      destruct (md5_of fs _); [apply dict_set_nodup|]; exact Hacc.
    + apply NoDup_nil_2.
  - apply (walk_fold_ind (fun cs => forall rel_path md5_hash,
             In (rel_path, md5_hash) cs ->
             exists rel files file,
               In (rel, files) dirs /\ In file files /\ file <> "checksums.md5"
               /\ rel_path = Verifier.rel_file rel file
               /\ md5_of fs (Py.path_join (OsPath.walk_root folder_path rel) file)
                  = Ok md5_hash)).
    + intros rel files file acc Hd Hf Hacc rel_path md5_hash.
      unfold Verifier.checksum_entry.
      destruct (String.eqb file "checksums.md5") eqn:E; [apply Hacc|].
      apply String.eqb_neq in E.
      destruct (md5_of fs _) as [h|e] eqn:Eh; [|apply Hacc].
      intros Hin. apply dict_set_in in Hin as [[-> ->]|Hin]; [|apply Hacc, Hin].
      exists rel, files, file. auto.
    + intros ? ? [].
  - intros rel files file md5_hash Hd Hf Hne Hmd5.
    generalize (@nil (string * string)).
    induction dirs as [|[rel0 files0] dirs0 IH]; intros init; [destruct Hd|].
    cbn [fold_left fst snd]. destruct Hd as [Heq|Hd].
    + injection Heq as -> ->.
      apply checksum_dirs_keep, (checksum_files_list _ _ _ _ _ md5_hash); assumption.
    + apply IH. exact Hd.
Qed.

(** What [create_checksum_file] collects: the keys are distinct, and
    every entry is the relative path of a walked file that is not named
    [checksums.md5], with the digest [calculate_md5] returns for it; a
    walked file whose digest can be computed has an entry. *)
Theorem collected_checksums_are_digests (fs : FS) (folder_path : string)
    (dirs : list (string * list string)) :
  let checksums := collect fs folder_path dirs in
  NoDup (Dict.keys checksums)
  /\ (forall rel_path md5_hash,
        In (rel_path, md5_hash) checksums ->
        exists rel files file,
          In (rel, files) dirs /\ In file files /\ file <> "checksums.md5"
          /\ rel_path = Verifier.rel_file rel file
          /\ md5_of fs (Py.path_join (OsPath.walk_root folder_path rel) file)
             = Ok md5_hash)
  /\ (forall rel files file md5_hash,
        In (rel, files) dirs -> In file files -> file <> "checksums.md5" ->
        md5_of fs (Py.path_join (OsPath.walk_root folder_path rel) file)
        = Ok md5_hash ->
        is_Some (Dict.get (Verifier.rel_file rel file) checksums)).
Proof.
  exact (collected_checksums_spec fs folder_path dirs).
Qed.

(** Writing a checksum file and loading it again gives back the
    digests that were collected.  When every digest is a non-empty text of
    hexadecimal digits, every collected relative path fits on a line (it
    has no line break and no whitespace at its end) and the output path
    can be written, [create_checksum_file] answers with the output path
    ([folder_path/checksums.md5] when none is given), changes no other
    text file, and [load_checksum_file] maps every relative path to the
    digest collected for it and no other path to anything. *)
Theorem checksum_file_round_trip (fs : FS)
    (walk : string -> list (string * list string)) (writable : string -> bool)
    (texts : gmap string (list string)) (folder_path : string)
    (output_file : option string) :
  let out := default (Py.path_join folder_path "checksums.md5") output_file in
  let checksums := collect fs folder_path (walk folder_path) in
  (forall st, hex_text (md5_hexdigest st) = true) ->
  Forall (fun e => fits_line (fst e) = true) checksums ->
  writable out = true ->
  exists texts' loaded,
    create fs walk writable texts folder_path output_file = Verifier.Saved out texts'
    /\ (forall f, f <> out -> texts' !! f = texts !! f)
    /\ load_checksum_file texts' out = Ok loaded
    /\ (forall rel_path, loaded !! rel_path = Dict.get rel_path checksums).
Proof.
  intros out checksums Hhex Hfit Hw.
  destruct (collected_checksums_spec fs folder_path (walk folder_path))
    as (Hnd & Hsound & _).
  fold checksums in Hnd, Hsound.
  assert (Hok : Forall (fun e => hex_text (snd e) = true /\ fits_line (fst e) = true)
                  checksums).
  { apply Forall_forall. intros [p d] Hin. cbn [fst snd]. split.
    - apply list_elem_of_In in Hin.
      destruct (Hsound p d Hin) as (rel & files & file & _ & _ & _ & _ & Hmd5).
      unfold calculate_md5, calculate_md5_with in Hmd5.
      destruct (fs !! _); [|discriminate]. injection Hmd5 as <-. apply Hhex.
    - rewrite Forall_forall in Hfit. apply (Hfit (p, d) Hin). }
  exists (<[out := Text.file_lines (Verifier.checksum_text checksums)]> texts).
  exists (load_lines (Text.file_lines (Verifier.checksum_text checksums))).
  conjs.
  - unfold Verifier.create_checksum_file.
    replace (match output_file with
             | Some o => o
             | None => Py.path_join folder_path "checksums.md5"
             end) with out by (destruct output_file; reflexivity).
    rewrite Hw. reflexivity.
  - intros f Hne. apply lookup_insert_ne. congruence.
  - unfold load_checksum_file. rewrite lookup_insert_eq. reflexivity.
  - intros rel_path. unfold load_lines.
    rewrite (file_lines_checksum_text checksums Hok).
    rewrite (load_lines_checksums checksums ∅ Hnd Hok).
    destruct (Dict.get rel_path checksums); [reflexivity|apply lookup_empty].
Qed.

End ChecksumFiles.

(** ** Paths *)

Lemma string_get_app_r a b n :
  String.get (String.length a + n) (a ++ b) = String.get n b.
Proof.
  induction a as [|c a IH]; [reflexivity|].
  change (String c a ++ b) with (String c (a ++ b)). cbn. exact IH.
Qed.

Lemma string_length_app a b :
  String.length (a ++ b) = (String.length a + String.length b)%nat.
Proof.
  induction a as [|c a IH]; [reflexivity|].
  change (String c a ++ b) with (String c (a ++ b)). cbn. rewrite IH. reflexivity.
Qed.

Lemma endswith_slash_app a b :
  Py.truthy b = true -> Py.endswith_slash (a ++ b) = Py.endswith_slash b.
Proof.
  intros Hb. unfold Py.endswith_slash. rewrite string_length_app.
  destruct b as [|c b]; [discriminate|]. cbn [String.length].
  replace (String.length a + S (String.length b) - 1)%nat
    with (String.length a + String.length b)%nat by lia.
  rewrite string_get_app_r.
  replace (S (String.length b) - 1)%nat with (String.length b) by lia.
  reflexivity.
Qed.

Lemma truthy_app_r a b : Py.truthy b = true -> Py.truthy (a ++ b) = true.
Proof. destruct a; [trivial|reflexivity]. Qed.

Lemma path_join_assoc folder rel file :
  Py.truthy rel = true -> Py.endswith_slash rel = false ->
  Py.startswith "/" file = false ->
  Py.path_join (Py.path_join folder rel) file
  = Py.path_join folder (rel ++ "/" ++ file).
Proof.
  intros Hne Hes Hf. unfold Py.startswith in Hf.
  assert (Hx : forall x, Py.truthy (x ++ rel) = true
                         /\ Py.endswith_slash (x ++ rel) = false).
  { intros x. rewrite truthy_app_r, endswith_slash_app by exact Hne. auto. }
  assert (Hp : String.prefix "/" (rel ++ "/" ++ file) = String.prefix "/" rel).
  { destruct rel as [|c rel]; [discriminate|].
    change (String c rel ++ "/" ++ file) with (String c (rel ++ "/" ++ file)).
    rewrite !prefix_cons, !prefix_empty. reflexivity. }
  unfold Py.path_join at 1 3. rewrite Hf, Hp.
  unfold Py.path_join.
  destruct (String.prefix "/" rel).
  - rewrite Hne, Hes. reflexivity.
  - destruct (negb (Py.truthy folder) || Py.endswith_slash folder).
    + destruct (Hx folder) as [-> ->]. cbn [negb orb]. apply append_assoc3.
    + destruct (Hx (folder ++ "/")) as [H1 H2].
      rewrite append_assoc3 in H1, H2. rewrite H1, H2. cbn [negb orb].
      rewrite !append_assoc3. reflexivity.
Qed.

Section FolderVerification.

Import PyProps TextProps.

Context {md5_state : Type}.
Variable md5_new : md5_state.
Variable md5_update : md5_state -> list byte -> md5_state.
Variable md5_hexdigest : md5_state -> string.

Local Abbreviation check_file := (verify_file md5_new md5_update md5_hexdigest).
Local Abbreviation check_entry :=
  (Verifier.verify_entry md5_new md5_update md5_hexdigest).
Local Abbreviation check_folder :=
  (Verifier.verify_folder md5_new md5_update md5_hexdigest).

(** The answer of [verify_folder] for one source file. *)
Let answer (fs : FS) (dest_folder rel_path source_file : string)
    : bool * Verifier.folder_detail :=
  let dest_file := Py.path_join dest_folder rel_path in
  if OsPath.exists_ fs dest_file
  then (fst (check_file fs source_file dest_file),
        Verifier.FileDetail (snd (check_file fs source_file dest_file)))
  else (false, Verifier.DestMissing).

Lemma verify_entries_map fs dest_folder source_files :
  forall results,
    NoDup (Dict.keys results ++ Dict.keys source_files) ->
    fold_left (check_entry fs dest_folder) source_files results
    = (results
       ++ map (fun e => (fst e, answer fs dest_folder (fst e) (snd e)))
            source_files)%list.
Proof.
  induction source_files as [|[r s] rest IH]; intros results Hnd.
  - cbn. rewrite app_nil_r. reflexivity.
  - cbn [fold_left map fst snd].
    assert (Hstep : check_entry fs dest_folder results (r, s)
                    = (results ++ [(r, answer fs dest_folder r s)])%list).
    { unfold Verifier.verify_entry, answer.
      assert (Hnew : Dict.get r results = None (A := bool * Verifier.folder_detail)).
      { apply dict_get_none. intros Hin. unfold Dict.keys in Hnd.
        cbn [map fst] in Hnd. apply NoDup_app in Hnd as (_ & Hdis & _).
        apply (Hdis r); [apply list_elem_of_In; exact Hin|left]. }
      destruct (OsPath.exists_ fs (Py.path_join dest_folder r)); cbn [negb].
      - destruct (check_file fs s (Py.path_join dest_folder r)) as [ok msg].
        apply dict_set_new, Hnew.
      - apply dict_set_new, Hnew. }
    rewrite Hstep, IH.
    + rewrite <- app_assoc. reflexivity.
    + unfold Dict.keys in *. rewrite map_app. cbn [map fst] in *.
      rewrite <- app_assoc. exact Hnd.
Qed.

Lemma collected_sources source_folder dirs :
  let source_files := Verifier.collect_sources source_folder dirs in
  NoDup (Dict.keys source_files)
  /\ (forall rel_path source_file,
        In (rel_path, source_file) source_files ->
        exists rel files file,
          In (rel, files) dirs /\ In file files /\ file <> "checksums.md5"
          /\ rel_path = Verifier.rel_file rel file
          /\ source_file = Py.path_join (OsPath.walk_root source_folder rel) file)
  /\ (forall rel files file,
        In (rel, files) dirs -> In file files -> file <> "checksums.md5" ->
        is_Some (Dict.get (Verifier.rel_file rel file) source_files)).
Proof.
  intros source_files. unfold source_files, Verifier.collect_sources.
  split; [|split].
  - apply (walk_fold_ind (fun cs => NoDup (Dict.keys cs))).
    + intros rel files file acc _ _ Hacc. unfold Verifier.source_entry.
      destruct (String.eqb file "checksums.md5"); [exact Hacc|].
      apply dict_set_nodup, Hacc.
    + apply NoDup_nil_2.
  - apply (walk_fold_ind (fun cs => forall rel_path source_file,
             In (rel_path, source_file) cs ->
             exists rel files file,
               In (rel, files) dirs /\ In file files /\ file <> "checksums.md5"
               /\ rel_path = Verifier.rel_file rel file
               /\ source_file
                  = Py.path_join (OsPath.walk_root source_folder rel) file)).
    + intros rel files file acc Hd Hf Hacc rel_path source_file.
      unfold Verifier.source_entry.
      destruct (String.eqb file "checksums.md5") eqn:E; [apply Hacc|].
      apply String.eqb_neq in E.
      intros Hin. apply dict_set_in in Hin as [[-> ->]|Hin]; [|apply Hacc, Hin].
      exists rel, files, file. auto.
    + intros ? ? [].
  - intros rel files file Hd Hf Hne.
    assert (Hkeep : forall rel' acc file',
              is_Some (Dict.get (Verifier.rel_file rel file) acc) ->
              is_Some (Dict.get (Verifier.rel_file rel file)
                         (Verifier.source_entry source_folder rel' acc file'))).
    { intros rel' acc file' Hs. unfold Verifier.source_entry.
      destruct (String.eqb file' "checksums.md5"); [exact Hs|].
      rewrite dict_get_set. destruct (String.eqb _ _); [eauto|exact Hs]. }
    assert (Hkeepf : forall rel' fs' acc,
              is_Some (Dict.get (Verifier.rel_file rel file) acc) ->
              is_Some (Dict.get (Verifier.rel_file rel file)
                         (fold_left (Verifier.source_entry source_folder rel')
                            fs' acc))).
    { intros rel'. induction fs' as [|g fs' IHg]; intros acc Hs; [exact Hs|].
      cbn [fold_left]. apply IHg, Hkeep, Hs. }
    generalize (@nil (string * string)).
    induction dirs as [|[rel0 files0] dirs0 IH]; intros init; [destruct Hd|].
    cbn [fold_left fst snd]. destruct Hd as [Heq|Hd].
    + injection Heq as -> ->.
      match goal with |- is_Some (Dict.get _ (fold_left ?f dirs0 ?acc)) =>
        assert (Hhere : is_Some (Dict.get (Verifier.rel_file rel file) acc)) end.
      { clear IH. revert init.
        induction files as [|f files IHf]; intros init; [destruct Hf|].
        cbn [fold_left]. destruct Hf as [->|Hf]; [|apply IHf, Hf].
        apply Hkeepf. unfold Verifier.source_entry.
        apply String.eqb_neq in Hne. rewrite Hne, dict_get_set, String.eqb_refl.
        eauto. }
      revert Hhere. generalize (fold_left (Verifier.source_entry source_folder rel)
                                  files init).
      clear IH. induction dirs0 as [|d dirs0 IHd]; intros acc Hs; [exact Hs|].
      cbn [fold_left]. apply IHd, Hkeepf, Hs.
    + apply IH. exact Hd.
Qed.


Lemma source_and_dest_path folder rel file :
  Py.truthy rel = true -> Py.endswith_slash rel = false ->
  Py.startswith "/" file = false ->
  Py.path_join (OsPath.walk_root folder rel) file
  = Py.path_join folder (Verifier.rel_file rel file).
Proof.
  intros Hne Hes Hf. unfold OsPath.walk_root, Verifier.rel_file.
  destruct (String.eqb rel "."); [reflexivity|].
  apply path_join_assoc; assumption.
Qed.

Lemma check_file_itself fs p :
  check_file fs p p
  = if OsPath.exists_ fs p then (true, NoDetail)
    else (false, VerifyFailed (Md5Failed p)).
Proof.
  unfold verify_file, verify_file_at, calculate_md5, calculate_md5_with,
    OsPath.exists_.
  destruct (fs !! p); [|reflexivity]. rewrite String.eqb_refl. reflexivity.
Qed.

Lemma verify_folder_itself_cases (fs : FS)
    (walk walk' : string -> list (string * list string))
    (writable : string -> bool) (texts : gmap string (list string))
    (folder : string) (create_checksums : bool) :
  walk_names (walk' folder) ->
  forall rel_path result,
    In (rel_path, result)
      (fst (check_folder fs walk walk' writable texts folder folder
              create_checksums)) ->
    result = if OsPath.exists_ fs (Py.path_join folder rel_path)
             then (true, Verifier.FileDetail NoDetail)
             else (false, Verifier.DestMissing).
Proof.
  intros Hnames rel_path result. unfold Verifier.verify_folder. cbn [fst].
  destruct (collected_sources folder (walk' folder)) as (Hnd & Hsound & _).
  set (source_files := Verifier.collect_sources folder (walk' folder)) in *.
  rewrite verify_entries_map by exact Hnd. cbn [app].
  intros Hin. apply in_map_iff in Hin as ([r s] & Heq & Hin).
  cbn [fst snd] in Heq. injection Heq as <- <-.
  destruct (Hsound r s Hin) as (rel & files & file & Hd & Hf & _ & -> & ->).
  unfold walk_names in Hnames. rewrite Forall_forall in Hnames.
  apply list_elem_of_In in Hd.
  destruct (Hnames _ Hd) as (Hne & Hes & Hfiles). cbn [fst snd] in *.
  rewrite Forall_forall in Hfiles. apply list_elem_of_In in Hf.
  rewrite (source_and_dest_path folder rel file Hne Hes (Hfiles _ Hf)).
  unfold answer. rewrite check_file_itself.
  destruct (OsPath.exists_ fs _); reflexivity.
Qed.

(** A folder verified against itself never shows a mismatch: with the
    names [os.walk] gives, no entry of the answer reports two digests that
    differ, and every file whose digest can be computed gets
    [(True, empty message)].  A file without a digest (it cannot be read)
    gets a failure, and which one is left open here. *)
Theorem verify_folder_against_itself (fs : FS)
    (walk walk' : string -> list (string * list string))
    (writable : string -> bool) (texts : gmap string (list string))
    (folder : string) (create_checksums : bool) :
  walk_names (walk' folder) ->
  forall rel_path result,
    In (rel_path, result)
      (fst (check_folder fs walk walk' writable texts folder folder
              create_checksums)) ->
    (forall source_md5 dest_md5,
       snd result <> Verifier.FileDetail (Mismatch source_md5 dest_md5))
    /\ (forall md5_hash,
          calculate_md5 md5_new md5_update md5_hexdigest fs
            (Py.path_join folder rel_path) = Ok md5_hash ->
          result = (true, Verifier.FileDetail NoDetail)).
Proof.
  intros Hnames rel_path result Hin.
  rewrite (verify_folder_itself_cases fs walk walk' writable texts folder
             create_checksums Hnames rel_path result Hin).
  unfold OsPath.exists_, calculate_md5, calculate_md5_with.
  destruct (fs !! Py.path_join folder rel_path); split;
    try (intros; discriminate); reflexivity.
Qed.

End FolderVerification.

Example format_examples :
  format_size 0 = "0 B" /\ format_size 1 = "1.0 B" /\ format_size 1023 = "1023.0 B"
  /\ format_size 1024 = "1.0 KB" /\ format_size 1536 = "1.5 KB"
  /\ format_size 1280 = "1.2 KB" /\ format_size 1048575 = "1024.0 KB"
  /\ format_size (5 * 1024 ^ 4) = "5.0 TB" /\ format_size (3000 * 1024 ^ 4) = "3000.0 TB"
  /\ format_time 0 = "00:00" /\ format_time (1 # 2) = "00:00"
  /\ format_time 59 = "00:59" /\ format_time (3599 + (9 # 10)) = "59:59"
  /\ format_time 3600 = "01:00:00" /\ format_time 360000 = "100:00:00".
Proof. vm_compute. repeat split. Qed.

(** ** Sizes and times on screen *)

Lemma Qle_bool_inject a b : Qle_bool (inject_Z a) (inject_Z b) = (a <=? b)%Z.
Proof.
  destruct (Z.leb_spec a b) as [H|H].
  - apply Qle_bool_iff. rewrite <- Zle_Qle. exact H.
  - destruct (Qle_bool (inject_Z a) (inject_Z b)) eqn:E; [|reflexivity].
    apply Qle_bool_iff in E. rewrite <- Zle_Qle in E. lia.
Qed.

Lemma Qle_bool_scaled k n (d : positive) :
  Qle_bool (inject_Z k) (inject_Z n / inject_Z (Z.pos d))
  = (k * Z.pos d <=? n)%Z.
Proof.
  assert (Hd : (0 < inject_Z (Z.pos d))%Q) by (rewrite <- (Zlt_Qlt 0); lia).
  destruct (Z.leb_spec (k * Z.pos d) n) as [H|H].
  - apply Qle_bool_iff. apply Qle_shift_div_l; [exact Hd|].
    rewrite <- inject_Z_mult, <- Zle_Qle. exact H.
  - destruct (Qle_bool _ _) eqn:E; [|reflexivity].
    apply Qle_bool_iff in E.
    apply (Qmult_le_compat_r _ _ (inject_Z (Z.pos d))) in E; [|apply Qlt_le_weak, Hd].
    unfold Qdiv in E. rewrite <- Qmult_assoc, (Qmult_comm (/ _)), Qmult_inv_r,
      Qmult_1_r, <- inject_Z_mult, <- Zle_Qle in E; [lia|].
    intros H0. rewrite H0 in Hd. apply (Qlt_irrefl _ Hd).
Qed.

Lemma Qle_bool_spec a b : reflect (a <= b)%Q (Qle_bool a b).
Proof.
  destruct (Qle_bool a b) eqn:E; constructor.
  - apply Qle_bool_iff, E.
  - intros H. apply Qle_bool_iff in H. congruence.
Qed.

Lemma size_unit_steps (n : Z) :
  size_unit (inject_Z n) size_names
  = if (n <? 1024)%Z then (inject_Z n, "B")
    else if (n <? 1024 ^ 2)%Z then ((inject_Z n / 1024)%Q, "KB")
    else if (n <? 1024 ^ 3)%Z then ((inject_Z n / 1024 / 1024)%Q, "MB")
    else if (n <? 1024 ^ 4)%Z then ((inject_Z n / 1024 / 1024 / 1024)%Q, "GB")
    else ((inject_Z n / 1024 / 1024 / 1024 / 1024)%Q, "TB").
Proof.
  unfold size_names. cbn [size_unit].
  assert (H0 : forall z, (inject_Z z == z # 1)%Q) by (intros; reflexivity).
  repeat match goal with
  | |- context [Qle_bool ?a ?b] => destruct (Qle_bool_spec a b)
  | |- context [(?a <? ?b)%Z] => destruct (Z.ltb_spec a b)
  end; try reflexivity; exfalso;
  repeat match goal with
  | H : (_ < _)%Z |- _ => rewrite Zlt_Qlt in H
  | H : (_ <= _)%Z |- _ => rewrite Zle_Qle in H
  | H : ~ (_ <= _)%Q |- _ => apply Qnot_le_lt in H
  end; change (inject_Z (1024 ^ 2)) with (1048576%Q) in *;
  change (inject_Z (1024 ^ 3)) with (1073741824%Q) in *;
  change (inject_Z (1024 ^ 4)) with (1099511627776%Q) in *;
  change (inject_Z 1024) with (1024%Q) in *;
  unfold Qdiv in *; change (/ 1024)%Q with (1 # 1024)%Q in *;
  generalize dependent (inject_Z n); intros; lra.
Qed.

Lemma Qfloor_div_pos x (d : positive) :
  Qfloor (x / inject_Z (Z.pos d)) = (Qfloor x / Z.pos d)%Z.
Proof.
  set (m := Qfloor (x / inject_Z (Z.pos d))).
  assert (Hd : (0 < inject_Z (Z.pos d))%Q) by (rewrite <- (Zlt_Qlt 0); lia).
  assert (Hdne : ~ (inject_Z (Z.pos d) == 0)%Q).
  { intros H0. rewrite H0 in Hd. apply (Qlt_irrefl _ Hd). }
  pose proof (Qfloor_le (x / inject_Z (Z.pos d))) as Hlo.
  pose proof (Qlt_floor (x / inject_Z (Z.pos d))) as Hhi.
  fold m in Hlo, Hhi.
  assert (Hlo' : (inject_Z (m * Z.pos d) <= x)%Q).
  { rewrite inject_Z_mult.
    apply (Qmult_le_compat_r _ _ (inject_Z (Z.pos d))) in Hlo;
      [|apply Qlt_le_weak, Hd].
    unfold Qdiv in Hlo.
    rewrite <- Qmult_assoc, (Qmult_comm (/ _)), Qmult_inv_r, Qmult_1_r in Hlo;
      assumption. }
  assert (Hhi' : (x < inject_Z ((m + 1) * Z.pos d))%Q).
  { rewrite inject_Z_mult.
    apply (Qmult_lt_compat_r _ _ (inject_Z (Z.pos d))) in Hhi; [|exact Hd].
    unfold Qdiv in Hhi.
    rewrite <- Qmult_assoc, (Qmult_comm (/ _)), Qmult_inv_r, Qmult_1_r in Hhi;
      assumption. }
  assert (H1 : (m * Z.pos d <= Qfloor x)%Z).
  { apply Qfloor_resp_le in Hlo'. rewrite Qfloor_Z in Hlo'. exact Hlo'. }
  assert (H2 : (Qfloor x < (m + 1) * Z.pos d)%Z).
  { rewrite Zlt_Qlt. eapply Qle_lt_trans; [apply Qfloor_le|exact Hhi']. }
  fold m.
  apply (Z.div_unique_pos _ _ m (Qfloor x - m * Z.pos d)); lia.
Qed.

Lemma Qfloor_unique x z :
  (inject_Z z <= x)%Q -> (x < inject_Z (z + 1))%Q -> Qfloor x = z.
Proof.
  intros Hlo Hhi.
  pose proof (Qfloor_le x) as Flo. pose proof (Qlt_floor x) as Fhi.
  assert (H1 : (z < Qfloor x + 1)%Z).
  { rewrite Zlt_Qlt. eapply Qle_lt_trans; [exact Hlo|exact Fhi]. }
  assert (H2 : (Qfloor x < z + 1)%Z).
  { rewrite Zlt_Qlt. eapply Qle_lt_trans; [exact Flo|exact Hhi]. }
  lia.
Qed.

Lemma Qfloor_sub_mult s k m :
  Qfloor (s - inject_Z k * inject_Z m) = (Qfloor s - k * m)%Z.
Proof.
  apply Qfloor_unique.
  - pose proof (Qfloor_le s) as H. unfold Zminus.
    rewrite inject_Z_plus, inject_Z_opp, inject_Z_mult. lra.
  - pose proof (Qlt_floor s) as H.
    replace (Qfloor s - k * m + 1)%Z with ((Qfloor s + 1) - k * m)%Z by lia.
    unfold Zminus. rewrite inject_Z_plus, inject_Z_opp, inject_Z_mult. lra.
Qed.

Lemma py_int_nonneg x : (0 <= x)%Q -> py_int x = Qfloor x.
Proof.
  intros H. unfold py_int.
  replace (Qltb x 0) with false; [reflexivity|].
  symmetry. apply Qltb_ge. exact H.
Qed.

Lemma round_half_even_floor x : (Qfloor x <= Fmt.round_half_even x)%Z.
Proof.
  unfold Fmt.round_half_even. cbv zeta.
  repeat match goal with |- context [if ?b then _ else _] => destruct b end; lia.
Qed.

Lemma to_float_small n : (Z.abs n < 2 ^ 53)%Z -> Fmt.to_float n = n.
Proof.
  intros Hn. unfold Fmt.to_float. cbv zeta.
  destruct (Z.leb_spec (Z.log2 (Z.abs n) - 52) 0) as [H|H]; [reflexivity|].
  exfalso.
  assert (Hpos : (0 < Z.abs n)%Z).
  { destruct (Z.eq_dec (Z.abs n) 0) as [E|E]; [|lia].
    rewrite E in H. cbn in H. lia. }
  pose proof (proj1 (Z.log2_lt_pow2 (Z.abs n) 53 Hpos) Hn). lia.
Qed.

Lemma to_float_large n : (2 ^ 53 <= n)%Z -> (2 ^ 53 <= Fmt.to_float n)%Z.
Proof.
  intros Hn. unfold Fmt.to_float. cbv zeta.
  assert (Hpos : (0 < n)%Z) by lia.
  rewrite Z.abs_eq by lia.
  assert (HL : (53 <= Z.log2 n)%Z) by (apply Z.log2_le_pow2; lia).
  set (k := (Z.log2 n - 52)%Z).
  destruct (Z.leb_spec k 0) as [H|H]; [lia|].
  rewrite Z.sgn_pos, Z.mul_1_l by lia.
  pose proof (round_half_even_floor (inject_Z n / inject_Z (2 ^ k))) as Hr.
  assert (Hk : (0 < 2 ^ k)%Z) by (apply Z.pow_pos_nonneg; lia).
  assert (Hq : Qfloor (inject_Z n / inject_Z (2 ^ k)) = (n / 2 ^ k)%Z).
  { destruct (2 ^ k)%Z as [|d|d] eqn:E; try lia.
    rewrite Qfloor_div_pos, Qfloor_Z. reflexivity. }
  rewrite Hq in Hr.
  assert (Hlow : (2 ^ 52 <= n / 2 ^ k)%Z).
  { apply Z.div_le_lower_bound; [exact Hk|].
    rewrite <- Z.pow_add_r by lia. replace (k + 52)%Z with (Z.log2 n) by lia.
    apply Z.log2_spec. exact Hpos. }
  transitivity (2 ^ 52 * 2 ^ k)%Z.
  - rewrite <- Z.pow_add_r by lia. apply Z.pow_le_mono_r; lia.
  - apply Z.mul_le_mono_nonneg_r; lia.
Qed.

(** [format_size] picks the unit by powers of 1024 and stops at TB: a
    size of 0 is shown as ["0 B"], a size below 1024 in B, below 1024^2
    in KB, below 1024^3 in MB, below 1024^4 in GB, and every larger size
    in TB; the number shown is the size divided by 1024 once per unit
    passed, with one decimal.  Below 2^53 bytes the size enters the
    division as it is; from there on it is first rounded to the nearest
    float.  (The sizes are those a float can hold; the bound leaves out
    the sizes whose conversion raises [OverflowError].) *)
Theorem format_size_units (size_bytes : Z) :
  (0 <= size_bytes < 2 ^ 1023)%Z ->
  ((size_bytes < 2 ^ 53)%Z -> Fmt.to_float size_bytes = size_bytes)
  /\ format_size size_bytes
     = if (size_bytes =? 0)%Z then "0 B"
       else if (size_bytes <? 1024)%Z
       then Fmt.f1 (inject_Z size_bytes) ++ " B"
       else if (size_bytes <? 1024 ^ 2)%Z
       then Fmt.f1 (inject_Z size_bytes / 1024) ++ " KB"
       else if (size_bytes <? 1024 ^ 3)%Z
       then Fmt.f1 (inject_Z size_bytes / 1024 / 1024) ++ " MB"
       else if (size_bytes <? 1024 ^ 4)%Z
       then Fmt.f1 (inject_Z size_bytes / 1024 / 1024 / 1024) ++ " GB"
       else Fmt.f1 (inject_Z (Fmt.to_float size_bytes) / 1024 / 1024 / 1024 / 1024)
            ++ " TB".
Proof.
  intros [Hlo _]. split.
  { intros H. apply to_float_small. lia. }
  unfold format_size. rewrite size_unit_steps.
  destruct (size_bytes =? 0)%Z; [reflexivity|].
  destruct (Z.lt_ge_cases size_bytes (2 ^ 53)) as [Hs|Hs].
  - rewrite to_float_small by lia.
    repeat match goal with
    | |- context [(?a <? ?b)%Z] => destruct (a <? b)%Z
    end; reflexivity.
  - pose proof (to_float_large size_bytes Hs) as Hf.
    repeat match goal with
    | |- context [(?a <? ?b)%Z] => destruct (Z.ltb_spec a b)
    end; try reflexivity; exfalso; lia.
Qed.

(** Above 2^53 the float decides: 9007254230322381 bytes are shown as
    8192.0 TB, the float being 9007254230322380. *)
Example format_size_rounds :
  Fmt.to_float 9007254230322381 = 9007254230322380%Z
  /\ format_size 9007254230322381 = "8192.0 TB"
  /\ format_size (2 ^ 53 + 1) = "8192.0 TB"
  /\ format_size 1048575 = "1024.0 KB".
Proof. vm_compute. repeat split. Qed.

(** [format_time] shows a positive duration by its whole seconds [t]:
    as minutes and seconds, [t / 60] and [t mod 60], below one hour, and
    as hours, minutes and seconds, [t / 3600], [(t / 60) mod 60] and
    [t mod 60], from one hour on, each field with two digits at least; a
    duration of zero or less is shown as ["00:00"], and so is a positive
    one below one second. *)
Theorem format_time_fields (seconds : Q) :
  let t := Qfloor seconds in
  format_time seconds
  = if Qle_bool seconds 0 then "00:00"
    else if (t <? 3600)%Z
    then Fmt.d02 (t / 60) ++ ":" ++ Fmt.d02 (t mod 60)
    else Fmt.d02 (t / 3600) ++ ":" ++ Fmt.d02 ((t / 60) mod 60) ++ ":"
         ++ Fmt.d02 (t mod 60).
Proof.
  intros t. unfold format_time.
  destruct (Qle_bool_spec seconds 0) as [Hle|Hpos]; [reflexivity|].
  apply Qnot_le_lt in Hpos.
  assert (Ht : (0 <= t)%Z).
  { unfold t. change 0%Z with (Qfloor 0). apply Qfloor_resp_le, Qlt_le_weak, Hpos. }
  assert (Hm : Qfloor (seconds / 60) = (t / 60)%Z)
    by apply (Qfloor_div_pos seconds 60).
  assert (Hminutes : py_int (floordiv seconds 60) = (t / 60)%Z).
  { unfold floordiv. rewrite Hm, py_int_nonneg.
    - apply Qfloor_Z.
    - rewrite <- (Zle_Qle 0). apply Z.div_pos; lia. }
  assert (Hsecs : py_int (pymod seconds 60) = (t mod 60)%Z).
  { unfold pymod, floordiv. rewrite Hm.
    assert (Hfl : Qfloor (seconds - 60 * inject_Z (t / 60)) = (t mod 60)%Z).
    { change 60%Q with (inject_Z 60). rewrite Qfloor_sub_mult. fold t.
      rewrite Z.mod_eq by lia. reflexivity. }
    rewrite py_int_nonneg; [exact Hfl|].
    pose proof (Qfloor_le seconds) as Hfloor. fold t in Hfloor.
    assert (Hdiv : (60 * (t / 60) <= t)%Z) by (apply Z.mul_div_le; lia).
    rewrite Zle_Qle, inject_Z_mult in Hdiv. change (inject_Z 60) with 60%Q in Hdiv.
    lra. }
  rewrite Hminutes, Hsecs.
  destruct (Z.leb_spec 60 (t / 60)) as [Hh|Hh];
    destruct (Z.ltb_spec t 3600) as [Hl|Hl]; try reflexivity.
  - exfalso. assert ((t / 60 < 60)%Z) by (apply Z.div_lt_upper_bound; lia). lia.
  - rewrite Z.div_div by lia. reflexivity.
  - exfalso. assert ((60 <= t / 60)%Z) by (apply Z.div_le_lower_bound; lia). lia.
Qed.

(** ** The size of a folder *)

Lemma Tree_ind (P : Tree -> Prop) :
  (forall name files subdirs,
     (forall d, In d subdirs -> P d) -> P (Dir name files subdirs)) ->
  forall t, P t.
Proof.
  intros H. fix IH 1. intros [name files subdirs]. apply H.
  induction subdirs as [|d subdirs IHs]; intros d' Hin; [destruct Hin|].
  destruct Hin as [<-|Hin]; [apply IH|apply IHs, Hin].
Qed.

Lemma count_sep_app a b : count_sep (a ++ b) = (count_sep a + count_sep b)%Z.
Proof.
  induction a as [|c a IH]; [reflexivity|].
  change (String c a ++ b) with (String c (a ++ b)). cbn [count_sep].
  rewrite IH. lia.
Qed.

Lemma count_sep_nonneg s : (0 <= count_sep s)%Z.
Proof.
  induction s as [|c s IH]; cbn [count_sep]; [lia|].
  destruct (Ascii.eqb c "/"); lia.
Qed.

Lemma count_sep_no_slash_start s :
  count_sep s = 0%Z -> String.prefix "/" s = false.
Proof.
  destruct s as [|c s]; [reflexivity|]. cbn [count_sep]. intros H.
  rewrite prefix_cons, prefix_empty, andb_true_r, Ascii.eqb_sym.
  pose proof (count_sep_nonneg s).
  destruct (Ascii.eqb c "/"); [lia|reflexivity].
Qed.

Lemma count_sep_get s n :
  String.get n s = Some "/"%char -> (0 < count_sep s)%Z.
Proof.
  revert n. induction s as [|d s IH]; intros n Hg; [discriminate|].
  pose proof (count_sep_nonneg s). cbn [count_sep].
  destruct n as [|n]; cbn in Hg.
  - injection Hg as ->. cbn. lia.
  - specialize (IH _ Hg). destruct (Ascii.eqb d "/"); lia.
Qed.

Lemma endswith_slash_no_sep s :
  count_sep s = 0%Z -> Py.endswith_slash s = false.
Proof.
  intros H0. unfold Py.endswith_slash.
  destruct (String.get (String.length s - 1) s) as [c|] eqn:E; [|reflexivity].
  destruct (Ascii.eqb c "/") eqn:Ec; [|reflexivity].
  apply Ascii.eqb_eq in Ec as ->. pose proof (count_sep_get _ _ E). lia.
Qed.

(** The level of a directory in the walk: the count of line 259 for the
    children of a directory at level [l] whose path is [root]. *)
Lemma child_level root name :
  Py.truthy name = true -> count_sep name = 0%Z ->
  let child := Py.path_join root name in
  Py.truthy child = true /\ Py.endswith_slash child = false
  /\ count_sep child
     = (count_sep root
        + (if negb (Py.truthy root) || Py.endswith_slash root then 0 else 1))%Z.
Proof.
  intros Hne H0 child. unfold child, Py.path_join.
  rewrite (count_sep_no_slash_start _ H0).
  destruct (negb (Py.truthy root) || Py.endswith_slash root).
  - rewrite truthy_app_r, endswith_slash_app, count_sep_app by exact Hne.
    rewrite (endswith_slash_no_sep _ H0). conjs; auto. lia.
  - rewrite <- append_assoc3.
    rewrite truthy_app_r, endswith_slash_app, !count_sep_app by exact Hne.
    rewrite (endswith_slash_no_sep _ H0). conjs; auto. cbn. lia.
Qed.

Lemma walk_total_levels folder_path :
  forall t root (levels : nat),
    plain_below t = true ->
    Py.truthy root = true -> Py.endswith_slash root = false ->
    (count_sep root - count_sep folder_path = 10 - Z.of_nat levels)%Z ->
    walk_total folder_path root t = size_within t levels.
Proof.
  induction t as [name files subdirs IH] using Tree_ind.
  intros root levels Hplain Hne Hes Hlevel.
  cbn [walk_total size_within].
  replace (10 <? count_sep root - count_sep folder_path)%Z with false
    by (symmetry; apply Z.ltb_ge; lia).
  f_equal. cbn [plain_below] in Hplain.
  destruct levels as [|k].
  - (* every child is one separator further: skipped *)
    induction subdirs as [|d subdirs IHs]; [reflexivity|].
    cbn [forallb] in Hplain. apply andb_true_iff in Hplain as [Hd Hrest].
    apply andb_true_iff in Hd as [Hd _]. apply andb_true_iff in Hd as [Hdn Hd0].
    apply Z.eqb_eq in Hd0.
    cbn [fold_right]. rewrite IHs; [|intros; apply IH; auto; right; assumption|exact Hrest].
    destruct (child_level root (dir_name d) Hdn Hd0) as (_ & _ & Hc).
    rewrite Hne, Hes in Hc. cbn [negb orb] in Hc.
    destruct d as [dn dfiles dsubs]. cbn [walk_total dir_name] in *.
    replace (10 <? count_sep (Py.path_join root dn) - count_sep folder_path)%Z
      with true by (symmetry; apply Z.ltb_lt; lia).
    reflexivity.
  - induction subdirs as [|d subdirs IHs]; [reflexivity|].
    cbn [forallb] in Hplain. apply andb_true_iff in Hplain as [Hd Hrest].
    apply andb_true_iff in Hd as [Hd Hdp]. apply andb_true_iff in Hd as [Hdn Hd0].
    apply Z.eqb_eq in Hd0.
    cbn [fold_right]. rewrite IHs; [|intros; apply IH; auto; right; assumption|exact Hrest].
    destruct (child_level root (dir_name d) Hdn Hd0) as (Hcn & Hce & Hc).
    rewrite Hne, Hes in Hc. cbn [negb orb] in Hc.
    rewrite (IH d (or_introl eq_refl) _ k Hdp Hcn Hce); [reflexivity|lia].
Qed.

Lemma walk_total_top folder_path t :
  plain_below t = true ->
  walk_total folder_path folder_path t
  = size_within t
      (if negb (Py.truthy folder_path) || Py.endswith_slash folder_path
       then 11 else 10).
Proof.
  intros Hplain.
  destruct (negb (Py.truthy folder_path) || Py.endswith_slash folder_path) eqn:E.
  - destruct t as [name files subdirs]. cbn [walk_total size_within].
    replace (10 <? count_sep folder_path - count_sep folder_path)%Z with false
      by (symmetry; apply Z.ltb_ge; lia).
    f_equal. cbn [plain_below] in Hplain.
    induction subdirs as [|d subdirs IHs]; [reflexivity|].
    cbn [forallb] in Hplain. apply andb_true_iff in Hplain as [Hd Hrest].
    apply andb_true_iff in Hd as [Hd Hdp]. apply andb_true_iff in Hd as [Hdn Hd0].
    apply Z.eqb_eq in Hd0.
    cbn [fold_right]. rewrite (IHs Hrest).
    destruct (child_level folder_path (dir_name d) Hdn Hd0) as (Hcn & Hce & Hc).
    rewrite E in Hc.
    rewrite (walk_total_levels folder_path d _ 10 Hdp Hcn Hce); [reflexivity|lia].
  - apply orb_false_iff in E as [Hne Hes]. apply negb_false_iff in Hne.
    apply walk_total_levels; auto. lia.
Qed.

(** [get_folder_size] does not count what lies too deep.  When the
    cache has no entry for the folder, the answer is the size of the files
    that lie at most 10 directories below the folder (11 when the path of
    the folder ends with a separator), a file whose size cannot be read
    counting for nothing; the answer is stored in the cache with the time
    of the call, and the entries of other folders stay. *)
Theorem folder_size_stops_at_depth (tree : Tree) (current_time : Q)
    (cache : gmap string (Z * Q)) (folder_path : string) :
  plain_below tree = true ->
  cache !! folder_path = None ->
  let levels :=
    if negb (Py.truthy folder_path) || Py.endswith_slash folder_path
    then 11%nat else 10%nat in
  let r := get_folder_size tree current_time cache folder_path in
  fst r = size_within tree levels
  /\ snd r !! folder_path = Some (size_within tree levels, current_time)
  /\ (forall other, other <> folder_path -> snd r !! other = cache !! other).
Proof.
  intros Hplain Hmiss levels r. unfold r, get_folder_size. rewrite Hmiss.
  cbn [fst snd]. rewrite (walk_total_top folder_path tree Hplain). fold levels.
  conjs.
  - reflexivity.
  - apply lookup_insert_eq.
  - intros other Hne. apply lookup_insert_ne. congruence.
Qed.

(** *** The difference of two clock readings

    The clock readings are doubles and so is their difference: the test of
    line 251 is made on [Fmt.float_sub], the double nearest to the exact
    difference.  Rounding never takes a difference of five seconds or more
    below five. *)

Lemma Qpower2_pos z : (0 < 2 ^ z)%Q.
Proof. apply Qpower_0_lt. reflexivity. Qed.

Lemma Qpower2_cancel a b : (2 ^ a * 2 ^ b == 2 ^ (a + b))%Q.
Proof. symmetry. apply Qpower_plus. discriminate. Qed.

(** The exponent estimate is at most one too large. *)
Lemma log2_estimate (n : Z) (d : positive) :
  (0 < n)%Z ->
  (2 ^ (Z.log2 n - Z.log2 (Z.pos d) - 1) <= n # d)%Q.
Proof.
  intros Hn.
  set (ln := Z.log2 n). set (ld := Z.log2 (Z.pos d)).
  assert (Hln : (2 ^ ln <= n)%Z) by (apply Z.log2_spec; exact Hn).
  assert (Hld : (Z.pos d < 2 ^ (ld + 1))%Z).
  { replace (ld + 1)%Z with (Z.succ ld) by lia. apply Z.log2_spec. lia. }
  assert (H0n : (0 <= ln)%Z) by apply Z.log2_nonneg.
  assert (H0d : (0 <= ld)%Z) by apply Z.log2_nonneg.
  replace (ln - ld - 1)%Z with (ln + - (ld + 1))%Z by lia.
  rewrite <- Qpower2_cancel, Qpower_opp.
  change 2%Q with (inject_Z 2).
  rewrite <- !Zpower_Qpower by lia.
  assert (Hp : (0 < inject_Z (2 ^ (ld + 1)))%Q).
  { rewrite <- (Zlt_Qlt 0). apply Z.pow_pos_nonneg; lia. }
  apply Qle_shift_div_r; [exact Hp|].
  rewrite (Qmake_Qdiv n d).
  unfold Qdiv. rewrite <- Qmult_assoc, (Qmult_comm (/ _)), Qmult_assoc.
  apply Qle_shift_div_l; [rewrite <- (Zlt_Qlt 0); lia|].
  rewrite <- !inject_Z_mult, <- Zle_Qle.
  apply Z.mul_le_mono_nonneg; try lia.
Qed.

Lemma nearest_float_keeps_5 x : (5 <= x)%Q -> (5 <= Fmt.nearest_float x)%Q.
Proof.
  intros Hx. unfold Fmt.nearest_float.
  assert (Hpos : (0 < x)%Q) by lra.
  destruct (Qeq_bool x 0) eqn:E0.
  { apply Qeq_bool_iff in E0. lra. }
  assert (Ha : (Qabs x == x)%Q) by (apply Qabs_pos; lra).
  cbv zeta.
  replace (Qltb x 0) with false
    by (symmetry; apply negb_false_iff, Qle_bool_iff; lra).
  set (e0 := (Z.log2 (Qnum (Qabs x)) - Z.log2 (Z.pos (Qden (Qabs x))))%Z).
  set (e := if Qle_bool (2 ^ e0) (Qabs x) then e0 else (e0 - 1)%Z).
  assert (He : (2 ^ e <= x)%Q).
  { unfold e. destruct (Qle_bool (2 ^ e0) (Qabs x)) eqn:E.
    - apply Qle_bool_iff in E. rewrite Ha in E. exact E.
    - rewrite <- Ha. unfold e0.
      assert (H : (0 < Qabs x)%Q) by (rewrite Ha; exact Hpos).
      destruct (Qabs x) as [n d].
      apply log2_estimate. unfold Qlt in H. cbn in H. lia. }
  pose proof (round_half_even_floor (Qabs x * 2 ^ (52 - e))) as Hm.
  set (m := Fmt.round_half_even (Qabs x * 2 ^ (52 - e))) in *.
  destruct (Z.le_gt_cases e 52) as [Hle|Hgt].
  - (* 5 * 2^(52 - e) is a whole number *)
    assert (HK : (5 * 2 ^ (52 - e) <= m)%Z).
    { etransitivity; [|exact Hm].
      rewrite <- (Qfloor_Z (5 * 2 ^ (52 - e))). apply Qfloor_resp_le.
      rewrite inject_Z_mult, Zpower_Qpower by lia. rewrite Ha.
      apply Qmult_le_compat_r; [exact Hx|]. apply Qlt_le_weak, Qpower2_pos. }
    rewrite Zle_Qle, inject_Z_mult, Zpower_Qpower in HK by lia.
    apply (Qmult_le_compat_r _ _ (2 ^ (e - 52))) in HK;
      [|apply Qlt_le_weak, Qpower2_pos].
    rewrite <- Qmult_assoc, Qpower2_cancel in HK.
    replace (52 - e + (e - 52))%Z with 0%Z in HK by lia.
    rewrite Qpower_0_r, Qmult_1_r in HK. exact HK.
  - (* the result is at least 2^e, which is above 2^52 *)
    assert (HK : (2 ^ 52 <= m)%Z).
    { etransitivity; [|exact Hm].
      rewrite <- (Qfloor_Z (2 ^ 52)). apply Qfloor_resp_le.
      rewrite Zpower_Qpower by lia. rewrite Ha.
      apply (Qmult_le_compat_r _ _ (2 ^ (52 - e))) in He;
        [|apply Qlt_le_weak, Qpower2_pos].
      rewrite Qpower2_cancel in He.
      replace (e + (52 - e))%Z with 52%Z in He by lia. exact He. }
    rewrite Zle_Qle, Zpower_Qpower in HK by lia.
    apply (Qmult_le_compat_r _ _ (2 ^ (e - 52))) in HK;
      [|apply Qlt_le_weak, Qpower2_pos].
    rewrite Qpower2_cancel in HK.
    replace (52 + (e - 52))%Z with e in HK by lia.
    assert (H53 : (2 ^ 53 <= 2 ^ e)%Q).
    { apply Qpower_le_compat_l; [lia|]. discriminate. }
    change (inject_Z 2) with 2%Q in HK.
    assert (H5 : (5 <= 2 ^ 53)%Q) by (vm_compute; discriminate).
    lra.
Qed.

(** [get_folder_size] answers from its cache for five seconds, as the
    doubles measure them.  After a call at [t1] that found no entry, a call
    at [t2] looks at [waited], the double that [t2 - t1] gives.  With
    [waited < 5] it gives the same size again and leaves the cache as it
    is, whatever the folder holds by then; with [waited >= 5] it walks the
    folder again and stores the new size with the time [t2].  An exact
    difference of five seconds or more always has [waited >= 5]; an exact
    difference just below five can have it too. *)
Theorem folder_size_cached_five_seconds (tree1 tree2 : Tree) (t1 t2 : Q)
    (cache : gmap string (Z * Q)) (folder_path : string) :
  cache !! folder_path = None ->
  let waited := Fmt.float_sub t2 t1 in
  let r1 := get_folder_size tree1 t1 cache folder_path in
  let r2 := get_folder_size tree2 t2 (snd r1) folder_path in
  fst r1 = walk_total folder_path folder_path tree1
  /\ ((waited < 5)%Q -> r2 = r1)
  /\ ((5 <= waited)%Q ->
      fst r2 = walk_total folder_path folder_path tree2
      /\ snd r2 !! folder_path
         = Some (walk_total folder_path folder_path tree2, t2))
  /\ ((5 <= t2 - t1)%Q -> (5 <= waited)%Q).
Proof.
  intros Hmiss waited r1 r2. unfold r2, r1, get_folder_size. rewrite Hmiss.
  cbn [fst snd]. rewrite lookup_insert_eq. fold waited. conjs.
  - reflexivity.
  - intros Hlt. apply Qltb_lt in Hlt. rewrite Hlt. reflexivity.
  - intros Hge. apply Qltb_ge in Hge. rewrite Hge. cbn [fst snd].
    split; [reflexivity|apply lookup_insert_eq].
  - apply nearest_float_keeps_5.
Qed.

(** The doubles nearest to 0.1 and to 5.1 are less than five seconds
    apart, and their difference as a double is 5.0: a second call at that
    time walks the folder again. *)
Example folder_size_cache_at_the_edge :
  let t1 := (3602879701896397 # 36028797018963968)%Q in
  let t2 := (2871044762448691 # 562949953421312)%Q in
  let tree1 := Dir "d" [("a", Some 3%Z)] [] in
  let tree2 := Dir "d" [("a", Some 3%Z); ("b", Some 4%Z)] [] in
  let r1 := get_folder_size tree1 t1 (∅ : gmap string (Z * Q)) "/d" in
  Qltb (t2 - t1) 5 = true
  /\ Qeq_bool (Fmt.float_sub t2 t1) 5 = true
  /\ fst r1 = 3%Z
  /\ fst (get_folder_size tree2 t2 (snd r1) "/d") = 7%Z.
Proof. vm_compute. repeat split. Qed.

(** ** Starting a session *)








(** A preview drawn one second before the worker starts shows another
    name than the folder the session makes. *)
Example preview_is_one_second_old :
  let shown_at := {| year := 2025; month := 1; day := 2;
                     hour := 3; minute := 4; second := 4 |} in
  update_folder_preview demo_dated_cfg shown_at
  = PreviewFolder "20250102_030404_P"
  /\ fst (destination_root demo_env demo_dated_cfg demo_world)
     = "/dst/20250102_030405_P".
Proof. vm_compute. split; reflexivity. Qed.

(** ** Media types *)

Example splitlines_examples :
  Lines.splitlines ("a" ++ String Text.LF ("b" ++ String Text.CR (String Text.LF
     ("c" ++ String Text.CR ("d" ++ String (ascii_of_N 11) ("e" ++ String (ascii_of_N 133) "j"))))))
  = ["a"; "b"; "c"; "d"; "e"; "j"]
  /\ Lines.splitlines (String "a" (String Text.LF EmptyString)) = ["a"]
  /\ Lines.splitlines EmptyString = []
  /\ Lines.splitlines (String Text.LF EmptyString) = [EmptyString]
  /\ Lines.splitlines (String "a" (String Text.LF (String Text.LF "b"))) = ["a"; EmptyString; "b"]
  /\ save_media_types (" MP4 " ++ String Text.LF (".Mov" ++ String Text.LF (String Text.LF "mp4")))
       [".jpg"] = [".mp4"; ".mov"]
  /\ save_media_types (String Text.LF "  ") [".jpg"] = [".jpg"].
Proof. vm_compute. repeat split. Qed.

Lemma lower_char_facts c :
  Ascii.eqb (OsPath.lower_char c) "/" = Ascii.eqb c "/"
  /\ Ascii.eqb (OsPath.lower_char c) "." = Ascii.eqb c "."
  /\ OsPath.lower_char (OsPath.lower_char c) = OsPath.lower_char c.
Proof. destruct c as [[] [] [] [] [] [] [] []]; vm_compute; auto. Qed.

Lemma lower_idempotent s : OsPath.lower (OsPath.lower s) = OsPath.lower s.
Proof.
  induction s as [|c s IH]; [reflexivity|]. cbn [OsPath.lower].
  rewrite IH. destruct (lower_char_facts c) as (_ & _ & ->). reflexivity.
Qed.

Lemma lower_app a b : OsPath.lower (a ++ b) = OsPath.lower a ++ OsPath.lower b.
Proof.
  induction a as [|c a IH]; [reflexivity|].
  change (String c a ++ b) with (String c (a ++ b)). cbn [OsPath.lower].
  rewrite IH. reflexivity.
Qed.

Lemma char_in_slash_lower s :
  Py.char_in "/" (OsPath.lower s) = Py.char_in "/" s.
Proof.
  induction s as [|c s IH]; [reflexivity|]. cbn [OsPath.lower Py.char_in].
  rewrite IH, (Ascii.eqb_sym "/"), (Ascii.eqb_sym "/" c).
  destruct (lower_char_facts c) as (-> & _). reflexivity.
Qed.

Lemma basename_lower p :
  OsPath.basename (OsPath.lower p) = OsPath.lower (OsPath.basename p).
Proof.
  induction p as [|c p IH]; [reflexivity|].
  cbn [OsPath.lower OsPath.basename]. rewrite char_in_slash_lower.
  destruct (Py.char_in "/" p); [exact IH|].
  destruct (lower_char_facts c) as (-> & _).
  destruct (Ascii.eqb c "/"); reflexivity.
Qed.

Lemma last_dot_lower s :
  OsPath.last_dot (OsPath.lower s)
  = match OsPath.last_dot s with
    | Some (a, e) => Some (OsPath.lower a, OsPath.lower e)
    | None => None
    end.
Proof.
  induction s as [|c s IH]; [reflexivity|].
  cbn [OsPath.lower OsPath.last_dot]. rewrite IH.
  destruct (OsPath.last_dot s) as [[a e]|]; [reflexivity|].
  destruct (lower_char_facts c) as (_ & -> & _).
  destruct (Ascii.eqb c "."); reflexivity.
Qed.

Lemma all_dots_lower s : OsPath.all_dots (OsPath.lower s) = OsPath.all_dots s.
Proof.
  induction s as [|c s IH]; [reflexivity|]. cbn [OsPath.lower OsPath.all_dots].
  rewrite IH. destruct (lower_char_facts c) as (_ & -> & _). reflexivity.
Qed.

Lemma splitext_ext_lower p :
  OsPath.splitext_ext (OsPath.lower p) = OsPath.lower (OsPath.splitext_ext p).
Proof.
  unfold OsPath.splitext_ext. rewrite basename_lower, last_dot_lower.
  destruct (OsPath.last_dot (OsPath.basename p)) as [[a e]|]; [|reflexivity].
  rewrite all_dots_lower. destruct (OsPath.all_dots a); reflexivity.
Qed.

(** The shape of an extension: empty, or a dot followed by characters
    that are neither dots nor separators. *)
Lemma last_dot_none_no_dot s : OsPath.last_dot s = None -> Py.char_in "." s = false.
Proof.
  induction s as [|d s IH]; [reflexivity|]. cbn [OsPath.last_dot Py.char_in].
  destruct (OsPath.last_dot s) as [[? ?]|]; [discriminate|].
  rewrite (Ascii.eqb_sym "." d).
  destruct (Ascii.eqb d "."); [discriminate|]. intros _. apply IH. reflexivity.
Qed.

Lemma last_dot_shape s a e :
  OsPath.last_dot s = Some (a, e) ->
  exists r, e = String "." r /\ s = a ++ e /\ Py.char_in "." r = false.
Proof.
  revert a e. induction s as [|c s IH]; intros a e; [discriminate|].
  cbn [OsPath.last_dot].
  destruct (OsPath.last_dot s) as [[a' e']|] eqn:E.
  - intros H. injection H as <- <-. destruct (IH _ _ eq_refl) as (r & -> & -> & Hr).
    exists r. auto.
  - destruct (Ascii.eqb c ".") eqn:Ec; [|discriminate].
    intros H. injection H as <- <-. apply Ascii.eqb_eq in Ec as ->.
    exists s. conjs; auto. apply last_dot_none_no_dot, E.
Qed.

(** [is_media_file] looks at the last extension of the file name and at
    nothing else: two paths that differ only in the case of their letters
    get the same answer, the directory of a file does not matter, and a
    file is a media file only by an entry of the list that is empty or a
    dot followed by characters that are neither dots nor separators, in
    lower case; an entry like [".tar.gz"] or ["mp4"] matches no file. *)
Theorem media_file_by_last_extension (cfg : Config) :
  (forall p q, OsPath.lower p = OsPath.lower q ->
               is_media_file cfg p = is_media_file cfg q)
  /\ (forall dir name, Py.char_in "/" name = false ->
         is_media_file cfg (Py.path_join dir name) = is_media_file cfg name)
  /\ (forall p, is_media_file cfg p = true ->
         exists e, In e (media_extensions cfg)
           /\ e = OsPath.lower (OsPath.splitext_ext p)
           /\ OsPath.lower e = e
           /\ (e = EmptyString
               \/ exists r, e = String "." r /\ Py.char_in "." r = false
                            /\ Py.char_in "/" r = false)).
Proof.
  conjs.
  - intros p q H. unfold is_media_file.
    rewrite <- !splitext_ext_lower, H. reflexivity.
  - intros dir name Hn. unfold is_media_file, OsPath.splitext_ext.
    rewrite (basename_path_join dir name Hn), (basename_plain name Hn). reflexivity.
  - intros p H. unfold is_media_file in H. apply existsb_exists in H as (e & Hin & He).
    apply String.eqb_eq in He. subst e.
    exists (OsPath.lower (OsPath.splitext_ext p)).
    conjs; [exact Hin|reflexivity|apply lower_idempotent|].
    unfold OsPath.splitext_ext.
    destruct (OsPath.last_dot (OsPath.basename p)) as [[a e]|] eqn:E; [|auto].
    destruct (OsPath.all_dots a); [auto|]. right.
    destruct (last_dot_shape _ _ _ E) as (r & -> & Hs & Hr).
    exists (OsPath.lower r). conjs.
    + cbn [OsPath.lower]. reflexivity.
    + clear -Hr. induction r as [|c r IH]; [reflexivity|].
      cbn [Py.char_in OsPath.lower] in *. apply orb_false_iff in Hr as [Hc Hr].
      rewrite (IH Hr), orb_false_r, Ascii.eqb_sym.
      destruct (lower_char_facts c) as (_ & -> & _). rewrite Ascii.eqb_sym. exact Hc.
    + pose proof (basename_no_slash p) as Hb. rewrite Hs, char_in_app in Hb.
      apply orb_false_iff in Hb as [_ Hb]. cbn [Py.char_in] in Hb.
      apply orb_false_iff in Hb as [_ Hb]. rewrite char_in_slash_lower. exact Hb.
Qed.

Lemma set_add_in s cleaned e : In e (set_add s cleaned) <-> e = s \/ In e cleaned.
Proof.
  unfold set_add. destruct (existsb (String.eqb s) cleaned) eqn:E.
  - split; [auto|]. intros [->|H]; [|exact H].
    apply existsb_exists in E as (x & Hx & Heq). apply String.eqb_eq in Heq as ->.
    exact Hx.
  - rewrite in_app_iff. cbn [In]. intuition congruence.
Qed.

Lemma cleaned_members lines :
  forall cleaned e,
    In e (fold_left (fun cleaned line =>
                       match clean_extension line with
                       | Some s => set_add s cleaned
                       | None => cleaned
                       end) lines cleaned)
    <-> In e cleaned
        \/ exists line, In line lines /\ clean_extension line = Some e.
Proof.
  induction lines as [|l lines IH]; intros cleaned e; cbn [fold_left].
  - split; [auto|]. intros [H|(line & [] & _)]. exact H.
  - rewrite IH. destruct (clean_extension l) as [s|] eqn:E.
    + rewrite set_add_in. split.
      * intros [[->|H]|(line & Hin & Hc)]; [right; exists l; cbn; auto|auto|].
        right. exists line. cbn. auto.
      * intros [H|(line & [<-|Hin] & Hc)]; [auto| |right; eauto].
        left. left. congruence.
    + split.
      * intros [H|(line & Hin & Hc)]; [auto|right; exists line; cbn; auto].
      * intros [H|(line & [<-|Hin] & Hc)]; [auto|congruence|right; eauto].
Qed.

Lemma clean_extension_normal line e :
  clean_extension line = Some e ->
  Py.startswith "." e = true /\ OsPath.lower e = e.
Proof.
  unfold clean_extension.
  destruct (Py.truthy (OsPath.lower (Py.strip line))); [|discriminate]. cbn [negb].
  destruct (Py.startswith "." (OsPath.lower (Py.strip line))) eqn:E;
    intros H; injection H as <-.
  - split; [exact E|apply lower_idempotent].
  - change ("." ++ OsPath.lower (Py.strip line))
      with (String "." (OsPath.lower (Py.strip line))).
    split.
    + unfold Py.startswith. rewrite prefix_cons, prefix_empty. reflexivity.
    + cbn [OsPath.lower]. rewrite lower_idempotent. reflexivity.
Qed.

(** What saving the editor of the media types does.  A text without a
    line that stands for an extension (an empty text, blank lines) leaves
    the set of media types as it was: the set cannot be emptied.
    Otherwise the new set holds exactly the extensions the lines stand
    for, each of them in lower case and starting with a dot, and a file
    is then a media file exactly when the lower-case form of its last
    extension is what some line stands for. *)
Theorem saved_media_types (cfg : Config) (entered : string) :
  let lines := Lines.splitlines (Py.strip entered) in
  let exts := save_media_types entered (media_extensions cfg) in
  ((forall line, In line lines -> clean_extension line = None) ->
   exts = media_extensions cfg)
  /\ ((exists line, In line lines /\ clean_extension line <> None) ->
      (forall e, In e exts <->
                 exists line, In line lines /\ clean_extension line = Some e)
      /\ (forall e, In e exts ->
                    Py.startswith "." e = true /\ OsPath.lower e = e)
      /\ (forall p,
            is_media_file (with_media_extensions cfg exts) p = true <->
            exists line, In line lines
              /\ clean_extension line
                 = Some (OsPath.lower (OsPath.splitext_ext p)))).
Proof.
  intros lines exts. unfold exts, save_media_types. fold lines.
  set (cleaned := fold_left _ lines []).
  assert (Hmem : forall e, In e cleaned <->
                   exists line, In line lines /\ clean_extension line = Some e).
  { intros e. unfold cleaned. rewrite cleaned_members. cbn [In]. tauto. }
  split.
  - intros Hblank. destruct cleaned as [|s rest]; [reflexivity|].
    destruct (proj1 (Hmem s) (or_introl eq_refl)) as (line & Hin & Hc).
    rewrite (Hblank line Hin) in Hc. discriminate.
  - intros (line & Hin & Hc).
    destruct (clean_extension line) as [s|] eqn:E; [|congruence].
    assert (Hs : In s cleaned) by (apply Hmem; eauto).
    destruct cleaned as [|s0 rest] eqn:Ecl; [destruct Hs|].
    rewrite <- Ecl in *. clear Ecl. conjs.
    + exact Hmem.
    + intros e He. apply Hmem in He as (l & _ & Hl).
      exact (clean_extension_normal l e Hl).
    + intros p. unfold is_media_file, with_media_extensions. cbn [media_extensions].
      rewrite existsb_exists. split.
      * intros (e & He & Heq). apply String.eqb_eq in Heq. subst e.
        apply Hmem, He.
      * intros Hl. exists (OsPath.lower (OsPath.splitext_ext p)).
        split; [apply Hmem, Hl|apply String.eqb_refl].
Qed.

Lemma splitlines_plain e :
  Py.truthy e = true ->
  PyProps.all_chars (fun c => negb (Lines.line_boundary c)) e = true ->
  Lines.splitlines e = [e].
Proof.
  induction e as [|c e IH]; [discriminate|]. intros _ H.
  cbn [PyProps.all_chars] in H. apply andb_true_iff in H as [Hc He].
  apply negb_true_iff in Hc. cbn [Lines.splitlines]. rewrite Hc.
  destruct e as [|d e]; [reflexivity|]. rewrite (IH eq_refl He). reflexivity.
Qed.

Lemma splitlines_line e rest :
  PyProps.all_chars (fun c => negb (Lines.line_boundary c)) e = true ->
  Lines.splitlines (e ++ String Text.LF rest) = e :: Lines.splitlines rest.
Proof.
  induction e as [|c e IH]; intros H.
  - reflexivity.
  - cbn [PyProps.all_chars] in H. apply andb_true_iff in H as [Hc He].
    apply negb_true_iff in Hc.
    change (String c e ++ String Text.LF rest)
      with (String c (e ++ String Text.LF rest)).
    cbn [Lines.splitlines]. rewrite Hc, (IH He). reflexivity.
Qed.

Lemma editable_truthy e : editable e = true -> Py.truthy e = true.
Proof. destruct e; [discriminate|reflexivity]. Qed.

Lemma splitlines_join shown :
  Forall (fun e => editable e = true) shown ->
  Lines.splitlines (join_lines shown) = shown.
Proof.
  induction shown as [|e shown IH]; intros H; [reflexivity|].
  apply Forall_cons in H as [He H].
  pose proof (editable_truthy e He) as Hne. unfold editable in He.
  apply andb_true_iff in He as [_ Hb].
  destruct shown as [|e2 shown].
  - cbn [join_lines]. apply splitlines_plain; assumption.
  - change (join_lines (e :: e2 :: shown))
      with (e ++ String Text.LF (join_lines (e2 :: shown))).
    rewrite (splitlines_line _ _ Hb), (IH H). reflexivity.
Qed.

Lemma lstrip_length s : (String.length (Py.lstrip s) <= String.length s)%nat.
Proof.
  induction s as [|c s IH]; [reflexivity|]. cbn [Py.lstrip].
  destruct (Py.isspace c); cbn [String.length]; lia.
Qed.

Lemma lstrip_fixed_head c s :
  Py.lstrip (String c s) = String c s -> Py.isspace c = false.
Proof.
  cbn [Py.lstrip]. destruct (Py.isspace c); [|reflexivity]. intros H.
  pose proof (lstrip_length s) as Hl. rewrite H in Hl. cbn [String.length] in Hl. lia.
Qed.

Lemma rstrip_spaces s t :
  PyProps.all_chars Py.isspace t = true -> Py.rstrip (s ++ t) = Py.rstrip s.
Proof.
  intros Ht.
  assert (Hblank : Py.rstrip t = EmptyString).
  { induction t as [|c t IH]; [reflexivity|]. cbn [PyProps.all_chars] in Ht.
    apply andb_true_iff in Ht as [Hc Ht]. cbn [Py.rstrip]. rewrite (IH Ht), Hc.
    reflexivity. }
  induction s as [|c s IH]; [exact Hblank|].
  change (String c s ++ t) with (String c (s ++ t)). cbn [Py.rstrip].
  rewrite IH. reflexivity.
Qed.

Lemma join_lines_last shown :
  shown <> [] -> exists a e, In e shown /\ join_lines shown = a ++ e.
Proof.
  induction shown as [|e shown IH]; [congruence|]. intros _.
  destruct shown as [|e2 shown].
  - exists EmptyString, e. cbn. auto.
  - destruct IH as (a & l & Hin & Hj); [discriminate|].
    exists (e ++ String Text.LF a), l. split; [right; exact Hin|].
    change (join_lines (e :: e2 :: shown))
      with (e ++ String Text.LF (join_lines (e2 :: shown))).
    rewrite Hj.
    change (String Text.LF (a ++ l)) with (String Text.LF a ++ l).
    rewrite append_assoc3. reflexivity.
Qed.

Lemma strip_editor_text shown trailing :
  shown <> [] ->
  Forall (fun e => editable e = true) shown ->
  PyProps.all_chars Py.isspace trailing = true ->
  Py.strip (join_lines shown ++ trailing) = join_lines shown.
Proof.
  intros Hne Hed Hsp. unfold Py.strip.
  assert (Hhead : Py.lstrip (join_lines shown ++ trailing)
                  = join_lines shown ++ trailing).
  { destruct shown as [|e shown]; [congruence|].
    apply Forall_cons in Hed as [He _].
    pose proof (editable_truthy e He) as Ht. unfold editable in He.
    apply andb_true_iff in He as [He _]. apply andb_true_iff in He as [He _].
    apply andb_true_iff in He as [_ Hl]. apply String.eqb_eq in Hl.
    destruct e as [|c e]; [discriminate|].
    pose proof (lstrip_fixed_head c e Hl) as Hc.
    destruct shown as [|e2 shown].
    - change (join_lines [String c e] ++ trailing) with (String c (e ++ trailing)).
      cbn [Py.lstrip]. rewrite Hc. reflexivity.
    - change (join_lines (String c e :: e2 :: shown) ++ trailing)
        with (String c ((e ++ String Text.LF (join_lines (e2 :: shown)))
                        ++ trailing)).
      cbn [Py.lstrip]. rewrite Hc. reflexivity. }
  rewrite Hhead.
  destruct (join_lines_last shown Hne) as (a & e & Hin & ->).
  rewrite Forall_forall in Hed. apply list_elem_of_In in Hin.
  specialize (Hed e Hin). pose proof (editable_truthy e Hed) as Ht.
  unfold editable in Hed.
  apply andb_true_iff in Hed as [Hed _]. apply andb_true_iff in Hed as [_ Hr].
  apply String.eqb_eq in Hr.
  rewrite append_assoc3, rstrip_app_kept; rewrite (rstrip_spaces e trailing Hsp), Hr.
  - reflexivity.
  - exact Ht.
Qed.

(** Opening the editor of the media types and saving it unchanged keeps
    the set.  When the editor shows the media types, in any order, one on
    each line, each of them an extension as the editor stores them, and
    the text comes back as it was shown, followed by whitespace at most,
    the set after [save] has exactly the members it had. *)
Theorem media_types_editor_round_trip (cfg : Config) (shown : list string)
    (trailing : string) :
  (forall e, In e shown <-> In e (media_extensions cfg)) ->
  Forall (fun e => editable e = true) shown ->
  PyProps.all_chars Py.isspace trailing = true ->
  forall e,
    In e (save_media_types (join_lines shown ++ trailing) (media_extensions cfg))
    <-> In e (media_extensions cfg).
Proof.
  intros Hsame Hed Hsp e. unfold save_media_types.
  destruct shown as [|e1 shown'] eqn:Eshown.
  - change (join_lines [] ++ trailing) with trailing.
    rewrite (strip_blank _ Hsp). cbn [Lines.splitlines fold_left].
    split; [auto|]. intros H. exact H.
  - rewrite <- Eshown in *.
    rewrite (strip_editor_text shown trailing) by (try congruence; assumption).
    rewrite (splitlines_join shown Hed).
    set (cleaned := fold_left _ shown []).
    assert (Hmem : forall x, In x cleaned <-> In x shown).
    { intros x. unfold cleaned. rewrite cleaned_members. cbn [In]. split.
      - intros [[]|(line & Hin & Hc)].
        rewrite Forall_forall in Hed. pose proof Hin as Hin'.
        apply list_elem_of_In in Hin'. specialize (Hed _ Hin').
        unfold editable in Hed. rewrite Hc in Hed.
        repeat (apply andb_true_iff in Hed as [Hed _]).
        apply String.eqb_eq in Hed. subst x. exact Hin.
      - intros Hin. right. exists x. split; [exact Hin|].
        rewrite Forall_forall in Hed. apply list_elem_of_In in Hin.
        specialize (Hed _ Hin). unfold editable in Hed.
        destruct (clean_extension x) as [x'|]; [|discriminate].
        repeat (apply andb_true_iff in Hed as [Hed _]).
        apply String.eqb_eq in Hed. congruence. }
    assert (Hin1 : In e1 cleaned) by (apply Hmem; rewrite Eshown; left; reflexivity).
    destruct cleaned as [|c0 rest] eqn:Ec; [destruct Hin1|].
    rewrite <- Ec in *. rewrite Hmem. apply Hsame.
Qed.

(** ** The log viewer *)

Section LogNames.

Import PyProps.

Lemma prefix_length sep u :
  String.prefix sep u = true -> (String.length sep <= String.length u)%nat.
Proof.
  revert u. induction sep as [|x sep IH]; intros u Hu; [cbn; lia|].
  destruct u as [|y u]; [discriminate|]. rewrite prefix_cons in Hu.
  apply andb_true_iff in Hu as [_ Hu]. specialize (IH _ Hu).
  cbn [String.length]. lia.
Qed.

Lemma split_once_found sep s :
  Py.truthy sep = true -> occurs sep s = true ->
  forall t, exists a b,
    Py.split_once sep (s ++ t) = Some (a, b)
    /\ (String.length a + String.length sep <= String.length s)%nat.
Proof.
  intros Hsep. induction s as [|c s IH]; intros Ho t.
  - destruct sep; discriminate.
  - rewrite occurs_cons in Ho.
    change (String c s ++ t) with (String c (s ++ t)). rewrite split_once_cons.
    destruct (String.prefix sep (String c s)) eqn:Ep.
    + change (String c (s ++ t)) with (String c s ++ t).
      rewrite (prefix_app _ _ t Ep). eexists _, _. split; [reflexivity|].
      pose proof (prefix_length _ _ Ep). cbn [String.length] in *. lia.
    + cbn [orb] in Ho. destruct (IH Ho t) as (a & b & Hs & Hl). rewrite Hs.
      destruct (String.prefix sep (String c (s ++ t))).
      * eexists _, _. split; [reflexivity|]. cbn [String.length] in *. lia.
      * exists (String c a), b. split; [reflexivity|]. cbn [String.length]. lia.
Qed.

Lemma split_once_paren name rest :
  occurs " (" name = false ->
  Py.split_once " (" (name ++ " (" ++ rest) = Some (name, rest).
Proof.
  induction name as [|c name IH]; intros Ho.
  - change (EmptyString ++ " (" ++ rest) with (String " " (String "(" rest)).
    rewrite split_once_cons, !prefix_cons, prefix_empty. cbn [Ascii.eqb andb].
    cbn. rewrite Nat.sub_0_r, substring_whole. reflexivity.
  - rewrite occurs_cons in Ho. apply orb_false_iff in Ho as [Hp Ho].
    change (String c name ++ " (" ++ rest) with (String c (name ++ " (" ++ rest)).
    rewrite split_once_cons, (IH Ho).
    replace (String.prefix " (" (String c (name ++ " (" ++ rest))) with false;
      [reflexivity|].
    symmetry. rewrite prefix_cons in *.
    destruct (Ascii.eqb " " c); [|reflexivity]. cbn [andb] in *.
    destruct name as [|d name]; [reflexivity|].
    change (String d name ++ " (" ++ rest) with (String d (name ++ " (" ++ rest)).
    rewrite prefix_cons, prefix_empty in *. exact Hp.
Qed.

Lemma occurs_paren_no_space a b :
  Py.char_in " " a = false -> occurs " (" (a ++ b) = occurs " (" b.
Proof.
  induction a as [|c a IH]; intros H; [reflexivity|].
  cbn [Py.char_in] in H. apply orb_false_iff in H as [Hc Ha].
  change (String c a ++ b) with (String c (a ++ b)).
  rewrite occurs_cons, prefix_cons, Hc, (IH Ha). reflexivity.
Qed.

Lemma occurs_paren_suffix s t :
  String.prefix "(" t = false -> occurs " (" t = false ->
  occurs " (" (s ++ t) = occurs " (" s.
Proof.
  intros Ht Hot. induction s as [|c s IH].
  - change (EmptyString ++ t) with t. rewrite Hot. reflexivity.
  - change (String c s ++ t) with (String c (s ++ t)).
    rewrite !occurs_cons, IH, !prefix_cons. f_equal. f_equal.
    destruct s as [|d s].
    + change (EmptyString ++ t) with t. rewrite Ht. reflexivity.
    + change (String d s ++ t) with (String d (s ++ t)).
      rewrite !prefix_cons, !prefix_empty. reflexivity.
Qed.

Lemma digit_no_space n : Ascii.eqb " " (Py.digit n) = false.
Proof.
  unfold Py.digit. pose proof (Z.mod_pos_bound n 10 ltac:(lia)) as Hb.
  assert (Hk : exists k, (k < 10)%nat /\ Z.to_N (n mod 10) = N.of_nat k).
  { exists (Z.to_nat (n mod 10)). split; [lia|]. lia. }
  destruct Hk as (k & Hk & ->).
  do 10 (destruct k as [|k]; [reflexivity|]). lia.
Qed.

Lemma fixed_dec_no_space w n : Py.char_in " " (Py.fixed_dec w n) = false.
Proof.
  revert n. induction w as [|w IH]; intros n; [reflexivity|].
  cbn [Py.fixed_dec]. rewrite char_in_app, IH. cbn [Py.char_in orb].
  rewrite digit_no_space. reflexivity.
Qed.

Lemma strftime_stamp_no_space now : Py.char_in " " (strftime_stamp now) = false.
Proof.
  unfold strftime_stamp. rewrite !char_in_app, !fixed_dec_no_space. reflexivity.
Qed.

Lemma log_filename_paren now session :
  occurs " (" (log_filename now session) = occurs " (" session.
Proof.
  unfold log_filename.
  rewrite (occurs_paren_no_space "copy_log_") by reflexivity.
  rewrite occurs_paren_no_space by apply strftime_stamp_no_space.
  rewrite (occurs_paren_no_space "_") by reflexivity.
  apply occurs_paren_suffix; reflexivity.
Qed.

Lemma endswith_app a suffix : endswith suffix (a ++ suffix) = true.
Proof.
  induction a as [|c a IH].
  - change (EmptyString ++ suffix) with suffix. destruct suffix; cbn [endswith];
      rewrite String.eqb_refl; reflexivity.
  - change (String c a ++ suffix) with (String c (a ++ suffix)). cbn [endswith].
    rewrite IH. apply orb_true_r.
Qed.

(** The log viewer finds the file of a line of its list by cutting the
    line at the first [" ("].  A log file that [init_log_file] made is
    listed (its name ends with [".log"]), and the name cut from its line
    is the name of the file exactly when the session name (the project
    name without the whitespace around it) holds no [" ("]; when it holds
    one, the name cut is shorter than the name of the file. *)
Theorem log_viewer_finds_the_file (now : DateTime) (cfg : Config)
    (size_str file_date : string) :
  let log_file := log_filename now (session_name cfg) in
  let cut := selected_log_filename (display_text log_file size_str file_date) in
  endswith ".log" log_file = true
  /\ (occurs " (" (session_name cfg) = false -> cut = log_file)
  /\ (occurs " (" (session_name cfg) = true ->
      (String.length cut < String.length log_file)%nat)
  /\ (cut = log_file <-> occurs " (" (session_name cfg) = false).
Proof.
  intros log_file cut.
  assert (Hend : endswith ".log" log_file = true).
  { unfold log_file, log_filename. rewrite <- !append_assoc3. apply endswith_app. }
  assert (Hgood : occurs " (" (session_name cfg) = false -> cut = log_file).
  { intros Ho. unfold cut, selected_log_filename, display_text.
    rewrite split_once_paren; [reflexivity|].
    unfold log_file. rewrite log_filename_paren. exact Ho. }
  assert (Hbad : occurs " (" (session_name cfg) = true ->
                 (String.length cut < String.length log_file)%nat).
  { intros Ho. unfold cut, selected_log_filename, display_text.
    rewrite <- (log_filename_paren now) in Ho. fold log_file in Ho.
    destruct (split_once_found " (" log_file eq_refl Ho
                (" (" ++ size_str ++ ", " ++ file_date ++ ")"))
      as (a & b & -> & Hl).
    cbn [String.length] in Hl. lia. }
  conjs; auto. split.
  - intros Heq. destruct (occurs " (" (session_name cfg)) eqn:E; [|reflexivity].
    specialize (Hbad eq_refl). rewrite Heq in Hbad. lia.
  - exact Hgood.
Qed.

End LogNames.

(** ** The list of source folders *)

Lemma unselected_skip {A : Type} s sel pos (l : list A) :
  (s < pos)%nat -> unselected (s :: sel) pos l = unselected sel pos l.
Proof.
  revert pos. induction l as [|x l IH]; intros pos Hlt; [reflexivity|].
  cbn [unselected existsb].
  replace (Nat.eqb pos s) with false by (symmetry; apply Nat.eqb_neq; lia).
  cbn [orb]. rewrite IH by lia. reflexivity.
Qed.

Lemma existsb_above pos sel :
  Forall (fun i => (pos < i)%nat) sel -> existsb (Nat.eqb pos) sel = false.
Proof.
  induction sel as [|i sel IH]; intros H; [reflexivity|].
  apply Forall_cons in H as [Hi H]. cbn [existsb]. rewrite (IH H).
  replace (Nat.eqb pos i) with false by (symmetry; apply Nat.eqb_neq; lia).
  reflexivity.
Qed.

Lemma delete_unselected {A : Type} s sel (l : list A) :
  Forall (fun i => (s < i)%nat) sel ->
  forall pos, (pos <= s)%nat ->
    delete (s - pos)%nat (unselected sel pos l) = unselected (s :: sel) pos l.
Proof.
  intros Hsel. induction l as [|x l IH]; intros pos Hle; [reflexivity|].
  cbn [unselected existsb].
  assert (Hpos : existsb (Nat.eqb pos) sel = false).
  { apply existsb_above. eapply Forall_impl; [exact Hsel|]. cbn. intros; lia. }
  rewrite Hpos. destruct (Nat.eqb_spec pos s) as [->|Hne]; cbn [orb].
  - rewrite Nat.sub_diag. cbn. rewrite unselected_skip by lia. reflexivity.
  - replace (s - pos)%nat with (S (s - S pos)) by lia. cbn.
    rewrite IH by lia. reflexivity.
Qed.

Lemma unselected_lookup {A : Type} s sel (l : list A) :
  Forall (fun i => (s < i)%nat) sel ->
  forall pos, (pos <= s)%nat ->
    unselected sel pos l !! (s - pos)%nat = l !! (s - pos)%nat.
Proof.
  intros Hsel. induction l as [|x l IH]; intros pos Hle; [reflexivity|].
  cbn [unselected].
  assert (Hpos : existsb (Nat.eqb pos) sel = false).
  { apply existsb_above. eapply Forall_impl; [exact Hsel|]. cbn. intros; lia. }
  rewrite Hpos. destruct (Nat.eq_dec pos s) as [->|Hne].
  - rewrite Nat.sub_diag. reflexivity.
  - replace (s - pos)%nat with (S (s - S pos)) by lia. cbn. apply IH. lia.
Qed.

Lemma unselected_map {A B : Type} (f : A -> B) sel pos l :
  unselected sel pos (map f l) = map f (unselected sel pos l).
Proof.
  revert pos. induction l as [|x l IH]; intros pos; [reflexivity|].
  cbn [map unselected]. rewrite IH.
  destruct (existsb (Nat.eqb pos) sel); reflexivity.
Qed.

Lemma unselected_in {A : Type} sel pos (l : list A) x :
  In x (unselected sel pos l) -> In x l.
Proof.
  revert pos. induction l as [|y l IH]; intros pos; [trivial|].
  cbn [unselected]. destruct (existsb (Nat.eqb pos) sel); cbn [In].
  - intros H. right. exact (IH _ H).
  - intros [H|H]; [auto|right; exact (IH _ H)].
Qed.

Lemma ascending_below_spec bound lo sel :
  ascending_below bound lo sel = true ->
  Forall (fun i => (lo <= i < bound)%nat) sel
  /\ match sel with
     | [] => True
     | s :: rest => Forall (fun i => (s < i)%nat) rest
                    /\ ascending_below bound (S s) rest = true
     end.
Proof.
  revert lo. induction sel as [|s sel IH]; intros lo H; [auto|].
  cbn [ascending_below] in H. apply andb_true_iff in H as [H Hrest].
  apply andb_true_iff in H as [Hlo Hhi].
  apply Nat.leb_le in Hlo. apply Nat.ltb_lt in Hhi.
  destruct (IH _ Hrest) as [Hall _]. split; [|split].
  - constructor; [lia|]. eapply Forall_impl; [exact Hall|]. cbn. intros; lia.
  - eapply Forall_impl; [exact Hall|]. cbn. intros; lia.
  - exact Hrest.
Qed.

Lemma remove_each_app rs1 rs2 st :
  remove_each (rs1 ++ rs2) st
  = match remove_each rs1 st with
    | Some st1 => remove_each rs2 st1
    | None => None
    end.
Proof.
  revert st. induction rs1 as [|i rs1 IH]; intros st; [reflexivity|].
  cbn [app remove_each]. destruct (front_items st !! i); [apply IH|reflexivity].
Qed.

Lemma remove_selected_lists selection :
  forall lo st,
    length (listbox st) = length (front_items st) ->
    ascending_below (length (listbox st)) lo selection = true ->
    exists st',
      remove_selected_folder selection st = Some st'
      /\ front_items st' = unselected selection 0 (front_items st)
      /\ listbox st' = unselected selection 0 (listbox st)
      /\ size_cache st' = size_cache st.
Proof.
  unfold remove_selected_folder.
  induction selection as [|s sel IH]; intros lo st Hlen Hasc.
  - exists st. cbn [rev remove_each]. conjs; auto.
    + clear. generalize 0%nat. induction (front_items st) as [|x l IHl]; intros n;
        [reflexivity|]. cbn. rewrite <- IHl. reflexivity.
    + clear. generalize 0%nat. induction (listbox st) as [|x l IHl]; intros n;
        [reflexivity|]. cbn. rewrite <- IHl. reflexivity.
  - destruct (ascending_below_spec _ _ _ Hasc) as (Hall & Habove & Hrest).
    apply Forall_cons in Hall as [Hs _].
    destruct (IH (S s) st Hlen Hrest) as (st1 & Hrun & Hitems & Hbox & Hcache).
    cbn [rev]. rewrite remove_each_app, Hrun. cbn [remove_each].
    assert (Hlook : front_items st1 !! s = front_items st !! s).
    { rewrite Hitems. rewrite <- (Nat.sub_0_r s).
      apply unselected_lookup; [exact Habove|lia]. }
    rewrite Hlook.
    destruct (lookup_lt_is_Some_2 (front_items st) s) as [it Hit]; [lia|].
    rewrite Hit. eexists. split; [reflexivity|]. cbn [front_items listbox size_cache].
    rewrite Hitems, Hbox, Hcache. rewrite <- (Nat.sub_0_r s) at 1 3.
    rewrite !delete_unselected by (try exact Habove; lia). auto.
Qed.

(** [remove_selected_folder] removes the selected entries and no other.
    When the front end is in step and the selection is one of its list
    box (positions in increasing order), no [pop] fails, the entries left
    are the entries that were not selected, in their order, and the front
    end is in step again. *)
Theorem removing_keeps_the_unselected (selection : list nat) (st : Front) :
  in_step st ->
  ascending_below (length (listbox st)) 0 selection = true ->
  exists st',
    remove_selected_folder selection st = Some st'
    /\ front_items st' = unselected selection 0 (front_items st)
    /\ in_step st'.
Proof.
  intros [Hbox Hdisp] Hasc.
  destruct (remove_selected_lists selection 0 st) as (st' & Hrun & Hitems & Hb & _).
  { rewrite Hbox, length_map. reflexivity. }
  { exact Hasc. }
  exists st'. conjs; [exact Hrun|exact Hitems|].
  unfold in_step. rewrite Hb, Hitems, Hbox, unselected_map. split; [reflexivity|].
  rewrite Forall_forall in *. intros it Hin. apply Hdisp.
  apply list_elem_of_In. apply list_elem_of_In in Hin.
  exact (unselected_in _ _ _ _ Hin).
Qed.

Lemma listbox_replace {A : Type} index (x : A) (l : list A) :
  (index < length l)%nat ->
  (take index (delete index l) ++ x :: drop index (delete index l))%list
  = <[index := x]> l.
Proof.
  revert index. induction l as [|y l IH]; intros index Hlt; [cbn in Hlt; lia|].
  destruct index as [|index]; [reflexivity|].
  cbn [length] in Hlt. cbn. f_equal. apply IH. lia.
Qed.

(** Adding, renaming and clearing keep the front end in step: after each
    of them the list box shows the text of every entry, in order, made of
    the name, the size and the custom name of the entry.  An added entry
    is sent to the worker under its custom name, and a renamed one under
    the new name, with its path and its size as they were. *)
Theorem front_end_stays_in_step (st : Front) :
  in_step st ->
  (forall folder tree current_time custom,
     let st' := add_source_folder folder tree current_time custom st in
     in_step st'
     /\ (forall custom_name,
           Py.truthy folder = true -> custom = Some custom_name ->
           exists it,
             front_items st' = (front_items st ++ [it])%list
             /\ item_path it = folder
             /\ item_name it = OsPath.basename folder
             /\ folder_name_of (session_item it) = custom_name
             /\ item_size it
                = fst (get_folder_size tree current_time (size_cache st) folder)))
  /\ (forall selection answer st',
        rename_selected_folder selection answer st = Some st' ->
        in_step st'
        /\ length (front_items st') = length (front_items st)
        /\ (forall index new_name it,
              selection = [index] -> answer = Some new_name ->
              front_items st !! index = Some it ->
              exists it',
                front_items st' !! index = Some it'
                /\ folder_name_of (session_item it') = new_name
                /\ item_path it' = item_path it /\ item_size it' = item_size it
                /\ forall other, other <> index ->
                     front_items st' !! other = front_items st !! other))
  /\ (forall confirmed, in_step (clear_all_folders confirmed st)).
Proof.
  intros [Hbox Hdisp]. conjs.
  - intros folder tree current_time custom st'. unfold st', add_source_folder.
    destruct (Py.truthy folder); [|split; [split; assumption|discriminate]].
    destruct (get_folder_size tree current_time (size_cache st) folder)
      as [total_size cache].
    destruct custom as [custom_name|]; cbn [fst].
    + split.
      * unfold in_step. cbn [front_items listbox]. rewrite map_app, Hbox. split;
          [reflexivity|].
        apply Forall_app. split; [exact Hdisp|]. repeat constructor.
      * intros c _ Hc. injection Hc as <-. eexists. split; [reflexivity|].
        cbn. auto.
    + split; [split; assumption|discriminate].
  - intros selection answer st' Hrun. unfold rename_selected_folder in Hrun.
    destruct selection as [|index [|index2 rest]].
    + injection Hrun as <-. conjs; [split; assumption|reflexivity|discriminate].
    + destruct (front_items st !! index) as [source_item|] eqn:Hit; [|discriminate].
      destruct answer as [new_custom_name|].
      * injection Hrun as <-. cbn [front_items listbox].
        assert (Hlt : (index < length (front_items st))%nat)
          by (apply lookup_lt_is_Some_1; eauto).
        conjs.
        -- unfold in_step. cbn [front_items listbox]. split.
           ++ unfold listbox_insert. rewrite listbox_replace
                by (rewrite Hbox, length_map; exact Hlt).
              rewrite Hbox, list_fmap_insert. reflexivity.
           ++ apply Forall_insert; [exact Hdisp|reflexivity].
        -- apply length_insert.
        -- intros index' new_name it Hsel Hans Hit'.
           injection Hsel as <-. injection Hans as <-.
           rewrite Hit in Hit'. injection Hit' as <-.
           eexists. split; [apply list_lookup_insert_eq; exact Hlt|].
           cbn. conjs; auto.
           intros other Hne. apply list_lookup_insert_ne. congruence.
      * injection Hrun as <-. conjs; [split; assumption|reflexivity|discriminate].
    + injection Hrun as <-. conjs; [split; assumption|reflexivity|discriminate].
  - intros confirmed. unfold clear_all_folders.
    assert (Hst : in_step st) by (split; assumption).
    destruct (front_items st); [exact Hst|].
    destruct confirmed; [split; [reflexivity|constructor]|exact Hst].
Qed.

(** ** Two files with one destination path *)



Section LastCopy.

Context {md5_state : Type}.
Variable md5_new : md5_state.
Variable md5_update : md5_state -> list byte -> md5_state.
Variable md5_hexdigest : md5_state -> string.

Local Abbreviation session := (copy_process md5_new md5_update md5_hexdigest).
Local Abbreviation finish := (finish_session md5_new md5_update md5_hexdigest).
Local Abbreviation verify := (verify_files md5_new md5_update md5_hexdigest).



End LastCopy.

(** ** The files the verification counts *)

Section VerifyCount.

Context {md5_state : Type}.
Variable md5_new : md5_state.
Variable md5_update : md5_state -> list byte -> md5_state.
Variable md5_hexdigest : md5_state -> string.
Variable env : Env.
Variable cfg : Config.
Hypothesis Hn : never_stopped env.

Local Abbreviation verify_one :=
  (verify_one_file md5_new md5_update md5_hexdigest).
Local Abbreviation verify_list :=
  (verify_file_list md5_new md5_update md5_hexdigest).
Local Abbreviation verify_ds := (verify_dirs md5_new md5_update md5_hexdigest).
Local Abbreviation verify_its := (verify_items md5_new md5_update md5_hexdigest).
Local Abbreviation agreeing d pairs :=
  (length (List.filter (digests_agree md5_new md5_update md5_hexdigest
                          (src env) d) pairs)).

Lemma counted_verify_refl w : copying (cm w) = true -> counted_verify 0 w w.
Proof. intros H. unfold counted_verify. cbn. conjs; auto. lia. Qed.

Lemma counted_verify_trans n1 n2 w1 w2 w3 :
  counted_verify n1 w1 w2 -> counted_verify n2 w2 w3 ->
  counted_verify (n1 + n2) w1 w3.
Proof.
  intros (A1 & A2 & A3 & A4 & A5) (B1 & B2 & B3 & B4 & B5).
  unfold counted_verify. conjs; try congruence. lia.
Qed.

Lemma counted_verify_poll w :
  copying (cm w) = true ->
  fst (poll env w) = true /\ counted_verify 0 w (snd (poll env w)).
Proof.
  intros Hc. destruct (poll_never_stopped env w Hn) as [Hgo Hcm].
  destruct (poll_frame env w) as (_ & Hd & _).
  split; [congruence|]. unfold counted_verify. rewrite Hcm, Hd. cbn.
  conjs; auto. lia.
Qed.

Lemma agreeing_app d p1 p2 :
  agreeing d (p1 ++ p2)%list = (agreeing d p1 + agreeing d p2)%nat.
Proof. rewrite List.filter_app. apply length_app. Qed.

Lemma verify_one_counted root current_dest file w :
  copying (cm w) = true -> total_md5_files (cm w) <> 0%Z ->
  counted_verify (agreeing (dst w) (files_pairs root current_dest [file])) w
    (verify_one env root current_dest file w).
Proof.
  intros Hc Ht.
  destruct (verify_one_file_eq md5_new md5_update md5_hexdigest env cfg
              root current_dest file w)
    as (w3 & (Hvv & Hvf & Htm & Hcp) & Hd3 & _ & _ & ->).
  apply Z.eqb_neq in Ht. rewrite Htm, Ht.
  cbn [files_pairs map List.filter fst snd]. unfold digests_agree. cbn [fst snd].
  assert (Hstay : forall l, counted_verify 0 w (add_log l w3)).
  { intros l. unfold counted_verify. cbn [cm dst add_log].
    conjs; try congruence. lia. }
  unfold OsPath.exists_, calculate_md5, calculate_md5_with.
  destruct (dst w !! Py.path_join current_dest file) as [content|];
    destruct (src env !! Py.path_join root file) as [data|];
    try apply Hstay.
  destruct (String.eqb _ _); [|apply Hstay].
  destruct (update_verify_progress_frame env
              (assign (fun c => set_verified_files (verified_files c + 1)%Z c) w3))
    as (Hcm & _ & Hdd & _).
  unfold counted_verify. cbn [cm dst log add_log length]. rewrite Hcm, Hdd.
  cbn [cm dst assign].
  destruct (cm w3) eqn:E. cbn in *. conjs; try congruence.
  - lia.
  - unfold verify_view in *. cbn in *. congruence.
Qed.

Lemma verify_list_counted root current_dest files :
  forall w,
    copying (cm w) = true -> total_md5_files (cm w) <> 0%Z ->
    counted_verify (agreeing (dst w) (files_pairs root current_dest files)) w
      (verify_list env root current_dest files w).
Proof.
  induction files as [|file files IH]; intros w Hc Ht.
  - apply counted_verify_refl, Hc.
  - rewrite verify_file_list_cons.
    destruct (counted_verify_poll w Hc) as [Hgo Hpo].
    destruct (poll env w) as [go w1]. cbn [fst snd] in Hgo, Hpo. subst go.
    change (files_pairs root current_dest (file :: files))
      with (files_pairs root current_dest [file]
            ++ files_pairs root current_dest files)%list.
    rewrite agreeing_app.
    pose proof (verify_one_counted root current_dest file w1) as Hstep.
    destruct Hpo as (A1 & A2 & A3 & A4 & A5).
    specialize (Hstep A1 ltac:(congruence)). rewrite A5 in Hstep.
    assert (Hpo : counted_verify 0 w w1) by (unfold counted_verify; auto).
    pose proof (counted_verify_trans _ _ _ _ _ Hpo Hstep) as H2.
    cbn [Nat.add] in H2.
    eapply counted_verify_trans; [exact H2|].
    destruct Hstep as (B1 & B2 & B3 & B4 & B5).
    replace (dst w) with (dst (verify_one env root current_dest file w1))
      by congruence.
    apply IH; [exact B1|congruence].
Qed.

Lemma verify_dirs_counted source_path dest_path dirs :
  forall w,
    copying (cm w) = true -> total_md5_files (cm w) <> 0%Z ->
    counted_verify (agreeing (dst w) (dirs_pairs source_path dest_path dirs)) w
      (verify_ds env source_path dest_path dirs w).
Proof.
  induction dirs as [|[rel files] dirs IH]; intros w Hc Ht.
  - apply counted_verify_refl, Hc.
  - rewrite verify_dirs_cons.
    destruct (counted_verify_poll w Hc) as [Hgo Hpo].
    destruct (poll env w) as [go w1]. cbn [fst snd] in Hgo, Hpo. subst go.
    cbv zeta.
    change (dirs_pairs source_path dest_path ((rel, files) :: dirs))
      with (files_pairs (OsPath.walk_root source_path rel)
              (dest_dir dest_path rel) files
            ++ dirs_pairs source_path dest_path dirs)%list.
    rewrite agreeing_app.
    destruct Hpo as (A1 & A2 & A3 & A4 & A5).
    pose proof (verify_list_counted (OsPath.walk_root source_path rel)
                  (dest_dir dest_path rel) files w1 A1 ltac:(congruence)) as Hstep.
    rewrite A5 in Hstep.
    assert (Hpo : counted_verify 0 w w1) by (unfold counted_verify; auto).
    pose proof (counted_verify_trans _ _ _ _ _ Hpo Hstep) as H2.
    cbn [Nat.add] in H2.
    eapply counted_verify_trans; [exact H2|].
    destruct Hstep as (B1 & B2 & B3 & B4 & B5).
    replace (dst w) with (dst (verify_list env (OsPath.walk_root source_path rel)
                                 (dest_dir dest_path rel) files w1))
      by congruence.
    apply IH; [exact B1|congruence].
Qed.

Lemma verify_items_counted final_dest items :
  forall w,
    copying (cm w) = true -> total_md5_files (cm w) <> 0%Z ->
    counted_verify (agreeing (dst w) (session_pairs env final_dest items)) w
      (verify_its env final_dest items w).
Proof.
  induction items as [|it items IH]; intros w Hc Ht.
  - apply counted_verify_refl, Hc.
  - rewrite verify_items_cons.
    destruct (counted_verify_poll w Hc) as [Hgo Hpo].
    destruct (poll env w) as [go w1]. cbn [fst snd] in Hgo, Hpo. subst go.
    cbv zeta. unfold verify_folder.
    change (session_pairs env final_dest (it :: items))
      with (item_pairs env final_dest it
            ++ session_pairs env final_dest items)%list.
    rewrite agreeing_app.
    destruct Hpo as (A1 & A2 & A3 & A4 & A5).
    pose proof (verify_dirs_counted (path it)
                  (Py.path_join final_dest (folder_name_of it))
                  (os_walk env (path it)) w1 A1 ltac:(congruence)) as Hstep.
    rewrite A5 in Hstep. fold (item_pairs env final_dest it) in Hstep.
    assert (Hpo : counted_verify 0 w w1) by (unfold counted_verify; auto).
    pose proof (counted_verify_trans _ _ _ _ _ Hpo Hstep) as H2.
    cbn [Nat.add] in H2.
    eapply counted_verify_trans; [exact H2|].
    destruct Hstep as (B1 & B2 & B3 & B4 & B5).
    replace (dst w) with (dst (verify_ds env (path it)
                                 (Py.path_join final_dest (folder_name_of it))
                                 (os_walk env (path it)) w1))
      by congruence.
    apply IH; [exact B1|congruence].
Qed.

End VerifyCount.

Section VerifyCountSession.

Context {md5_state : Type}.
Variable md5_new : md5_state.
Variable md5_update : md5_state -> list byte -> md5_state.
Variable md5_hexdigest : md5_state -> string.

(** The verification counts exactly the files whose digests agree.
    When the stop button is never pressed and there is a file to verify,
    [verify_files] adds to [verified_files] the number of walked files
    for which the digest of the source file and the digest of the
    destination file can both be computed and are equal; a file that is
    missing at the destination, cannot be read or differs is not counted.
    [total_md5_files] is the number of walked files, whatever the filter
    of the copy let through, the last line of the log is the summary with
    these two numbers and their difference, and the destination is left as
    it was. *)
Theorem verification_counts_matching_files (env : Env) (cfg : Config) (w : World) :
  let pairs :=
    session_pairs env (verify_final_dest cfg (cm w)) (source_items cfg) in
  let matching :=
    List.filter (digests_agree md5_new md5_update md5_hexdigest (src env) (dst w))
      pairs in
  let w' := verify_files md5_new md5_update md5_hexdigest env cfg w in
  never_stopped env ->
  copying (cm w) = true ->
  pairs <> [] ->
  total_md5_files (cm w') = Z.of_nat (length pairs)
  /\ verified_files (cm w')
     = (verified_files (cm w) + Z.of_nat (length matching))%Z
  /\ head (log w')
     = Some (LogVerifySummary (Z.of_nat (length pairs)) (verified_files (cm w'))
               (Z.of_nat (length pairs) - verified_files (cm w'))%Z)
  /\ dst w' = dst w.
Proof.
  intros pairs matching w' Hn Hc Hne.
  unfold w', verify_files, time. cbv zeta beta iota.
  set (total := count_walked env (source_items cfg)).
  assert (Htotal : total = Z.of_nat (length pairs)).
  { unfold total. rewrite count_walked_eq. apply items_walked_pairs. }
  assert (Hpos : total <> 0%Z).
  { rewrite Htotal. destruct pairs; [congruence|]. cbn [length]. lia. }
  set (wP := add_log (LogVerifyStart total) _).
  change (verify_final_dest cfg (cm wP)) with (verify_final_dest cfg (cm w)).
  destruct (verify_items_counted md5_new md5_update md5_hexdigest env cfg Hn
              (verify_final_dest cfg (cm w)) (source_items cfg) wP)
    as (V1 & V2 & V3 & V4 & V5).
  { exact Hc. }
  { exact Hpos. }
  fold pairs in V2.
  change (dst wP) with (dst w) in V2, V5. fold matching in V2.
  change (verified_files (cm wP)) with (verified_files (cm w)) in V2.
  change (total_md5_files (cm wP)) with total in V3.
  cbn [cm dst log add_log head]. rewrite V3, Htotal. conjs; auto.
Qed.

End VerifyCountSession.

(** ** The statements on the small inputs *)


Lemma session_writes_only_its_files_witness :
  ~ written demo_env (demo_cfg true) (session_root demo_env (demo_cfg true))
      (source_items (demo_cfg true)) "/dst/P/card/notes.txt"
  /\ ~ landed demo_env (demo_cfg true) (session_root demo_env (demo_cfg true))
        (source_items (demo_cfg true)) "/dst/P/card/notes.txt"
  /\ dst (snd (copy_process demo_new demo_update demo_hexdigest demo_env
                 (demo_cfg true) demo_stale_world)) !! "/dst/P/card/notes.txt"
     = Some [x05]%byte.
Proof.
  assert (h : ~ written demo_env (demo_cfg true)
                  (session_root demo_env (demo_cfg true))
                  (source_items (demo_cfg true)) "/dst/P/card/notes.txt").
  { intros (it & Hin & rel & files & file & Hd & Hf & Hp & Hpass).
    destruct Hin as [<-|[]].
    destruct Hd as [Hd|[]]. injection Hd as <- <-.
    destruct Hf as [<-|[<-|[]]].
    - vm_compute in Hp. discriminate.
    - vm_compute in Hpass. discriminate. }
  assert (hl : ~ landed demo_env (demo_cfg true)
                   (session_root demo_env (demo_cfg true))
                   (source_items (demo_cfg true)) "/dst/P/card/notes.txt").
  { intros (it & rel & files & file & _ & _ & _ & _ & Hdir & _).
    unfold is_dir in Hdir. cbn in Hdir. discriminate. }
  split; [exact h|]. split; [exact hl|].
  transitivity (dst demo_stale_world !! "/dst/P/card/notes.txt").
  - exact (session_writes_only_its_files demo_new demo_update demo_hexdigest
             demo_env (demo_cfg true) demo_stale_world "/dst/P/card/notes.txt"
             h hl).
  - vm_compute. reflexivity.
Defined.

Lemma stop_before_first_file_witness :
  stop_pressed demo_stopped_env (polls demo_world) = true
  /\ fst (copy_process demo_new demo_update demo_hexdigest demo_stopped_env
            (demo_cfg false) demo_world) = Stopped
  /\ dst (snd (copy_process demo_new demo_update demo_hexdigest demo_stopped_env
                 (demo_cfg false) demo_world)) = dst demo_world
  /\ log (snd (copy_process demo_new demo_update demo_hexdigest demo_stopped_env
                 (demo_cfg false) demo_world))
     = [LogStopped; LogMakeRoot "/dst/P"].
Proof.
  assert (h : stop_pressed demo_stopped_env (polls demo_world) = true)
    by reflexivity.
  pose proof (stop_before_first_file demo_new demo_update demo_hexdigest
                demo_stopped_env (demo_cfg false) demo_world h) as H.
  cbv zeta in H. destruct H as (Hd & _ & _ & Hrest).
  change (makedirs_fault demo_stopped_env
            (session_root demo_stopped_env (demo_cfg false))) with false in Hrest.
  destruct Hrest as (Ho & _ & Hl).
  split; [exact h|]. split; [exact Ho|]. split; [exact Hd|].
  rewrite Hl. vm_compute. reflexivity.
Defined.



Lemma unmade_directory_takes_no_file_witness :
  makedirs_fault demo_unmade_env "/dst/P/card/sub" = true
  /\ is_dir demo_unmade_env (Py.path_join "/dst/P/card/sub" "a.mp4") = false
  /\ cm (copy_one_file demo_unmade_env (demo_cfg false) "/card/sub"
            "/dst/P/card/sub" "a.mp4" demo_counted) = cm demo_counted
  /\ log (copy_one_file demo_unmade_env (demo_cfg false) "/card/sub"
             "/dst/P/card/sub" "a.mp4" demo_counted)
     = [LogCopyFailed "a.mp4"; LogFallback "/card/sub/a.mp4";
        LogCopyFile "a.mp4" "/card/sub/a.mp4" "/dst/P/card/sub/a.mp4"].
Proof.
  assert (h1 : Py.truthy "/dst/P/card/sub" = true) by reflexivity.
  assert (h2 : Py.endswith_slash "/dst/P/card/sub" = false) by reflexivity.
  assert (h3 : Py.char_in "/" "a.mp4" = false) by reflexivity.
  assert (h4 : makedirs_fault demo_unmade_env "/dst/P/card/sub" = true)
    by reflexivity.
  assert (h5 : is_dir demo_unmade_env (Py.path_join "/dst/P/card/sub" "a.mp4")
               = false) by reflexivity.
  pose proof (unmade_directory_takes_no_file demo_unmade_env (demo_cfg false)
                "/card/sub" "/dst/P/card/sub" "a.mp4" demo_counted
                h1 h2 h3 h4 h5) as H.
  cbv zeta in H. destruct H as (_ & _ & Hc & Hl).
  split; [exact h4|]. split; [exact h5|]. split; [exact Hc|].
  rewrite Hl by (vm_compute; reflexivity). vm_compute. reflexivity.
Defined.

Lemma calculate_md5_chunk_size_irrelevant_witness :
  demo_fs !! "/card/a.mp4" = Some [x01; x02; x03]%byte
  /\ (forall chunk_size, chunk_size <> 0%Z ->
        calculate_md5_with demo_new demo_update demo_hexdigest chunk_size demo_fs
          "/card/a.mp4" = Ok (demo_hexdigest [x01; x02; x03]%byte))
  /\ calculate_md5 demo_new demo_update demo_hexdigest demo_fs "/card/a.mp4"
     = Ok (demo_hexdigest [x01; x02; x03]%byte)
  /\ calculate_md5_with demo_new demo_update demo_hexdigest 0 demo_fs "/card/a.mp4"
     = Ok (demo_hexdigest []).
Proof.
  assert (h : demo_fs !! "/card/a.mp4" = Some [x01; x02; x03]%byte)
    by (vm_compute; reflexivity).
  assert (happ : forall st a b : list byte,
            demo_update (demo_update st a) b = demo_update st (a ++ b)%list)
    by (intros st a b; unfold demo_update; symmetry; apply List.app_assoc).
  assert (hnil : forall st : list byte, demo_update st [] = st)
    by (intros st; unfold demo_update; apply List.app_nil_r).
  exact (conj h (calculate_md5_chunk_size_irrelevant demo_new demo_update
                   demo_hexdigest happ hnil demo_fs "/card/a.mp4"
                   [x01; x02; x03]%byte h)).
Defined.

Lemma checksum_file_round_trip_witness :
  (forall st, TextProps.hex_text (demo_hex_hexdigest st) = true)
  /\ demo_writable "/card/checksums.md5" = true
  /\ exists texts' loaded,
       Verifier.create_checksum_file demo_new demo_update demo_hex_hexdigest
         demo_card_fs demo_walk demo_writable ∅ "/card" None
       = Verifier.Saved "/card/checksums.md5" texts'
       /\ load_checksum_file texts' "/card/checksums.md5" = Ok loaded
       /\ loaded !! "a.mp4" = Some "3"
       /\ loaded !! "sub/b.mp4" = Some "1".
Proof.
  assert (h1 : forall st, TextProps.hex_text (demo_hex_hexdigest st) = true).
  { intros st. unfold demo_hex_hexdigest.
    generalize (length st mod 16)%nat. intros n.
    do 16 (destruct n as [|n]; [reflexivity|]). destruct n; reflexivity. }
  assert (h2 : Forall (fun e => TextProps.fits_line (fst e) = true)
                 (Verifier.collect_checksums demo_new demo_update
                    demo_hex_hexdigest demo_card_fs "/card" (demo_walk "/card"))).
  { let cs := eval vm_compute in
      (Verifier.collect_checksums demo_new demo_update demo_hex_hexdigest
         demo_card_fs "/card" (demo_walk "/card")) in
    change (Verifier.collect_checksums demo_new demo_update demo_hex_hexdigest
              demo_card_fs "/card" (demo_walk "/card")) with cs.
    repeat (apply List.Forall_cons; [vm_compute; reflexivity|]).
    apply List.Forall_nil. }
  assert (h3 : demo_writable (default (Py.path_join "/card" "checksums.md5") None)
               = true) by reflexivity.
  split; [exact h1|]. split; [reflexivity|].
  destruct (checksum_file_round_trip demo_new demo_update demo_hex_hexdigest
              demo_card_fs demo_walk demo_writable ∅ "/card" None h1 h2 h3)
    as (texts' & loaded & Hs & _ & Hl & Hget).
  exists texts', loaded.
  split; [exact Hs|]. split; [exact Hl|].
  split; rewrite Hget; vm_compute; reflexivity.
Defined.

Lemma verify_folder_against_itself_witness :
  TextProps.walk_names (demo_walk "/card")
  /\ In ("sub/b.mp4", (true, Verifier.FileDetail NoDetail))
       (fst (Verifier.verify_folder demo_new demo_update demo_hexdigest
               demo_card_fs demo_walk demo_walk demo_writable ∅ "/card" "/card"
               true))
  /\ calculate_md5 demo_new demo_update demo_hexdigest demo_card_fs
       (Py.path_join "/card" "sub/b.mp4") = Ok (demo_hexdigest [x04]%byte)
  /\ (forall source_md5 dest_md5,
        Verifier.FileDetail NoDetail
        <> Verifier.FileDetail (Mismatch source_md5 dest_md5)).
Proof.
  assert (h1 : TextProps.walk_names (demo_walk "/card")).
  { repeat (apply List.Forall_cons;
            [split; [reflexivity|split; [reflexivity|]];
             repeat (apply List.Forall_cons; [reflexivity|]);
             apply List.Forall_nil|]).
    apply List.Forall_nil. }
  assert (h2 : In ("sub/b.mp4", (true, Verifier.FileDetail NoDetail))
                 (fst (Verifier.verify_folder demo_new demo_update demo_hexdigest
                         demo_card_fs demo_walk demo_walk demo_writable ∅
                         "/card" "/card" true))).
  { vm_compute. right. left. reflexivity. }
  split; [exact h1|]. split; [exact h2|]. split; [vm_compute; reflexivity|].
  exact (proj1 (verify_folder_against_itself demo_new demo_update demo_hexdigest
                  demo_card_fs demo_walk demo_walk demo_writable ∅ "/card" true
                  h1 "sub/b.mp4" (true, Verifier.FileDetail NoDetail) h2)).
Defined.

Lemma format_size_units_witness :
  (0 <= 9007254230322381 < 2 ^ 1023)%Z
  /\ format_size 9007254230322381 = "8192.0 TB".
Proof.
  assert (h : (0 <= 9007254230322381 < 2 ^ 1023)%Z)
    by (split; vm_compute; [discriminate|reflexivity]).
  split; [exact h|].
  rewrite (proj2 (format_size_units 9007254230322381 h)).
  vm_compute. reflexivity.
Defined.

Lemma folder_size_stops_at_depth_witness :
  plain_below demo_tree = true
  /\ fst (get_folder_size demo_tree 7 ∅ "/media/card") = 2051%Z
  /\ snd (get_folder_size demo_tree 7 ∅ "/media/card") !! "/media/card"
     = Some (2051%Z, 7%Q).
Proof.
  assert (h1 : plain_below demo_tree = true) by reflexivity.
  assert (h2 : (∅ : gmap string (Z * Q)) !! "/media/card" = None)
    by apply lookup_empty.
  pose proof (folder_size_stops_at_depth demo_tree 7 ∅ "/media/card" h1 h2) as H.
  cbv zeta in H. destruct H as (Hf & Hs & _).
  split; [exact h1|]. split.
  - rewrite Hf. vm_compute. reflexivity.
  - rewrite Hs. vm_compute. reflexivity.
Defined.

Lemma folder_size_cached_five_seconds_witness :
  (∅ : gmap string (Z * Q)) !! "/media/card" = None
  /\ get_folder_size (Dir "card" [] [])
       (11 # 1) (snd (get_folder_size demo_tree 7 ∅ "/media/card")) "/media/card"
     = get_folder_size demo_tree 7 ∅ "/media/card"
  /\ fst (get_folder_size (Dir "card" [] [])
            12 (snd (get_folder_size demo_tree 7 ∅ "/media/card")) "/media/card")
     = 0%Z.
Proof.
  assert (h : (∅ : gmap string (Z * Q)) !! "/media/card" = None)
    by apply lookup_empty.
  split; [exact h|]. split.
  - pose proof (folder_size_cached_five_seconds demo_tree (Dir "card" [] [])
                  7 (11 # 1) ∅ "/media/card" h) as H.
    cbv zeta in H. destruct H as (_ & Hlt & _).
    apply Hlt. vm_compute. reflexivity.
  - pose proof (folder_size_cached_five_seconds demo_tree (Dir "card" [] [])
                  7 12 ∅ "/media/card" h) as H.
    cbv zeta in H. destruct H as (_ & _ & Hge & _).
    destruct Hge as [Hf _]; [vm_compute; discriminate|].
    rewrite Hf. reflexivity.
Defined.

Lemma media_types_editor_round_trip_witness :
  Forall (fun e => editable e = true) [".mp4"; ".mov"]
  /\ forall e,
       In e (save_media_types
               (join_lines [".mp4"; ".mov"] ++ String Text.LF EmptyString)
               (media_extensions
                  (with_media_extensions (demo_cfg true) [".mov"; ".mp4"])))
       <-> In e [".mov"; ".mp4"].
Proof.
  assert (h1 : forall e, In e [".mp4"; ".mov"]
                         <-> In e (media_extensions
                                     (with_media_extensions (demo_cfg true)
                                        [".mov"; ".mp4"]))).
  { intros e. cbn. tauto. }
  assert (h2 : Forall (fun e => editable e = true) [".mp4"; ".mov"]).
  { repeat (apply List.Forall_cons; [vm_compute; reflexivity|]).
    apply List.Forall_nil. }
  assert (h3 : PyProps.all_chars Py.isspace (String Text.LF EmptyString) = true)
    by (vm_compute; reflexivity).
  exact (conj h2 (media_types_editor_round_trip
                    (with_media_extensions (demo_cfg true) [".mov"; ".mp4"])
                    [".mp4"; ".mov"] (String Text.LF EmptyString) h1 h2 h3)).
Defined.

Lemma removing_keeps_the_unselected_witness :
  in_step demo_front
  /\ exists st',
       remove_selected_folder [0%nat] demo_front = Some st'
       /\ front_items st' = [demo_listed "disk" "B-cam" 2048]
       /\ in_step st'.
Proof.
  assert (h1 : in_step demo_front).
  { split; [reflexivity|].
    repeat (apply List.Forall_cons; [reflexivity|]). apply List.Forall_nil. }
  assert (h2 : ascending_below (length (listbox demo_front)) 0 [0%nat] = true)
    by reflexivity.
  destruct (removing_keeps_the_unselected [0%nat] demo_front h1 h2)
    as (st' & Hr & Hi & Hs).
  split; [exact h1|]. exists st'.
  split; [exact Hr|]. split; [|exact Hs].
  rewrite Hi. reflexivity.
Defined.

Lemma front_end_stays_in_step_witness :
  in_step demo_front
  /\ in_step (add_source_folder "/media/card" demo_tree 7 (Some "A-cam") demo_front)
  /\ in_step (clear_all_folders true demo_front).
Proof.
  assert (h1 : in_step demo_front).
  { split; [reflexivity|].
    repeat (apply List.Forall_cons; [reflexivity|]). apply List.Forall_nil. }
  destruct (front_end_stays_in_step demo_front h1) as (Hadd & _ & Hclear).
  split; [exact h1|]. split.
  - exact (proj1 (Hadd "/media/card" demo_tree 7%Q (Some "A-cam"))).
  - exact (Hclear true).
Defined.


Lemma verification_counts_matching_files_witness :
  copying (cm demo_twin_copied) = true
  /\ total_md5_files (cm (verify_files demo_new demo_update demo_hexdigest
                            demo_twin_env demo_twin_cfg demo_twin_copied)) = 2%Z
  /\ verified_files (cm (verify_files demo_new demo_update demo_hexdigest
                           demo_twin_env demo_twin_cfg demo_twin_copied)) = 1%Z.
Proof.
  assert (h1 : never_stopped demo_twin_env) by (intros n; reflexivity).
  assert (h2 : copying (cm demo_twin_copied) = true) by (vm_compute; reflexivity).
  assert (h3 : session_pairs demo_twin_env
                 (verify_final_dest demo_twin_cfg (cm demo_twin_copied))
                 (source_items demo_twin_cfg) <> [])
    by (vm_compute; discriminate).
  pose proof (verification_counts_matching_files demo_new demo_update
                demo_hexdigest demo_twin_env demo_twin_cfg demo_twin_copied
                h1 h2 h3) as H.
  cbv zeta in H. destruct H as (Ht & Hv & _).
  split; [exact h2|]. split.
  - rewrite Ht. vm_compute. reflexivity.
  - rewrite Hv. vm_compute. reflexivity.
Defined.

